(** * Data collection pipeline (Assignment_2/phase_1/1_collect_data.py)

    A shallow embedding of the collection script: price download, article
    scraping, dataset merging and the [main] driver, together with the
    helper of [utils.py] and the schema table of [dataset_schema.py].

    The script is effectful Python.  Effects are modelled by a state and
    exception monad over a [world] holding
    - the chronological [trace] of observable events (stdout lines, file
      system and network calls together with their outcome, sleeps), and
    - the [heap] of DataFrame objects that are passed between functions, so
      that in-place updates and aliasing are visible.

    Everything outside the repository (the file system, yfinance, requests,
    BeautifulSoup, pandera, and the pandas routines whose result is not
    fixed by their documentation) is a field of an environment record [Env];
    theorems hold for every environment. *)

From Stdlib Require Import ZArith String Ascii Floats.
From stdpp Require Import base tactics option list strings sorting numbers.

(** ** Table cells and DataFrames *)

(** A Python value stored in a DataFrame cell.  A float64 is kept by its
    IEEE-754 bit pattern; a Timestamp by its nanoseconds since the epoch. *)
Inductive cell :=
  | CStr (s : string)
  | CInt (n : Z)
  | CFloat (bits : Z)
  | CNaN
  | CTime (t : Z)
  | CNaT.

Global Instance cell_eq_dec : EqDecision cell.
Proof. solve_decision. Defined.

(** A DataFrame with the default RangeIndex: the column labels and the rows
    in index order, each row listing its cells in column order. *)
Record DataFrame := { columns : list string; rows : list (list cell) }.

Global Instance DataFrame_eq_dec : EqDecision DataFrame.
Proof. solve_decision. Defined.

(** pandas' failure-case table of a lazy validation, with the four
    attributes read by [test_dataset_schema.py]. *)
Record failure_case := {
  fc_column : string;
  fc_index : nat;
  fc_value : cell;
  fc_check : string
}.

(** Python exceptions (all are subclasses of [Exception]). *)
Inductive exn :=
  | KeyError (missing : list string)
  | ValueError (msg : string)
  | AttributeError (msg : string)
  | UnboundLocalError (name : string)
  | FileNotFoundError (path : string)
  | SchemaErrors (failure_cases : list failure_case)
  | LibraryError (msg : string).

Inductive result (A : Type) :=
  | Ok (a : A)
  | Raise (e : exn).
Arguments Ok {_} _.
Arguments Raise {_} _.

Definition is_ok {A} (r : result A) : bool :=
  match r with Ok _ => true | Raise _ => false end.

(** [Index.get_loc]: position of the first column with the given label. *)
Fixpoint get_loc (cols : list string) (key : string) : option nat :=
  match cols with
  | [] => None
  | c :: cols' => if decide (c = key) then Some 0 else S <$> get_loc cols' key
  end.

(** A cell of a row by position; fields a CSV line lacks read as NaN. *)
Definition cell_at (row : list cell) (i : nat) : cell := default CNaN (row !! i).

(** A row cut or NaN-padded to [n] cells. *)
Definition fit (n : nat) (row : list cell) : list cell :=
  take n (row ++ replicate n CNaN).

(** [row[key]] for a row yielded by [df.iterrows()]. *)
Definition row_getitem (cols : list string) (row : list cell) (key : string)
  : result cell :=
  match get_loc cols key with
  | Some i => Ok (cell_at row i)
  | None => Raise (KeyError [key])
  end.

(** [df[key]]: one column as a list (a Series). *)
Definition getitem (df : DataFrame) (key : string) : result (list cell) :=
  match get_loc (columns df) key with
  | Some i => Ok ((λ row, cell_at row i) <$> rows df)
  | None => Raise (KeyError [key])
  end.

Definition missing_labels (cols keys : list string) : list string :=
  filter (λ k, get_loc cols k = None) keys.

(** [df[keys]]: projection on a list of labels, a new DataFrame; KeyError
    when a label is not a column. *)
Definition getitem_list (df : DataFrame) (keys : list string) : result DataFrame :=
  match missing_labels (columns df) keys with
  | [] =>
      Ok {| columns := keys;
            rows := (λ row, (λ k, cell_at row (default 0 (get_loc (columns df) k)))
                              <$> keys) <$> rows df |}
  | m => Raise (KeyError m)
  end.

(** [df[key] = values]: replaces the column when the label exists, appends
    it as last column otherwise; ValueError on a length mismatch. *)
Definition setitem (df : DataFrame) (key : string) (values : list cell)
  : result DataFrame :=
  if decide (length values = length (rows df)) then
    let n := length (columns df) in
    Ok match get_loc (columns df) key with
       | Some i =>
           {| columns := columns df;
              rows := zip_with (λ row v, <[i:=v]> (fit n row)) (rows df) values |}
       | None =>
           {| columns := columns df ++ [key];
              rows := zip_with (λ row v, fit n row ++ [v]) (rows df) values |}
       end
  else Raise (ValueError "Length of values does not match length of index").

(** [pd.concat(frames, ignore_index=True)] for frames with the same columns. *)
Definition concat (cols : list string) (frames : list DataFrame) : DataFrame :=
  {| columns := cols; rows := mjoin (rows <$> frames) |}.

(** [Series.dropna()] and [Series.unique()] (first occurrences, in order). *)
Definition isna (c : cell) : bool :=
  match c with CNaN | CNaT => true | _ => false end.

Definition dropna (s : list cell) : list cell := filter (λ c, isna c = false) s.

Fixpoint unique (s : list cell) : list cell :=
  match s with
  | [] => []
  | c :: s' => c :: filter (λ d, d ≠ c) (unique s')
  end.

(** ** Python strings *)

Definition lower_ascii (a : ascii) : ascii :=
  let n := N_of_ascii a in
  if (65 <=? n)%N && (n <=? 90)%N then ascii_of_N (n + 32) else a.

(** [str.lower()] on byte strings. *)
Fixpoint lower (s : string) : string :=
  match s with
  | EmptyString => EmptyString
  | String a s' => String (lower_ascii a) (lower s')
  end.

(** [needle in hay]. *)
Fixpoint contains (needle hay : string) : bool :=
  if String.prefix needle hay then true
  else match hay with
       | EmptyString => false
       | String _ hay' => contains needle hay'
       end.

(** Python's [str.isspace] on the ASCII range. *)
Definition isspace (a : ascii) : bool :=
  let n := N_of_ascii a in
  ((9 <=? n)%N && (n <=? 13)%N) || ((28 <=? n)%N && (n <=? 32)%N).

(** [s.split()]: the maximal runs of non-blank characters. *)
Fixpoint split_go (cur : string) (s : string) : list string :=
  match s with
  | EmptyString => if decide (cur = EmptyString) then [] else [String.rev cur]
  | String a s' =>
      if isspace a
      then (if decide (cur = EmptyString) then [] else [String.rev cur]) ++ split_go EmptyString s'
      else split_go (String a cur) s'
  end.
Definition split (s : string) : list string := split_go EmptyString s.

(** [sep.join(parts)]. *)
Definition join (sep : string) (parts : list string) : string :=
  String.concat sep parts.

(** [s[:n]]. *)
Definition slice_to (n : nat) (s : string) : string := substring 0 n s.

(** Truthiness of a str. *)
Definition truthy (s : string) : bool :=
  match s with EmptyString => false | _ => true end.

(** ** The schema table (dataset_schema.py) *)

Inductive dtype := DTimestamp | DStr | DFloat | DInt | DObject.

Inductive check :=
  | IsIn (allowed : list string)
  | Ge (bound : Z).

Record Column := {
  col_dtype : dtype;
  col_checks : list check;
  col_nullable : bool
}.

Record DataFrameSchema := {
  schema_columns : list (string * Column);
  schema_coerce : bool
}.

Definition col (d : dtype) (nullable : bool) : Column :=
  {| col_dtype := d; col_checks := []; col_nullable := nullable |}.

Definition historical_prices_schema : DataFrameSchema :=
  {| schema_columns :=
       [("date", col DTimestamp false); ("symbol", col DStr false);
        ("open", col DFloat false); ("high", col DFloat false);
        ("low", col DFloat false); ("close", col DFloat false);
        ("volume", col DInt false)];
     schema_coerce := true |}.

Definition all_news_schema : DataFrameSchema :=
  {| schema_columns :=
       [("id", col DInt false); ("headline", col DStr false);
        ("URL", col DStr false); ("article", col DStr false);
        ("publisher", col DStr false); ("date", col DTimestamp false);
        ("symbol", col DStr true)];
     schema_coerce := true |}.

Definition aggregated_news_schema : DataFrameSchema :=
  {| schema_columns :=
       [("symbol", col DStr false); ("date", col DTimestamp false);
        ("news", col DStr false)];
     schema_coerce := true |}.

Definition historical_prices_impact_schema : DataFrameSchema :=
  {| schema_columns :=
       [("date", col DTimestamp false); ("symbol", col DStr false);
        ("open", col DFloat false); ("high", col DFloat false);
        ("low", col DFloat false); ("close", col DFloat false);
        ("volume", col DInt false); ("daily_return", col DFloat false);
        ("daily_volatility", col DFloat false);
        ("market_return", col DFloat false); ("beta", col DFloat false);
        ("alpha", col DFloat false); ("idiosyn_return", col DFloat false);
        ("idiosyn_volatility", col DFloat false);
        ("market_adj_return", col DFloat false);
        ("market_adj_volatility", col DFloat false);
        ("impact_score", col DFloat false)];
     schema_coerce := true |}.

Definition trade_log_schema : DataFrameSchema :=
  {| schema_columns :=
       [("date", col DTimestamp false); ("symbol", col DStr false);
        ("trade_type",
         {| col_dtype := DStr; col_checks := [IsIn ["Buy"; "Sell"]];
            col_nullable := false |});
        ("shares",
         {| col_dtype := DInt; col_checks := [Ge 0]; col_nullable := false |});
        ("price",
         {| col_dtype := DFloat; col_checks := [Ge 0]; col_nullable := false |});
        ("trans_amount", col DFloat false);
        ("cash_after_trade", col DFloat false);
        ("news_headline", col DStr true); ("impact_score", col DFloat true)];
     schema_coerce := true |}.

Definition trade_log_summary_schema : DataFrameSchema :=
  {| schema_columns :=
       [("total_gain_loss", col DFloat false);
        ("avg_annual_return_pct", col DFloat false);
        ("total_return_pct", col DFloat false);
        ("final_balance", col DFloat false)];
     schema_coerce := true |}.

Definition vectorized_news_schema : DataFrameSchema :=
  {| schema_columns :=
       [("symbol", col DStr false); ("date", col DTimestamp false);
        ("news_vector", col DObject false); ("impact_score", col DFloat false)];
     schema_coerce := true |}.

(** ** Events, the world and the monad *)

(** One daily bar of the frame returned by [Ticker.history]: the Date index
    and the Open, High, Low, Close and Volume columns (the other columns of
    the frame are dropped by the script's projection). *)
Record bar := {
  Date : Z;
  Open : Z;
  High : Z;
  Low : Z;
  Close : Z;
  Volume : Z
}.

(** The two attributes of a [requests.Response] the script reads. *)
Record response := { status_code : Z; text : string }.

(** The lines the script prints; formatted lines keep their arguments. *)
Inductive message :=
  | Text (line : string)
  | Downloading (symbol : cell)
  | WarnNoData (symbol : cell)
  | ErrorDownloading (symbol : cell) (e : exn)
  | Downloaded (records symbols : nat)
  | ErrorScraping (url : cell) (e : exn)
  | Progress (done total : nat)
  | SkippingBlocked (url : cell)
  | Scraped (succeeded total : nat)
  | Loaded (what : string) (n : nat)
  | MergedTotal (n : nat)
  | ErrorNotFound (path : string)
  | FoundSymbols (n : nat)
  | ValidationFailed (e : exn)
  | SavedTo (path : string)
  | Generated (path : string).

Inductive event :=
  | Stdout (m : message)
  | Makedirs (path : string)
  | PathExists (path : string) (found : bool)
  | ReadCsv (path : string)
  | ToCsv (path : string) (content : DataFrame)
  | TickerHistory (symbol : cell) (start_date end_date : string)
                  (outcome : result (list bar))
  | HttpGet (url : cell) (timeout : Z) (outcome : result response)
  | Sleep (seconds : Z).

(** A reference to a DataFrame object: its position in the heap. *)
Abbreviation loc := nat (only parsing).

Record world := { trace : list event; heap : list DataFrame }.

Definition M (A : Type) : Type := world → result A * world.

Global Instance M_ret : MRet M := λ A a w, (Ok a, w).

Global Instance M_bind : MBind M := λ A B f m w,
  match m w with
  | (Ok a, w') => f a w'
  | (Raise e, w') => (Raise e, w')
  end.

Definition raise {A} (e : exn) : M A := λ w, (Raise e, w).

Definition lift {A} (r : result A) : M A := λ w, (r, w).

(** [try: body except Exception as e: handler e]. *)
Definition try_except {A} (body : M A) (handler : exn → M A) : M A := λ w,
  match body w with
  | (Ok a, w') => (Ok a, w')
  | (Raise e, w') => handler e w'
  end.

Definition emit (ev : event) : M unit := λ w,
  (Ok (), {| trace := trace w ++ [ev]; heap := heap w |}).

Definition print (m : message) : M unit := emit (Stdout m).

Definition sleep (seconds : Z) : M unit := emit (Sleep seconds).

(** A call to the outside: the answer may depend on everything that has
    happened so far, and is logged with the call. *)
Definition call {A} (oracle : list event → result A) (log : result A → event)
  : M A := λ w,
  let r := oracle (trace w) in
  (r, {| trace := trace w ++ [log r]; heap := heap w |}).

(** A pandas operation returning a new DataFrame object. *)
Definition new_frame (df : DataFrame) : M loc := λ w,
  (Ok (length (heap w)), {| trace := trace w; heap := heap w ++ [df] |}).

Definition read_frame (l : loc) : M DataFrame := λ w,
  match heap w !! l with
  | Some df => (Ok df, w)
  | None => (Raise (LibraryError "dangling reference"), w)
  end.

(** An in-place update of the object behind a reference. *)
Definition write_frame (l : loc) (df : DataFrame) : M unit := λ w,
  (Ok (), {| trace := trace w; heap := <[l:=df]> (heap w) |}).

(** [for x in xs: s = body x s]. *)
Fixpoint for_in {A S} (xs : list A) (body : A → S → M S) (s : S) : M S :=
  match xs with
  | [] => mret s
  | x :: xs' => s' ← body x s; for_in xs' body s'
  end.

(** ** External collaborators *)

Record Env := {
  (** the files under the Assignment_2 directory (unchanged during a run) *)
  fs : string → option DataFrame;
  (** [yf.Ticker(symbol).history(start=.., end=..)]: a frame of daily bars,
      or an exception *)
  ticker_history : list event → cell → string → string → result (list bar);
  (** [requests.get(url, headers=.., timeout=..)] *)
  requests_get :
    list event → cell → list (string * string) → Z → result response;
  (** BeautifulSoup: parsed documents and their elements *)
  soup : Type;
  tag : Type;
  BeautifulSoup : string → result soup;
  (** [for element in soup(names): element.decompose()] *)
  decompose : list string → soup → soup;
  (** [soup.find(name)] *)
  find : soup → string → option tag;
  (** [soup.find(name, class_=p)] *)
  find_class : soup → string → (string → bool) → option tag;
  (** [soup.find_all(name)] *)
  find_all : soup → string → list tag;
  (** [element.get_text(separator=sep, strip=True)] *)
  get_text : tag → string → string;
  (** [pd.to_datetime(series)]: a Timestamp or NaT per cell, or ValueError;
      the format is inferred over the whole column *)
  to_datetime : list cell → result (list (option Z));
  (** the row order chosen by [df.sort_values(by)] with the default
      [kind='quicksort'], given the column labels and the rows *)
  sort_rows : list string → list string → list (list cell) → list (list cell);
  (** [list(set(xs))]: iteration order of a Python set *)
  list_set : list cell → list cell;
  (** [schema.validate(df, lazy=True)]: every failure case of the table *)
  validate : DataFrameSchema → DataFrame → list failure_case
}.

(** ** The collection script (1_collect_data.py) and utils.py *)

Definition price_columns : list string :=
  ["date"; "symbol"; "open"; "high"; "low"; "close"; "volume"].

Definition required_cols : list string :=
  ["id"; "headline"; "URL"; "publisher"; "date"; "symbol"].

Definition all_news_columns : list string :=
  ["id"; "headline"; "URL"; "article"; "publisher"; "date"; "symbol"].

Definition headers : list (string * string) :=
  [("User-Agent",
    "Mozilla/5.0 (Windows NT 10.0; Win64; x64) AppleWebKit/537.36 (KHTML, like Gecko) Chrome/120.0.0.0 Safari/537.36");
   ("Accept-Language", "en-US,en;q=0.9");
   ("Referer", "https://www.google.com/")].

Definition content_classes : list string :=
  ["article-body"; "article-content"; "entry-content"; "post-content";
   "content-body"].

Definition analyst_ratings_path : string := "analyst_ratings.csv".
Definition headlines_path : string := "headlines.csv".
Definition datasets_dir : string := "datasets".
Definition historical_prices_path : string := "datasets/historical_prices.csv".
Definition all_news_path : string := "datasets/all_news.csv".

Definition banner : string :=
  "============================================================".

Definition newline_banner : string := String "010" banner.

(** A bar renamed to the canonical columns, with the symbol attached
    (['s&p'] for the index) and the canonical columns selected. *)
Definition price_row (symbol : cell) (b : bar) : list cell :=
  [CTime (Date b);
   (if decide (symbol = CStr "^GSPC") then CStr "s&p" else symbol);
   CFloat (Open b); CFloat (High b); CFloat (Low b); CFloat (Close b);
   CInt (Volume b)].

(** The denylist test of [download_articles]. *)
Definition blocked (url : string) : bool := contains "gurufocus" (lower url).

(** The timestamp column written back by [pd.to_datetime]. *)
Definition timestamp (t : option Z) : cell :=
  match t with Some t => CTime t | None => CNaT end.

(** [range(1, n + 1)] as a column of ids. *)
Definition id_range (n : nat) : list cell := (λ i, CInt (Z.of_nat i)) <$> seq 1 n.

Section Script.
Context (E : Env).

Definition sort_values (by_ : list string) (df : DataFrame) : DataFrame :=
  {| columns := columns df; rows := sort_rows E by_ (columns df) (rows df) |}.

Definition read_csv (path : string) : M DataFrame :=
  match fs E path with
  | Some df => emit (ReadCsv path);; mret df
  | None => raise (FileNotFoundError path)
  end.

Definition path_exists (path : string) : M bool :=
  let found := bool_decide (is_Some (fs E path)) in
  emit (PathExists path found);; mret found.

Definition to_csv (df : DataFrame) (path : string) : M unit :=
  emit (ToCsv path df).

(** [schema.validate(df, lazy=True)]: raises once, with all failure cases. *)
Definition schema_validate (schema : DataFrameSchema) (df : DataFrame) : M unit :=
  match validate E schema df with
  | [] => mret ()
  | failure_cases => raise (SchemaErrors failure_cases)
  end.

(** utils.py *)
Definition load_and_validate_csv (filepath : string) (schema : DataFrameSchema)
  : M loc :=
  df ← read_csv filepath;
  schema_validate schema df;;
  new_frame df.

(** *** download_historical_prices *)

(** The body of the loop over [all_symbols]. *)
Definition fetch_symbol (start_date end_date : string) (symbol : cell)
    (all_data : list DataFrame) : M (list DataFrame) :=
  print (Downloading symbol);;
  try_except
    (df ← call (λ h, ticker_history E h symbol start_date end_date)
               (TickerHistory symbol start_date end_date);
     match df with
     | [] => print (WarnNoData symbol);; mret all_data
     | _ =>
         mret (all_data ++
               [{| columns := price_columns; rows := price_row symbol <$> df |}])
     end)
    (λ e, print (ErrorDownloading symbol e);; mret all_data).

Definition download_historical_prices (symbols : list cell)
    (start_date end_date : string) : M loc :=
  print (Text "Downloading historical prices...");;
  let all_symbols := list_set E symbols ++ [CStr "^GSPC"] in
  all_data ← for_in all_symbols (fetch_symbol start_date end_date) [];
  match all_data with
  | [] => raise (ValueError "No historical price data could be downloaded")
  | _ =>
      let prices_df := concat price_columns all_data in
      let prices_df := sort_values ["date"; "symbol"] prices_df in
      print (Downloaded (length (rows prices_df)) (length all_symbols));;
      new_frame prices_df
  end.

(** *** scrape_article *)

(** [for attempt in range(n)]: the response of the last request made. *)
Fixpoint attempts (n : nat) (url : cell) (last : option response)
  : M (option response) :=
  match n with
  | 0 => mret last
  | S n' =>
      r ← call (λ h, requests_get E h url headers 10%Z) (HttpGet url 10%Z);
      if decide (status_code r = 200%Z) then mret (Some r)
      else sleep 1%Z;; attempts n' url (Some r)
  end.

(** Strategy 2: the first conventional class name with a matching div. *)
Fixpoint by_class (sp : soup E) (class_names : list string) : string :=
  match class_names with
  | [] => ""
  | class_name :: rest =>
      match find_class E sp "div" (λ x, contains class_name (lower x)) with
      | Some article_div => get_text E article_div " "
      | None => by_class sp rest
      end
  end.

Definition extract_text (sp : soup E) : string :=
  let sp := decompose E ["script"; "style"; "nav"; "header"; "footer"; "aside"] sp in
  let article_text :=
    match find E sp "article" with
    | Some article => get_text E article " "
    | None => ""
    end in
  let article_text :=
    if truthy article_text then article_text else by_class sp content_classes in
  let article_text :=
    if truthy article_text then article_text
    else match find_all E sp "p" with
         | [] => article_text
         | paragraphs => join " " ((λ p, get_text E p "") <$> paragraphs)
         end in
  let article_text := join " " (split article_text) in
  slice_to 10000 article_text.

Definition scrape_article (url publisher : cell) : M string :=
  try_except
    (last ← attempts 3 url None;
     match last with
     | None => raise (UnboundLocalError "response")
     | Some r =>
         if decide (status_code r ≠ 200%Z) then mret ""
         else sp ← lift (BeautifulSoup E (text r)); mret (extract_text sp)
     end)
    (λ e, print (ErrorScraping url e);; mret "").

(** *** download_articles *)

(** The body of the loop over [news_df.iterrows()]. *)
Definition article_for (cols : list string) (total : nat) (delay : Z)
    (indexed : nat * list cell) (articles : list string) : M (list string) :=
  let idx := indexed.1 in
  let row := indexed.2 in
  (if decide ((idx + 1) mod 10 = 0) then print (Progress (idx + 1) total)
   else mret ());;
  url ← lift (row_getitem cols row "URL");
  publisher ← lift (row_getitem cols row "publisher");
  match url with
  | CStr u =>
      if blocked u then
        print (SkippingBlocked url);; mret (articles ++ [""])
      else
        article_text ← scrape_article url publisher;
        sleep delay;;
        mret (articles ++ [article_text])
  | _ => raise (AttributeError "lower")
  end.

(** The table behind [news_df] gets its [article] column in place, and
    the same reference is returned. *)
Definition download_articles (news_df : loc) (delay : Z) : M loc :=
  print (Text "Downloading full articles...");;
  df ← read_frame news_df;
  let total := length (rows df) in
  articles ← for_in (imap pair (rows df)) (article_for (columns df) total delay) [];
  df' ← lift (setitem df "article" (CStr <$> articles));
  write_frame news_df df';;
  print (Scraped (length (filter (λ a, truthy a = true) articles)) total);;
  mret news_df.

(** *** merge_datasets *)

Definition merge_datasets (analyst_ratings_path headlines_path : string)
  : M loc :=
  print (Text "Merging datasets...");;
  analyst_ratings_df ← read_csv analyst_ratings_path;
  headlines_df ← read_csv headlines_path;
  print (Loaded "analyst ratings" (length (rows analyst_ratings_df)));;
  print (Loaded "headlines" (length (rows headlines_df)));;
  a ← lift (getitem_list analyst_ratings_df required_cols);
  h ← lift (getitem_list headlines_df required_cols);
  let all_news_df := concat required_cols [a; h] in
  all_news_df ←
    lift (setitem all_news_df "id" (id_range (length (rows all_news_df))));
  dates ← lift (getitem all_news_df "date");
  parsed ← lift (to_datetime E dates);
  all_news_df ← lift (setitem all_news_df "date" (timestamp <$> parsed));
  let all_news_df := sort_values ["date"] all_news_df in
  print (MergedTotal (length (rows all_news_df)));;
  r ← new_frame all_news_df;
  r ← download_articles r 1%Z;
  df ← read_frame r;
  out ← lift (getitem_list df all_news_columns);
  new_frame out.

(** *** main *)

(** One of the two [try: schema.validate(..) except Exception] blocks. *)
Definition validate_logged (title : string) (schema : DataFrameSchema)
    (df : DataFrame) : M unit :=
  print (Text title);;
  try_except
    (schema_validate schema df;; print (Text "  Schema validation passed"))
    (λ e, print (ValidationFailed e)).

(** Task (a) of [main]: symbols of both stub files, price download,
    validation, historical_prices.csv. *)
Definition task_a : M unit :=
  print (Text newline_banner);;
  print (Text "Task (a): Downloading Historical Prices");;
  print (Text banner);;
  analyst_ratings_df ← read_csv analyst_ratings_path;
  headlines_df ← read_csv headlines_path;
  sa ← lift (getitem analyst_ratings_df "symbol");
  sh ← lift (getitem headlines_df "symbol");
  let symbols := list_set E (unique (dropna sa) ++ unique (dropna sh)) in
  print (FoundSymbols (length symbols));;
  prices_df ← download_historical_prices symbols "2009-01-01" "2020-12-31";
  prices ← read_frame prices_df;
  validate_logged "Validating historical_prices schema..."
    historical_prices_schema prices;;
  to_csv prices historical_prices_path;;
  print (SavedTo historical_prices_path).

(** Tasks (b) and (c) of [main]: articles, merge, validation, all_news.csv. *)
Definition task_bc : M unit :=
  print (Text newline_banner);;
  print (Text "Task (b) & (c): Scraping Articles and Merging Datasets");;
  print (Text banner);;
  all_news_df ← merge_datasets analyst_ratings_path headlines_path;
  all_news ← read_frame all_news_df;
  validate_logged "Validating all_news schema..." all_news_schema all_news;;
  to_csv all_news all_news_path;;
  print (SavedTo all_news_path).

Definition main : M unit :=
  emit (Makedirs datasets_dir);;
  print (Text banner);;
  print (Text "Phase 1.1: Data Collection");;
  print (Text banner);;
  found ← path_exists analyst_ratings_path;
  if negb found then
    print (ErrorNotFound analyst_ratings_path);;
    print (Text "Please provide the analyst_ratings.csv file in the Assignment_2 directory")
  else
    found ← path_exists headlines_path;
    if negb found then
      print (ErrorNotFound headlines_path);;
      print (Text "Please provide the headlines.csv file in the Assignment_2 directory")
    else
      task_a;;
      task_bc;;
      print (Text newline_banner);;
      print (Text "Phase 1.1 Complete!");;
      print (Text banner);;
      print (Text "Generated files:");;
      print (Generated historical_prices_path);;
      print (Generated all_news_path).

End Script.

(** ** What the script relies on from its libraries *)

(** A cell of a row by column label, NaN when the label is unknown. *)
Definition field (cols : list string) (row : list cell) (key : string) : cell :=
  match row_getitem cols row key with
  | Ok c => c
  | Raise _ => CNaN
  end.

(** The sort key of a row under [sort_values('date')]: its Timestamp, NaT
    (and anything that is no Timestamp) being placed last. *)
Definition date_of (cols : list string) (row : list cell) : option Z :=
  match row_getitem cols row "date" with
  | Ok (CTime t) => Some t
  | _ => None
  end.

Definition date_le (a b : option Z) : Prop :=
  match a, b with
  | Some x, Some y => (x ≤ y)%Z
  | _, None => True
  | None, Some _ => False
  end.

Global Instance date_le_dec : RelDecision date_le.
Proof. intros [x|] [y|]; simpl; apply _. Defined.

(** What [pd.to_datetime] leaves in a column. *)
Definition is_timestamp (c : cell) : Prop :=
  match c with CTime _ | CNaT => True | _ => False end.

(** The documented contract of the library routines left to the
    environment.  [sort_values] permutes the rows, and orders a table whose
    date column holds Timestamps by that column, NaT last; its default
    [kind='quicksort'] is documented as not stable, so nothing is promised
    about rows with equal keys.  [to_datetime] converts cell by cell.  A
    Python set holds exactly the elements it was built from. *)
Record library_contract (E : Env) : Prop := {
  sort_rows_perm : ∀ by_ cols rs, sort_rows E by_ cols rs ≡ₚ rs;
  sort_rows_date :
    ∀ cols rs,
      Forall (λ row, is_timestamp (field cols row "date")) rs →
      Sorted date_le (date_of cols <$> sort_rows E ["date"] cols rs);
  to_datetime_length :
    ∀ cells ts, to_datetime E cells = Ok ts → length ts = length cells;
  list_set_elem : ∀ xs x, x ∈ list_set E xs ↔ x ∈ xs
}.

(** ** Relations between the world before and after a computation *)

(** Only events satisfying [P] were added to the trace. *)
Definition grows_by (P : event → Prop) (w w' : world) : Prop :=
  ∃ evs, trace w' = trace w ++ evs ∧ Forall P evs.

(** No table was added, removed or changed. *)
Definition same_heap (w w' : world) : Prop := heap w' = heap w.

(** Every table that existed is unchanged; new ones may have been added. *)
Definition heap_extends (w w' : world) : Prop := heap w `prefix_of` heap w'.

(** [m] relates every start world to its end world by [R]. *)
Definition keeps {A} (R : relation world) (m : M A) : Prop :=
  ∀ w, R w (m w).2.

(** Requests to the price provider and to article hosts. *)
Definition is_network (ev : event) : Prop :=
  match ev with
  | TickerHistory _ _ _ _ | HttpGet _ _ _ => True
  | _ => False
  end.

(** Article requests. *)
Definition is_http_get (ev : event) : Prop :=
  match ev with HttpGet _ _ _ => True | _ => False end.

(** Artifacts written. *)
Definition is_to_csv (ev : event) : Prop :=
  match ev with ToCsv _ _ => True | _ => False end.

(** What [scrape_article url _] may add to the trace. *)
Definition scrape_event (url : cell) (ev : event) : Prop :=
  match ev with
  | Stdout _ | Sleep _ => True
  | HttpGet u _ _ => u = url
  | _ => False
  end.

(** The price requests of a stretch of trace, with their outcome. *)
Definition fetch_of (ev : event) : option (cell * result (list bar)) :=
  match ev with
  | TickerHistory symbol _ _ outcome => Some (symbol, outcome)
  | _ => None
  end.

(** All price requests of a stretch of trace, in order. *)
Definition fetches (evs : list event) : list (cell * result (list bar)) :=
  omap fetch_of evs.

(** The normalised bars of a request that produced data. *)
Definition bars_of (f : cell * result (list bar)) : list (list cell) :=
  match f.2 with
  | Ok df => price_row f.1 <$> df
  | Raise _ => []
  end.

(** What [download_articles] may add to the trace: no request goes to a
    denylisted URL. *)
Definition articles_event (ev : event) : Prop :=
  match ev with
  | Stdout _ | Sleep _ => True
  | HttpGet (CStr u) _ _ => blocked u = false
  | _ => False
  end.

(** A Python str. *)
Definition is_str (c : cell) : Prop :=
  match c with CStr _ => True | _ => False end.

(** What the price download may add to the trace. *)
Definition prices_event (ev : event) : Prop :=
  match ev with
  | Stdout _ | TickerHistory _ _ _ _ => True
  | _ => False
  end.

(** Every request without data has its line on stdout. *)
Definition reported (evs : list event) (f : cell * result (list bar)) : Prop :=
  match f.2 with
  | Ok [] => Stdout (WarnNoData f.1) ∈ evs
  | Ok _ => True
  | Raise e => Stdout (ErrorDownloading f.1 e) ∈ evs
  end.

(** The steps of [merge_datasets] between the two projections and the
    article download, as one record of intermediate tables. *)
Record merge_steps (E : Env) (a h : DataFrame) := {
  ms_numbered : DataFrame;
  ms_dates : list cell;
  ms_parsed : list (option Z);
  ms_dated : DataFrame;
  ms_numbered_eq :
    setitem (concat required_cols [a; h]) "id"
      (id_range (length (rows (concat required_cols [a; h])))) = Ok ms_numbered;
  ms_dates_eq : getitem ms_numbered "date" = Ok ms_dates;
  ms_parsed_eq : to_datetime E ms_dates = Ok ms_parsed;
  ms_dated_eq : setitem ms_numbered "date" (timestamp <$> ms_parsed) = Ok ms_dated
}.

(** The row of the merged table made from the projected stub row [src] at
    position [k] of the concatenation, its parsed date [t] and the article
    text [a]. *)
Definition merged_row (k : nat) (src : list cell) (t : option Z) (a : string)
  : list cell :=
  [CInt (Z.of_nat (S k)); field required_cols src "headline";
   field required_cols src "URL"; CStr a;
   field required_cols src "publisher"; timestamp t;
   field required_cols src "symbol"].

(** A column of the table [merge_datasets] returns when run on the stub
    files from the empty world. *)
Definition merged_column (E : Env) (key : string) : option (result (list cell)) :=
  let run := merge_datasets E analyst_ratings_path headlines_path
               {| trace := []; heap := [] |} in
  match run.1 with
  | Ok l => (λ out, getitem out key) <$> heap run.2 !! l
  | Raise _ => None
  end.

(** ** Variations of an environment *)

Definition with_fs (E : Env) (files : string → option DataFrame) : Env :=
  {| fs := files;
     ticker_history := ticker_history E;
     requests_get := requests_get E;
     soup := soup E;
     tag := tag E;
     BeautifulSoup := BeautifulSoup E;
     decompose := decompose E;
     find := find E;
     find_class := find_class E;
     find_all := find_all E;
     get_text := get_text E;
     to_datetime := to_datetime E;
     sort_rows := sort_rows E;
     list_set := list_set E;
     validate := validate E |}.

Definition with_sort (E : Env)
    (sort : list string → list string → list (list cell) → list (list cell))
  : Env :=
  {| fs := fs E;
     ticker_history := ticker_history E;
     requests_get := requests_get E;
     soup := soup E;
     tag := tag E;
     BeautifulSoup := BeautifulSoup E;
     decompose := decompose E;
     find := find E;
     find_class := find_class E;
     find_all := find_all E;
     get_text := get_text E;
     to_datetime := to_datetime E;
     sort_rows := sort;
     list_set := list_set E;
     validate := validate E |}.

Definition with_validate (E : Env)
    (v : DataFrameSchema → DataFrame → list failure_case) : Env :=
  {| fs := fs E;
     ticker_history := ticker_history E;
     requests_get := requests_get E;
     soup := soup E;
     tag := tag E;
     BeautifulSoup := BeautifulSoup E;
     decompose := decompose E;
     find := find E;
     find_class := find_class E;
     find_all := find_all E;
     get_text := get_text E;
     to_datetime := to_datetime E;
     sort_rows := sort_rows E;
     list_set := list_set E;
     validate := v |}.

(** The world after more events. *)
Definition logged (w : world) (evs : list event) : world :=
  {| trace := trace w ++ evs; heap := heap w |}.

(** The line a validation block of [main] prints after its title: success,
    or the exception with every failure case of the table. *)
Definition report (E : Env) (schema : DataFrameSchema) (df : DataFrame) : event :=
  match validate E schema df with
  | [] => Stdout (Text "  Schema validation passed")
  | failure_cases => Stdout (ValidationFailed (SchemaErrors failure_cases))
  end.

(** The stretches of trace [main] writes around its stages. *)
Definition main_prologue : list event :=
  [Makedirs datasets_dir; Stdout (Text banner);
   Stdout (Text "Phase 1.1: Data Collection"); Stdout (Text banner)].

Definition task_a_prologue : list event :=
  [Stdout (Text newline_banner);
   Stdout (Text "Task (a): Downloading Historical Prices");
   Stdout (Text banner);
   ReadCsv analyst_ratings_path; ReadCsv headlines_path].

Definition task_bc_prologue : list event :=
  [Stdout (Text newline_banner);
   Stdout (Text "Task (b) & (c): Scraping Articles and Merging Datasets");
   Stdout (Text banner)].

Definition main_epilogue : list event :=
  [Stdout (Text newline_banner); Stdout (Text "Phase 1.1 Complete!");
   Stdout (Text banner); Stdout (Text "Generated files:");
   Stdout (Generated historical_prices_path); Stdout (Generated all_news_path)].

(** What a stage of [main] writes once its table [df] is there. *)
Definition stage_epilogue (E : Env) (title : string) (schema : DataFrameSchema)
    (df : DataFrame) (path : string) : list event :=
  [Stdout (Text title); report E schema df; ToCsv path df; Stdout (SavedTo path)].

(** What [main] writes after its prologue when an input file is absent:
    the existence checks it made, and the two lines naming the first file
    found absent. *)
Definition missing_input_report (E : Env) : list event :=
  match fs E analyst_ratings_path with
  | None =>
      [PathExists analyst_ratings_path false;
       Stdout (ErrorNotFound analyst_ratings_path);
       Stdout (Text "Please provide the analyst_ratings.csv file in the Assignment_2 directory")]
  | Some _ =>
      [PathExists analyst_ratings_path true;
       PathExists headlines_path false;
       Stdout (ErrorNotFound headlines_path);
       Stdout (Text "Please provide the headlines.csv file in the Assignment_2 directory")]
  end.

(** What [merge_datasets] writes before it projects the stub tables. *)
Definition merge_prologue (A H : DataFrame) : list event :=
  [Stdout (Text "Merging datasets...");
   ReadCsv analyst_ratings_path; ReadCsv headlines_path;
   Stdout (Loaded "analyst ratings" (length (rows A)));
   Stdout (Loaded "headlines" (length (rows H)))].

(** ** A concrete environment *)

Module Scenario.

(** Stub files: 3 analyst ratings and 5 headlines with arbitrary, clashing
    original ids; one row has no symbol. *)
Definition stub (id : Z) (headline url publisher date : string) (symbol : cell)
  : list cell :=
  [CInt id; CStr headline; CStr url; CStr publisher; CStr date; symbol].

Definition analyst_ratings : DataFrame :=
  {| columns := required_cols;
     rows :=
       [stub 101 "Upgrade" "http://news.example/a1" "Benzinga" "2020-01-03" (CStr "AAPL");
        stub 7 "Guru picks" "http://www.GuruFocus.com/news/1" "GuruFocus" "2020-01-01" (CStr "MSFT");
        stub 101 "Wrap" "http://down.example/a3" "Zacks" "2020-01-02" CNaN] |}.

Definition headline_stubs : DataFrame :=
  {| columns := required_cols;
     rows :=
       [stub 1 "H1" "http://news.example/h1" "Benzinga" "2020-01-02" (CStr "AAPL");
        stub 2 "H2" "http://boom.example/h2" "Zacks" "2020-01-01" (CStr "TSLA");
        stub 7 "H3" "http://gurufocus.com/h3" "GuruFocus" "2020-01-04" (CStr "AAPL");
        stub 101 "H4" "http://news.example/h4" "Benzinga" "2020-01-03" (CStr "NONE");
        stub 5 "H5" "http://news.example/h5" "Benzinga" "2020-01-02" (CStr "MSFT")] |}.

Definition files (path : string) : option DataFrame :=
  if decide (path = analyst_ratings_path) then Some analyst_ratings
  else if decide (path = headlines_path) then Some headline_stubs
  else None.

Definition day (d : Z) (close : Z) : bar :=
  {| Date := d; Open := close; High := close; Low := close; Close := close;
     Volume := 1000 |}.

(** AAPL and the index have bars, MSFT has none, TSLA fails. *)
Definition history (h : list event) (symbol : cell) (start_date end_date : string)
  : result (list bar) :=
  if decide (symbol = CStr "AAPL") then Ok [day 20200102 300; day 20200103 303]
  else if decide (symbol = CStr "^GSPC") then Ok [day 20200102 3200; day 20200103 3232]
  else if decide (symbol = CStr "TSLA") then Raise (LibraryError "timed out")
  else Ok [].

(** Hosts named down answer 503, hosts named boom fail to connect, every
    other host serves one page. *)
Definition page : string := "<article>  Shares   rose today. </article>".

Definition http (h : list event) (url : cell) (hdrs : list (string * string))
    (timeout : Z) : result response :=
  match url with
  | CStr u =>
      if contains "down" u then Ok {| status_code := 503; text := "" |}
      else if contains "boom" u then Raise (LibraryError "connection refused")
      else Ok {| status_code := 200; text := page |}
  | _ => Raise (LibraryError "invalid URL")
  end.

(** A document is its source text; an article element is found when the
    text has an article tag. *)
Definition strip_tags (s : string) : string :=
  join " " (filter (λ word, contains "<" word = false) (split s)).

Fixpoint digits (acc : Z) (s : string) : Z :=
  match s with
  | EmptyString => acc
  | String a s' =>
      match Ascii.is_nat a with
      | Some d => digits (10 * acc + Z.of_nat d) s'
      | None => digits acc s'
      end
  end.

(** Dates read as the number yyyymmdd; a missing date becomes NaT. *)
Definition parse_dates (cells : list cell) : result (list (option Z)) :=
  Ok ((λ c, match c with
            | CStr s => Some (digits 0 s)
            | CInt n => Some n
            | CTime t => Some t
            | _ => None
            end) <$> cells).

Definition by_date (cols : list string) : relation (list cell) :=
  λ r1 r2, date_le (date_of cols r1) (date_of cols r2).

Global Instance by_date_dec cols : RelDecision (by_date cols).
Proof. intros r1 r2. unfold by_date. apply _. Defined.

Definition symbol_of (cols : list string) (row : list cell) : string :=
  match row_getitem cols row "symbol" with
  | Ok (CStr s) => s
  | _ => ""
  end.

Definition by_symbol (cols : list string) : relation (list cell) :=
  λ r1 r2, String.le (symbol_of cols r1) (symbol_of cols r2).

Global Instance by_symbol_dec cols : RelDecision (by_symbol cols).
Proof. intros r1 r2. unfold by_symbol. apply _. Defined.

(** Stable merge sorts: on the date, and on (date, symbol) for the prices. *)
Definition stable_sort (by_ cols : list string) (rs : list (list cell))
  : list (list cell) :=
  if decide (by_ = ["date"; "symbol"])
  then merge_sort (by_date cols) (merge_sort (by_symbol cols) rs)
  else merge_sort (by_date cols) rs.

(** A sort that orders by date as well, and leaves rows of equal date in
    the reverse of their input order. *)
Definition reversing_sort (by_ cols : list string) (rs : list (list cell))
  : list (list cell) := stable_sort by_ cols (reverse rs).

(** A non-nullable column holding NaN or NaT is a failure case. *)
Definition null_failures (df : DataFrame) (name : string) : list failure_case :=
  match get_loc (columns df) name with
  | None => []
  | Some i =>
      omap (λ ir, if isna (cell_at ir.2 i)
                  then Some {| fc_column := name; fc_index := ir.1;
                               fc_value := cell_at ir.2 i;
                               fc_check := "not_nullable" |}
                  else None)
           (imap pair (rows df))
  end.

Definition check_nulls (schema : DataFrameSchema) (df : DataFrame)
  : list failure_case :=
  mjoin ((λ c, if col_nullable c.2 then [] else null_failures df c.1)
           <$> schema_columns schema).

Definition env : Env :=
  {| fs := files;
     ticker_history := history;
     requests_get := http;
     soup := string;
     tag := string;
     BeautifulSoup := Ok;
     decompose := λ _ sp, sp;
     find := λ sp name, if contains ("<" +:+ name) sp then Some sp else None;
     find_class := λ _ _ _, None;
     find_all := λ _ _, [];
     get_text := λ t _, strip_tags t;
     to_datetime := parse_dates;
     sort_rows := stable_sort;
     list_set := unique;
     validate := check_nulls |}.

(** The same environment with the other sort. *)
Definition env_reversing : Env := with_sort env reversing_sort.

(** analyst_ratings.csv is absent. *)
Definition env_no_ratings : Env :=
  with_fs env (λ path, if decide (path = headlines_path) then Some headline_stubs
                       else None).

(** analyst_ratings.csv lacks the headline column. *)
Definition ratings_without_headline : DataFrame :=
  {| columns := ["id"; "URL"; "publisher"; "date"; "symbol"];
     rows := [[CInt 101; CStr "http://news.example/a1"; CStr "Benzinga";
               CStr "2020-01-03"; CStr "AAPL"]] |}.

Definition env_malformed : Env :=
  with_fs env (λ path,
    if decide (path = analyst_ratings_path) then Some ratings_without_headline
    else if decide (path = headlines_path) then Some headline_stubs
    else None).

(** A validator that finds a failure case in every row of every table. *)
Definition reject_rows (schema : DataFrameSchema) (df : DataFrame)
  : list failure_case :=
  imap (λ i row, {| fc_column := "date"; fc_index := i;
                    fc_value := cell_at row 0; fc_check := "dtype" |})
       (rows df).

Definition env_rejecting : Env := with_validate env reject_rows.

Definition start : world := {| trace := []; heap := [] |}.

End Scenario.

(** ** The daily return of the impact stage

    The stage that reads the price table and derives [daily_return] is not
    in the repository; only the schema of its output
    ([historical_prices_impact_schema]) is. *)

Module ImpactScorer.

(** Modelled from the spec: the impact-scoring stage is not part of the
    repository (only the schema of its output table is declared, in
    dataset_schema.py).  These are the fields of a PriceBar of the spec's
    data model that the daily return reads; close is a float64. *)
Record PriceBar := { pb_date : Z; pb_symbol : string; pb_close : float }.

(** Modelled from the spec: the simple one-period return of the close price,
    (close_t / close_{t-1}) - 1, in float64 arithmetic. *)
Definition simple_return (close_t close_prev : float) : float :=
  (close_t / close_prev - 1)%float.

(** Modelled from the spec: the prior bar of a symbol (the impact stage is
    not in the repository).  The bars seen so far are listed latest first. *)
Fixpoint prior (symbol : string) (seen : list PriceBar) : option PriceBar :=
  match seen with
  | [] => None
  | b :: seen' =>
      if decide (pb_symbol b = symbol) then Some b else prior symbol seen'
  end.

(** Modelled from the spec: the daily_return column of a price table in
    date order, one value per row, after the bars [seen] (the impact stage
    is not in the repository).  A first observation is treated as
    undefined: it gets no value. *)
Fixpoint daily_return_from (seen bars : list PriceBar) : list (option float) :=
  match bars with
  | [] => []
  | b :: bars' =>
      ((λ p, simple_return (pb_close b) (pb_close p)) <$> prior (pb_symbol b) seen)
      :: daily_return_from (b :: seen) bars'
  end.

(** Modelled from the spec: the daily_return column of the whole price
    table (the impact stage is not in the repository). *)
Definition daily_return (bars : list PriceBar) : list (option float) :=
  daily_return_from [] bars.

(** The bars of one symbol, in table order, and the returns on its rows. *)
Definition series (symbol : string) (bars : list PriceBar) : list PriceBar :=
  filter (λ b, pb_symbol b = symbol) bars.

Definition returns_on (symbol : string) (bars : list PriceBar)
    (returns : list (option float)) : list (option float) :=
  (filter (λ br, pb_symbol br.1 = symbol) (zip bars returns)).*2.

(** The returns along one series, given the bar before it. *)
Fixpoint chained (prev : option PriceBar) (bars : list PriceBar)
  : list (option float) :=
  match bars with
  | [] => []
  | b :: bars' =>
      ((λ p, simple_return (pb_close b) (pb_close p)) <$> prev)
      :: chained (Some b) bars'
  end.

Definition quotes : list PriceBar :=
  [{| pb_date := 20200102; pb_symbol := "AAPL"; pb_close := 300 |};
   {| pb_date := 20200102; pb_symbol := "s&p"; pb_close := 3200 |};
   {| pb_date := 20200103; pb_symbol := "AAPL"; pb_close := 303 |};
   {| pb_date := 20200103; pb_symbol := "s&p"; pb_close := 3232 |}].

End ImpactScorer.

(** ** Texts and traces *)

(** Whitespace occurs in [s] only as a single space after a non-blank
    character ([after_space] tells whether a space precedes [s]). *)
Fixpoint tidy (after_space : bool) (s : string) : bool :=
  match s with
  | EmptyString => true
  | String c s' =>
      if isspace c
      then bool_decide (c = " "%char) && negb after_space && tidy true s'
      else tidy false s'
  end.

(** The same by positions: a blank character of [s] is a space, is not the
    first character, and is not followed by another blank character. *)
Definition single_spaced (s : string) : Prop :=
  ∀ i c, String.get i s = Some c → isspace c = true →
    c = " "%char ∧ 0 < i ∧
    ∀ c', String.get (S i) s = Some c' → isspace c' = false.

(** No blank character at all. *)
Fixpoint blank_free (s : string) : bool :=
  match s with
  | EmptyString => true
  | String c s' => negb (isspace c) && blank_free s'
  end.

(** The trace of refused attempts of [scrape_article]: each request
    answered with a status other than 200, and the pause after it. *)
Definition refusals (url : cell) (rs : list response) : list event :=
  mjoin ((λ r, [HttpGet url 10 (Ok r); Sleep 1]) <$> rs).

(** The outcome of an article request. *)
Definition get_of (ev : event) : option (result response) :=
  match ev with
  | HttpGet _ _ outcome => Some outcome
  | _ => None
  end.

(** The outcomes of the article requests of a stretch of trace, in order. *)
Definition gets (evs : list event) : list (result response) := omap get_of evs.

(** An answer that makes [scrape_article] pause and try again. *)
Definition refused (outcome : result response) : bool :=
  match outcome with
  | Ok r => bool_decide (status_code r ≠ 200%Z)
  | Raise _ => false
  end.

(** The seconds slept in a stretch of trace. *)
Fixpoint slept (evs : list event) : Z :=
  match evs with
  | [] => 0
  | Sleep seconds :: evs' => seconds + slept evs'
  | _ :: evs' => slept evs'
  end.

(** Whether [download_articles] scrapes a row: its URL is a str that the
    denylist does not catch. *)
Definition requested (cols : list string) (row : list cell) : bool :=
  match row_getitem cols row "URL" with
  | Ok (CStr u) => negb (blocked u)
  | _ => false
  end.

(** The progress line of [download_articles] before row [idx]. *)
Definition progress_line (idx total : nat) : list event :=
  if decide ((idx + 1) mod 10 = 0) then [Stdout (Progress (idx + 1) total)] else [].

(** A row [download_articles] can process: it has a str under URL and a
    cell under publisher. *)
Definition scrapable (cols : list string) (row : list cell) : Prop :=
  ∃ u p, row_getitem cols row "URL" = Ok (CStr u) ∧
         row_getitem cols row "publisher" = Ok p.

(** The answer of a price request is the one the provider gave. *)
Definition answered (E : Env) (start_date end_date : string)
    (f : cell * result (list bar)) : Prop :=
  ∃ h, f.2 = ticker_history E h f.1 start_date end_date.

(** ** The order of work of main *)

(** What [main] does to the outside world, apart from reading its input
    files and printing. *)
Inductive action :=
  | PriceRequest
  | WritePrices
  | ArticleRequest
  | WriteNews
  | OtherWrite.

Definition act (ev : event) : option action :=
  match ev with
  | TickerHistory _ _ _ _ => Some PriceRequest
  | HttpGet _ _ _ => Some ArticleRequest
  | ToCsv path _ =>
      Some (if decide (path = historical_prices_path) then WritePrices
            else if decide (path = all_news_path) then WriteNews
            else OtherWrite)
  | _ => None
  end.

(** A complete run: price requests, historical_prices.csv, article
    requests, all_news.csv. *)
Definition full_run (price_requests article_requests : nat) : list action :=
  replicate price_requests PriceRequest ++ [WritePrices] ++
  replicate article_requests ArticleRequest ++ [WriteNews].

(** What [merge_datasets] may add to the trace. *)
Definition merge_event (ev : event) : Prop :=
  match ev with
  | Stdout _ | Sleep _ | ReadCsv _ | HttpGet _ _ _ => True
  | _ => False
  end.

Definition with_ticker_history (E : Env)
    (history : list event → cell → string → string → result (list bar)) : Env :=
  {| fs := fs E;
     ticker_history := history;
     requests_get := requests_get E;
     soup := soup E;
     tag := tag E;
     BeautifulSoup := BeautifulSoup E;
     decompose := decompose E;
     find := find E;
     find_class := find_class E;
     find_all := find_all E;
     get_text := get_text E;
     to_datetime := to_datetime E;
     sort_rows := sort_rows E;
     list_set := list_set E;
     validate := validate E |}.

(** The provider has no data for any symbol. *)
Definition env_no_prices : Env :=
  with_ticker_history Scenario.env (λ _ _ _ _, Ok []).

(** Why [download_articles] raises on a table: a column it looks up is
    missing, or a URL is no str. *)
Definition bad_rows_error (cols : list string) (table : list (list cell))
    (e : exn) : Prop :=
  (e = KeyError ["URL"] ∧ get_loc cols "URL" = None) ∨
  (e = KeyError ["publisher"] ∧ get_loc cols "publisher" = None) ∨
  (e = AttributeError "lower" ∧
   ∃ row c, row ∈ table ∧ row_getitem cols row "URL" = Ok c ∧ ¬ is_str c).

(** The ways [merge_datasets] can fail once the two stub files have been
    read as the tables [A] and [H]. *)
Inductive merge_failure (E : Env) (A H : DataFrame) : exn → Prop :=
  | first_file_lacks_columns :
      missing_labels (columns A) required_cols ≠ [] →
      merge_failure E A H (KeyError (missing_labels (columns A) required_cols))
  | second_file_lacks_columns :
      missing_labels (columns A) required_cols = [] →
      missing_labels (columns H) required_cols ≠ [] →
      merge_failure E A H (KeyError (missing_labels (columns H) required_cols))
  | dates_do_not_parse A' H' e :
      getitem_list A required_cols = Ok A' →
      getitem_list H required_cols = Ok H' →
      to_datetime E ((λ src, field required_cols src "date")
                       <$> (rows A' ++ rows H')) = Raise e →
      merge_failure E A H e
  | url_is_no_str A' H' :
      getitem_list A required_cols = Ok A' →
      getitem_list H required_cols = Ok H' →
      ¬ Forall (λ src, is_str (field required_cols src "URL"))
               (rows A' ++ rows H') →
      merge_failure E A H (AttributeError "lower").

(** ** The schema tests (test_dataset_schema.py) *)

Global Instance dtype_eq_dec : EqDecision dtype.
Proof. solve_decision. Defined.

Global Instance check_eq_dec : EqDecision check.
Proof. solve_decision. Defined.

Global Instance Column_eq_dec : EqDecision Column.
Proof. solve_decision. Defined.

Global Instance DataFrameSchema_eq_dec : EqDecision DataFrameSchema.
Proof. solve_decision. Defined.

Definition DATASET_DIR : string := "datasets".

(** [s.endswith(suffix)]. *)
Definition endswith (s suffix : string) : bool :=
  String.prefix (String.rev suffix) (String.rev s).

(** [os.path.join(a, b)] of posixpath. *)
Definition path_join (a b : string) : string :=
  if String.prefix "/" b then b
  else if negb (truthy a) || endswith a "/" then a +:+ b
  else a +:+ "/" +:+ b.

(** The message of a [pytest.fail]; the formatted text keeps its
    arguments, the failure cases in the order of [itertuples()]. *)
Inductive failure_report :=
  | FileNotFound (filepath : string)
  | SchemaFailed (filepath : string) (failure_cases : list failure_case).

(** How a function under pytest ends when no ordinary exception leaves
    it: it returns, or [pytest.skip] or [pytest.fail] ends it (their
    exceptions derive from BaseException, not from Exception). *)
Inductive pytest (A : Type) :=
  | Returns (a : A)
  | Skipped (reason : string)
  | Failed (reason : failure_report).
Arguments Returns {_} _.
Arguments Skipped {_} _.
Arguments Failed {_} _.

Definition get_dataset_files : pytest (list (string * DataFrameSchema)) :=
  let datasets :=
    [("historical_prices.csv", historical_prices_schema);
     ("all_news.csv", all_news_schema);
     ("historical_prices_impact.csv", historical_prices_impact_schema);
     ("aggregated_news.csv", aggregated_news_schema);
     ("trade_log.csv", trade_log_schema);
     ("final_summary.csv", trade_log_summary_schema);
     ("vectorized_news_dtm.csv", vectorized_news_schema);
     ("vectorized_news_tfidf.csv", vectorized_news_schema);
     ("vectorized_news_curated.csv", vectorized_news_schema);
     ("sample_historical_prices.csv", historical_prices_schema);
     ("sample_all_news.csv", all_news_schema);
     ("sample_historical_prices_impact.csv", historical_prices_impact_schema);
     ("sample_aggregated_news.csv", aggregated_news_schema);
     ("sample_trade_log.csv", trade_log_schema);
     ("sample_final_summary.csv", trade_log_summary_schema);
     ("sample_vectorized_news_dtm.csv", vectorized_news_schema);
     ("sample_vectorized_news_tfidf.csv", vectorized_news_schema);
     ("sample_vectorized_news_curated.csv", vectorized_news_schema)] in
  match datasets with
  | [] => Skipped "No dataset definitions found for testing."
  | _ => Returns datasets
  end.

Section Tests.
Context (E : Env).
(** [repr] of a pandera schema, as interpolated in the first line. *)
Context (repr_schema : DataFrameSchema → string).

Definition test_dataset_schema_validation (filename : string)
    (schema : DataFrameSchema) : M (pytest unit) :=
  let filepath := path_join DATASET_DIR filename in
  print (Text ("Validating " +:+ filepath +:+ " against schema: " +:+
               repr_schema schema));;
  loaded ←
    try_except
      (df ← load_and_validate_csv E filepath schema; mret (Returns df))
      (λ e, match e with
            | FileNotFoundError _ => mret (Failed (FileNotFound filepath))
            | _ => raise e
            end);
  match loaded with
  | Returns df =>
      table ← read_frame df;
      try_except
        (schema_validate E schema table;;
         print (Text ("Validation successful for " +:+ filepath));;
         mret (Returns ()))
        (λ e, match e with
              | SchemaErrors failure_cases =>
                  mret (Failed (SchemaFailed filepath failure_cases))
              | _ => raise e
              end)
  | Skipped reason => mret (Skipped reason)
  | Failed reason => mret (Failed reason)
  end.

End Tests.

(** The analyst ratings of the scenario with a column more and the
    columns in the reverse order. *)
Definition ratings_with_note : DataFrame :=
  {| columns := ["note"; "symbol"; "date"; "publisher"; "URL"; "headline"; "id"];
     rows := (λ row, CStr "x" :: reverse row) <$> rows Scenario.analyst_ratings |}.

Definition files_with_note (path : string) : option DataFrame :=
  if decide (path = analyst_ratings_path) then Some ratings_with_note
  else if decide (path = headlines_path) then Some Scenario.headline_stubs
  else None.

(** The character [c] is the lower-case letter [d] or its capital (the
    capital of an ASCII letter has its code less 32). *)
Definition letter_of (d c : ascii) : Prop :=
  c = d ∨ (N_of_ascii c + 32)%N = N_of_ascii d.

(** [word] spells [pattern], a word of lower-case letters, in some mix of
    capital and lower-case letters. *)
Fixpoint spells (pattern word : string) : Prop :=
  match pattern, word with
  | EmptyString, EmptyString => True
  | String d pattern', String c word' => letter_of d c ∧ spells pattern' word'
  | _, _ => False
  end.

(** All characters are ASCII lower-case letters. *)
Fixpoint lowercase (s : string) : Prop :=
  match s with
  | EmptyString => True
  | String d s' => (97 ≤ N_of_ascii d ≤ 122)%N ∧ lowercase s'
  end.

(** analyst_ratings.csv lacks the headline column and the provider has
    no data for any symbol. *)
Definition env_malformed_no_prices : Env :=
  with_ticker_history Scenario.env_malformed (λ _ _ _ _, Ok []).

(** * Properties *)

(** ** The helpers on concrete inputs *)

Example split_join : join " " (split "  a  b
 c ") = "a b c".
Proof. reflexivity. Qed.

Example blocked_any_case :
  blocked "http://www.GuruFocus.com/news/1" = true ∧
  blocked "http://news.example/a1" = false.
Proof. split; reflexivity. Qed.

Example unique_keeps_first :
  unique [CStr "A"; CStr "B"; CStr "A"; CInt 1; CStr "B"]
  = [CStr "A"; CStr "B"; CInt 1].
Proof. reflexivity. Qed.

Example slice_to_short : slice_to 10000 "abc" = "abc" ∧ slice_to 2 "abc" = "ab".
Proof. split; reflexivity. Qed.

Example setitem_appends :
  setitem {| columns := ["id"]; rows := [[CInt 7]; [CInt 9]] |} "article"
          [CStr "x"; CStr ""]
  = Ok {| columns := ["id"; "article"];
          rows := [[CInt 7; CStr "x"]; [CInt 9; CStr ""]] |}.
Proof. reflexivity. Qed.

Example getitem_list_missing_label :
  getitem_list {| columns := ["id"; "URL"]; rows := [] |} ["id"; "headline"]
  = Raise (KeyError ["headline"]).
Proof. reflexivity. Qed.

(** ** Running computations *)

Lemma run_bind {A B} (m : M A) (f : A → M B) w :
  (m ≫= f) w =
  match m w with
  | (Ok a, w') => f a w'
  | (Raise e, w') => (Raise e, w')
  end.
Proof. reflexivity. Qed.

Lemma bind_inv {A B} (m : M A) (f : A → M B) w r w2 :
  (m ≫= f) w = (r, w2) →
  (∃ a w1, m w = (Ok a, w1) ∧ f a w1 = (r, w2)) ∨
  (∃ e, m w = (Raise e, w2) ∧ r = Raise e).
Proof.
  rewrite run_bind. destruct (m w) as [[a|e] w1]; intros H.
  - left. eauto.
  - right. exists e. by inversion H.
Qed.

Lemma try_except_inv {A} (body : M A) handler w r w2 :
  try_except body handler w = (r, w2) →
  (∃ a, body w = (Ok a, w2) ∧ r = Ok a) ∨
  (∃ e w1, body w = (Raise e, w1) ∧ handler e w1 = (r, w2)).
Proof.
  unfold try_except. destruct (body w) as [[a|e] w1]; intros H.
  - left. exists a. by inversion H.
  - right. eauto.
Qed.

(** A handler that always returns makes the whole statement return. *)
Lemma try_except_returns {A} (body : M A) handler w :
  (∀ e w1, ∃ a, (handler e w1).1 = Ok a) →
  ∃ a, (try_except body handler w).1 = Ok a.
Proof.
  intros Hh. unfold try_except. destruct (body w) as [[a|e] w1]; eauto.
Qed.

(** ** Composing relations between start and end worlds *)

Global Instance grows_by_preorder P : PreOrder (grows_by P).
Proof.
  split.
  - intros w. exists []. by rewrite app_nil_r.
  - intros w1 w2 w3 (e1 & H1 & F1) (e2 & H2 & F2). exists (e1 ++ e2).
    split; [by rewrite H2, H1, app_assoc | by apply Forall_app].
Qed.

Global Instance same_heap_preorder : PreOrder same_heap.
Proof. split; unfold same_heap; [done | congruence]. Qed.

Global Instance heap_extends_preorder : PreOrder heap_extends.
Proof. unfold heap_extends. split; [by intros w | intros w1 w2 w3 ??; by etrans]. Qed.

Section keeps.
Context (R : relation world) `{!PreOrder R}.

Lemma keeps_ret {A} (a : A) : keeps R (mret a).
Proof. intros w. simpl. reflexivity. Qed.

Lemma keeps_raise {A} e : keeps R (@raise A e).
Proof. intros w. simpl. reflexivity. Qed.

Lemma keeps_lift {A} (r : result A) : keeps R (lift r).
Proof. intros w. simpl. reflexivity. Qed.

Lemma keeps_read_frame l : keeps R (read_frame l).
Proof. intros w. unfold read_frame. destruct (heap w !! l); simpl; reflexivity. Qed.

Lemma keeps_bind {A B} (m : M A) (f : A → M B) :
  keeps R m → (∀ a, keeps R (f a)) → keeps R (m ≫= f).
Proof.
  intros Hm Hf w. rewrite run_bind. specialize (Hm w).
  destruct (m w) as [[a|e] w1]; simpl in *; [|done].
  etrans; [exact Hm | apply Hf].
Qed.

Lemma keeps_try_except {A} (body : M A) handler :
  keeps R body → (∀ e, keeps R (handler e)) → keeps R (try_except body handler).
Proof.
  intros Hm Hf w. unfold try_except. specialize (Hm w).
  destruct (body w) as [[a|e] w1]; simpl in *; [done|].
  etrans; [exact Hm | apply Hf].
Qed.

Lemma keeps_for_in {A S} (xs : list A) (body : A → S → M S) s :
  (∀ x s, keeps R (body x s)) → keeps R (for_in xs body s).
Proof.
  intros Hb. revert s. induction xs as [|x xs IH]; intros s; simpl.
  - apply keeps_ret.
  - apply keeps_bind; [apply Hb | apply IH].
Qed.

End keeps.

Lemma grows_by_emit P ev : P ev → keeps (grows_by P) (emit ev).
Proof. intros H w. exists [ev]. split; [done | by constructor]. Qed.

Lemma grows_by_call {A} P (oracle : list event → result A) log :
  (∀ r, P (log r)) → keeps (grows_by P) (call oracle log).
Proof. intros H w. eexists [_]. split; [done | by constructor]. Qed.

Lemma grows_by_new_frame P df : keeps (grows_by P) (new_frame df).
Proof. intros w. exists []. simpl. by rewrite app_nil_r. Qed.

Lemma grows_by_write_frame P l df : keeps (grows_by P) (write_frame l df).
Proof. intros w. exists []. simpl. by rewrite app_nil_r. Qed.

Lemma grows_by_weaken (P Q : event → Prop) w w2 :
  (∀ ev, P ev → Q ev) → grows_by P w w2 → grows_by Q w w2.
Proof. intros H (evs & ? & F). exists evs. split; [done|]. eapply Forall_impl; eauto. Qed.

Lemma same_heap_emit ev : keeps same_heap (emit ev).
Proof. by intros w. Qed.

Lemma same_heap_call {A} (oracle : list event → result A) log :
  keeps same_heap (call oracle log).
Proof. by intros w. Qed.

Lemma heap_extends_emit ev : keeps heap_extends (emit ev).
Proof. intros w. unfold heap_extends. simpl. done. Qed.

Lemma heap_extends_call {A} (oracle : list event → result A) log :
  keeps heap_extends (call oracle log).
Proof. intros w. unfold heap_extends. simpl. done. Qed.

Lemma heap_extends_new_frame df : keeps heap_extends (new_frame df).
Proof. intros w. unfold heap_extends. simpl. by apply prefix_app_r. Qed.

(** ** scrape_article *)

Section scrape.
Context (E : Env).

Lemma attempts_non_200 n url last w r :
  requests_get E (trace w) url headers 10 = Ok r →
  status_code r ≠ 200%Z →
  attempts E (S n) url last w =
  attempts E n url (Some r)
    {| trace := trace w ++ [HttpGet url 10 (Ok r); Sleep 1]; heap := heap w |}.
Proof.
  intros Hget Hstatus. simpl. rewrite run_bind. unfold call. rewrite Hget.
  destruct (decide (status_code r = 200%Z)) as [|_]; [done|].
  rewrite run_bind. simpl. by rewrite <- app_assoc.
Qed.

Lemma attempts_events n url last :
  keeps (grows_by (scrape_event url)) (attempts E n url last).
Proof.
  revert last. induction n as [|n IH]; intros last; simpl.
  - apply keeps_ret; apply _.
  - apply keeps_bind; [apply _ | by apply grows_by_call |].
    intros r. destruct (decide _).
    + apply keeps_ret; apply _.
    + apply keeps_bind; [apply _ | by apply grows_by_emit | auto].
Qed.

Lemma attempts_same_heap n url last : keeps same_heap (attempts E n url last).
Proof.
  revert last. induction n as [|n IH]; intros last; simpl.
  - apply keeps_ret; apply _.
  - apply keeps_bind; [apply _ | by apply same_heap_call |].
    intros r. destruct (decide _).
    + apply keeps_ret; apply _.
    + apply keeps_bind; [apply _ | by apply same_heap_emit | auto].
Qed.

Lemma scrape_article_events url publisher :
  keeps (grows_by (scrape_event url)) (scrape_article E url publisher).
Proof.
  apply keeps_try_except; [apply _ | |].
  - apply keeps_bind; [apply _ | apply attempts_events |].
    intros [r|]; [|apply keeps_raise; apply _].
    destruct (decide _); [apply keeps_ret; apply _|].
    apply keeps_bind; [apply _ | apply keeps_lift; apply _ |].
    intros; apply keeps_ret; apply _.
  - intros e. apply keeps_bind; [apply _ | by apply grows_by_emit |].
    intros; apply keeps_ret; apply _.
Qed.

Lemma scrape_article_same_heap url publisher :
  keeps same_heap (scrape_article E url publisher).
Proof.
  apply keeps_try_except; [apply _ | |].
  - apply keeps_bind; [apply _ | apply attempts_same_heap |].
    intros [r|]; [|apply keeps_raise; apply _].
    destruct (decide _); [apply keeps_ret; apply _|].
    apply keeps_bind; [apply _ | apply keeps_lift; apply _ |].
    intros; apply keeps_ret; apply _.
  - intros e. apply keeps_bind; [apply _ | by apply same_heap_emit |].
    intros; apply keeps_ret; apply _.
Qed.

Lemma scrape_article_returns url publisher w :
  ∃ s, (scrape_article E url publisher w).1 = Ok s.
Proof.
  apply try_except_returns. intros e w1. by exists "".
Qed.

(** Claim C3.  [scrape_article] always returns a string (no exception leaves
    it), and for a URL whose endpoint answers every request with a status
    other than 200 it makes exactly three GET requests, sleeps the fixed
    delay of one second after each failed one, and returns the empty
    string. *)
Theorem scrape_article_gives_up_after_three (url publisher : cell) (w : world) :
  (∃ s, (scrape_article E url publisher w).1 = Ok s) ∧
  ((∀ h, ∃ r, requests_get E h url headers 10 = Ok r ∧ status_code r ≠ 200%Z) →
   ∃ r1 r2 r3,
     scrape_article E url publisher w =
     (Ok "",
      {| trace := trace w ++
           [HttpGet url 10 (Ok r1); Sleep 1; HttpGet url 10 (Ok r2); Sleep 1;
            HttpGet url 10 (Ok r3); Sleep 1];
         heap := heap w |})).
Proof.
  split; [apply scrape_article_returns|].
  intros Hdown.
  destruct (Hdown (trace w)) as (r1 & G1 & S1).
  set (w1 := {| trace := trace w ++ [HttpGet url 10 (Ok r1); Sleep 1];
                heap := heap w |}).
  destruct (Hdown (trace w1)) as (r2 & G2 & S2).
  set (w2 := {| trace := trace w1 ++ [HttpGet url 10 (Ok r2); Sleep 1];
                heap := heap w1 |}).
  destruct (Hdown (trace w2)) as (r3 & G3 & S3).
  exists r1, r2, r3.
  unfold scrape_article, try_except. rewrite run_bind.
  rewrite (attempts_non_200 _ _ _ w r1 G1 S1).
  fold w1. rewrite (attempts_non_200 _ _ _ w1 r2 G2 S2).
  fold w2. rewrite (attempts_non_200 _ _ _ w2 r3 G3 S3).
  simpl. destruct (decide (status_code r3 ≠ 200%Z)) as [_|]; [|done].
  simpl. by rewrite <- !app_assoc.
Qed.

(** Claim C10.  In the same world (the same network answers), the result of
    [scrape_article] and the world it leaves do not depend on the publisher
    argument. *)
Theorem scrape_article_ignores_publisher (url p1 p2 : cell) (w : world) :
  scrape_article E url p1 w = scrape_article E url p2 w.
Proof. unfold scrape_article. reflexivity. Qed.

End scrape.

(** ** Columns and rows *)

Lemma get_loc_lt cols key i : get_loc cols key = Some i → i < length cols.
Proof.
  revert i. induction cols as [|c cols IH]; intros i; simpl; [done|].
  destruct (decide (c = key)); [intros [= <-]; lia|].
  destruct (get_loc cols key) as [j|]; simpl; [|done].
  intros [= <-]. specialize (IH j eq_refl). lia.
Qed.

Lemma get_loc_snoc cols key :
  get_loc cols key = None → get_loc (cols ++ [key]) key = Some (length cols).
Proof.
  induction cols as [|c cols IH]; simpl.
  - by rewrite decide_True.
  - destruct (decide (c = key)); [done|].
    destruct (get_loc cols key); [done|]. intros _. by rewrite IH.
Qed.

Lemma length_fit n row : length (fit n row) = n.
Proof.
  unfold fit. rewrite length_take, length_app, length_replicate. lia.
Qed.

Lemma fit_id n row : length row = n → fit n row = row.
Proof. intros <-. unfold fit. by rewrite take_app_length. Qed.

(** After [df[key] = values], row [i] holds [values[i]] under [key]. *)
Lemma setitem_lookup df key values df' i row :
  setitem df key values = Ok df' →
  rows df !! i = Some row →
  ∃ v row', values !! i = Some v ∧ rows df' !! i = Some row' ∧
            row_getitem (columns df') row' key = Ok v.
Proof.
  unfold setitem. destruct (decide _) as [Hlen|]; [|done].
  intros [= <-] Hrow.
  destruct (lookup_lt_is_Some_2 values i) as [v Hv].
  { rewrite Hlen. by eapply lookup_lt_Some. }
  exists v. unfold row_getitem.
  destruct (get_loc (columns df) key) as [j|] eqn:Hj; simpl.
  - eexists. split; [done|]. rewrite lookup_zip_with, Hrow. simpl. rewrite Hv. simpl.
    split; [done|]. rewrite Hj. unfold cell_at.
    rewrite list_lookup_insert_eq; [done|].
    rewrite length_fit. by eapply get_loc_lt.
  - eexists. split; [done|]. rewrite lookup_zip_with, Hrow. simpl. rewrite Hv. simpl.
    split; [done|]. rewrite (get_loc_snoc _ _ Hj). unfold cell_at.
    rewrite lookup_app_r; rewrite length_fit; [|done]. by rewrite Nat.sub_diag.
Qed.

Lemma setitem_length df key values df' :
  setitem df key values = Ok df' → length (rows df') = length (rows df).
Proof.
  unfold setitem. destruct (decide _) as [Hlen|]; [|done]. intros [= <-].
  destruct (get_loc _ _); simpl; rewrite length_zip_with; lia.
Qed.

Lemma setitem_ok df key values :
  length values = length (rows df) → ∃ df', setitem df key values = Ok df'.
Proof. intros H. unfold setitem. rewrite decide_True by done. eauto. Qed.

(** ** download_articles *)

Section articles.
Context (E : Env).

Lemma article_for_events cols total delay ir acc :
  keeps (grows_by articles_event) (article_for E cols total delay ir acc).
Proof.
  unfold article_for.
  apply keeps_bind; [apply _ | |intros _].
  { destruct (decide _); [by apply grows_by_emit | apply keeps_ret; apply _]. }
  apply keeps_bind; [apply _ | apply keeps_lift; apply _ | intros url].
  apply keeps_bind; [apply _ | apply keeps_lift; apply _ | intros publisher].
  destruct url as [u| | | | |]; try (apply keeps_raise; apply _).
  destruct (blocked u) eqn:Hb.
  - apply keeps_bind; [apply _ | by apply grows_by_emit | intros _].
    apply keeps_ret; apply _.
  - apply keeps_bind; [apply _ | | intros a].
    { intros w. eapply grows_by_weaken; [|apply scrape_article_events].
      intros [] ; simpl; try done. by intros ->. }
    apply keeps_bind; [apply _ | by apply grows_by_emit | intros _].
    apply keeps_ret; apply _.
Qed.

Lemma article_for_same_heap cols total delay ir acc :
  keeps same_heap (article_for E cols total delay ir acc).
Proof.
  unfold article_for.
  apply keeps_bind; [apply _ | |intros _].
  { destruct (decide _); [by apply same_heap_emit | apply keeps_ret; apply _]. }
  apply keeps_bind; [apply _ | apply keeps_lift; apply _ | intros url].
  apply keeps_bind; [apply _ | apply keeps_lift; apply _ | intros publisher].
  destruct url as [u| | | | |]; try (apply keeps_raise; apply _).
  destruct (blocked u) eqn:Hb.
  - apply keeps_bind; [apply _ | by apply same_heap_emit | intros _].
    apply keeps_ret; apply _.
  - apply keeps_bind; [apply _ | apply scrape_article_same_heap | intros a].
    apply keeps_bind; [apply _ | by apply same_heap_emit | intros _].
    apply keeps_ret; apply _.
Qed.

(** One iteration appends one text, the empty one for a denylisted URL. *)
Lemma article_for_inv cols total delay ir acc w out w1 :
  article_for E cols total delay ir acc w = (Ok out, w1) →
  ∃ a, out = acc ++ [a] ∧
       ∀ u, row_getitem cols ir.2 "URL" = Ok (CStr u) → blocked u = true → a = "".
Proof.
  unfold article_for. intros H.
  apply bind_inv in H as [(_ & w2 & _ & H)|(? & _ & [=])].
  apply bind_inv in H as [(url & w3 & Hurl & H)|(? & _ & [=])].
  apply bind_inv in H as [(publisher & w4 & _ & H)|(? & _ & [=])].
  unfold lift in Hurl. injection Hurl as Hurl _.
  destruct url as [u| | | | |]; try discriminate H.
  destruct (blocked u) eqn:Hb.
  - apply bind_inv in H as [(_ & w5 & _ & H)|(? & _ & [=])].
    injection H as <- _. exists "". split; [done|]. congruence.
  - apply bind_inv in H as [(a & w5 & _ & H)|(? & _ & [=])].
    apply bind_inv in H as [(_ & w6 & _ & H)|(? & _ & [=])].
    injection H as <- _. exists a. split; [done|].
    intros u' Hu'. rewrite Hurl in Hu'. injection Hu' as <-. congruence.
Qed.

(** One iteration returns when the row has a string URL and a publisher. *)
Lemma article_for_ok cols total delay ir acc w u p :
  row_getitem cols ir.2 "URL" = Ok (CStr u) →
  row_getitem cols ir.2 "publisher" = Ok p →
  ∃ out, (article_for E cols total delay ir acc w).1 = Ok out.
Proof.
  intros Hu Hp. unfold article_for.
  rewrite run_bind.
  assert (∃ w1, (if decide ((ir.1 + 1) mod 10 = 0)
                 then print (Progress (ir.1 + 1) total) else mret ()) w
                = (Ok (), w1)) as [w1 ->].
  { destruct (decide _); by eexists. }
  rewrite run_bind. unfold lift at 1. rewrite Hu.
  rewrite run_bind. unfold lift at 1. rewrite Hp.
  destruct (blocked u).
  - by eexists.
  - rewrite run_bind.
    destruct (scrape_article_returns E (CStr u) p w1) as [a Ha].
    destruct (scrape_article E (CStr u) p w1) as [r w2]. simpl in Ha. subst r.
    by eexists.
Qed.

Lemma article_loop cols total delay xs : ∀ acc w out w1,
  for_in xs (article_for E cols total delay) acc w = (Ok out, w1) →
  ∃ new, out = acc ++ new ∧ length new = length xs ∧
    ∀ i ir u, xs !! i = Some ir →
      row_getitem cols ir.2 "URL" = Ok (CStr u) → blocked u = true →
      new !! i = Some "".
Proof.
  induction xs as [|x xs IH]; intros acc w out w1; simpl.
  - intros [= <- _]. exists []. rewrite app_nil_r. by split_and!.
  - intros H. apply bind_inv in H as [(acc1 & w2 & Hx & H)|(? & _ & [=])].
    apply article_for_inv in Hx as (a & -> & Ha).
    apply IH in H as (new & -> & Hlen & Hnew).
    exists (a :: new). split_and!.
    + by rewrite <- app_assoc.
    + simpl. by rewrite Hlen.
    + intros [|i] ir u; simpl; [|by apply Hnew].
      intros [= <-] Hu Hb. by rewrite (Ha u Hu Hb).
Qed.

Lemma article_loop_ok cols total delay xs : ∀ acc w,
  Forall (λ ir, ∃ u p, row_getitem cols ir.2 "URL" = Ok (CStr u) ∧
                       row_getitem cols ir.2 "publisher" = Ok p) xs →
  ∃ out, (for_in xs (article_for E cols total delay) acc w).1 = Ok out.
Proof.
  induction xs as [|x xs IH]; intros acc w Hxs; simpl.
  - by eexists.
  - inversion Hxs as [|? ? (u & p & Hu & Hp) Hxs']; subst.
    rewrite run_bind.
    destruct (article_for_ok cols total delay x acc w u p Hu Hp) as [out Hout].
    destruct (article_for E cols total delay x acc w) as [r w1].
    simpl in Hout. subst r. by apply IH.
Qed.

(** What a run of [download_articles] on the table [df] leaves behind. *)
Lemma download_articles_run news_df delay w df r w1 :
  heap w !! news_df = Some df →
  download_articles E news_df delay w = (r, w1) →
  match r with
  | Ok l =>
      l = news_df ∧
      ∃ articles df',
        length articles = length (rows df) ∧
        (∀ i row u, rows df !! i = Some row →
           row_getitem (columns df) row "URL" = Ok (CStr u) →
           blocked u = true → articles !! i = Some "") ∧
        setitem df "article" (CStr <$> articles) = Ok df' ∧
        heap w1 = <[news_df:=df']> (heap w)
  | Raise _ => heap w1 = heap w
  end.
Proof.
  intros Hdf H. unfold download_articles in H.
  apply bind_inv in H as [(? & w2 & Hp & H)|(? & [=] & _)].
  unfold print, emit in Hp. simplify_eq.
  apply bind_inv in H as [(df0 & w3 & Hr & H)|(e & Hr & ->)];
    unfold read_frame in Hr; simpl in Hr; rewrite Hdf in Hr; [|done].
  simplify_eq.
  pose proof (keeps_for_in same_heap (imap pair (rows df0))
        (article_for E (columns df0) (length (rows df0)) delay) []
        (article_for_same_heap _ _ _)
        {| trace := trace w ++ [Stdout (Text "Downloading full articles...")];
           heap := heap w |}) as Hh.
  apply bind_inv in H as [(articles & w4 & Hloop & H)|(e & Hloop & ->)];
    rewrite Hloop in Hh; unfold same_heap in Hh; simpl in Hh; [|done].
  apply article_loop in Hloop as (new & Hnew & Hlen & Hblocked).
  simpl in Hnew. subst new. rewrite length_imap in Hlen.
  apply bind_inv in H as [(df' & w5 & Hset & H)|(e & Hset & ->)];
    unfold lift in Hset; simplify_eq; [|done].
  apply bind_inv in H as [(? & w6 & Hw & H)|(? & [=] & _)].
  unfold write_frame in Hw. simplify_eq.
  apply bind_inv in H as [(? & w7 & Hp & H)|(? & [=] & _)].
  unfold print, emit in Hp. simplify_eq.
  unfold mret, M_ret in H. simplify_eq.
  split; [done|]. exists articles, df'. split_and!; try done.
  - intros i row u Hrow Hu Hb. eapply (Hblocked i (i, row)); try done.
    by rewrite list_lookup_imap, Hrow.
  - simpl. by rewrite Hh.
Qed.

Lemma download_articles_events news_df delay :
  keeps (grows_by articles_event) (download_articles E news_df delay).
Proof.
  unfold download_articles.
  apply keeps_bind; [apply _ | by apply grows_by_emit | intros _].
  apply keeps_bind; [apply _ | apply keeps_read_frame; apply _ | intros df].
  apply keeps_bind; [apply _ | apply keeps_for_in; [apply _|] | intros articles].
  { intros; apply article_for_events. }
  apply keeps_bind; [apply _ | apply keeps_lift; apply _ | intros df'].
  apply keeps_bind; [apply _ | apply grows_by_write_frame | intros _].
  apply keeps_bind; [apply _ | by apply grows_by_emit | intros _].
  apply keeps_ret; apply _.
Qed.

Lemma download_articles_ok news_df delay w df :
  heap w !! news_df = Some df →
  Forall (λ row, ∃ u p, row_getitem (columns df) row "URL" = Ok (CStr u) ∧
                        row_getitem (columns df) row "publisher" = Ok p) (rows df) →
  (download_articles E news_df delay w).1 = Ok news_df.
Proof.
  intros Hdf Hrows. unfold download_articles.
  rewrite run_bind. simpl. rewrite run_bind. unfold read_frame at 1. simpl.
  rewrite Hdf. rewrite run_bind.
  set (w1 := {| trace := _; heap := heap w |}).
  destruct (article_loop_ok (columns df) (length (rows df)) delay
              (imap pair (rows df)) [] w1) as [out Hout].
  { apply Forall_lookup. intros j [i row] Hj.
    rewrite list_lookup_imap in Hj.
    destruct (rows df !! j) as [row'|] eqn:Hrow; [|done].
    simpl in Hj. simplify_eq. simpl.
    by eapply (Forall_lookup_1 _ _ _ _ Hrows). }
  destruct (for_in _ _ _ w1) as [r w2] eqn:Hloop. simpl in Hout. subst r.
  apply article_loop in Hloop as (new & -> & Hlen & _). simpl.
  rewrite length_imap in Hlen.
  rewrite run_bind. unfold lift at 1.
  destruct (setitem_ok df "article" (CStr <$> new)) as [df' ->].
  { by rewrite length_fmap. }
  done.
Qed.

(** Claim C5.  For every row whose URL contains gurufocus (in any letter
    case), [download_articles] records the empty string as the article of
    that row, and none of the requests it makes goes to such a URL.  It
    returns (the reference it was given) when the table has the URL and
    publisher columns and every URL is a string. *)
Theorem download_articles_skips_denylisted
    (news_df : loc) (delay : Z) (w : world) (df : DataFrame) :
  heap w !! news_df = Some df →
  let run := download_articles E news_df delay w in
  (∃ evs, trace run.2 = trace w ++ evs ∧
     ∀ u t o, HttpGet (CStr u) t o ∈ evs → blocked u = false) ∧
  (∀ l, run.1 = Ok l →
     ∃ df', heap run.2 !! l = Some df' ∧
       ∀ i row u, rows df !! i = Some row →
         row_getitem (columns df) row "URL" = Ok (CStr u) →
         blocked u = true →
         ∃ row', rows df' !! i = Some row' ∧
                 row_getitem (columns df') row' "article" = Ok (CStr "")) ∧
  (Forall (λ row, ∃ u p, row_getitem (columns df) row "URL" = Ok (CStr u) ∧
                         row_getitem (columns df) row "publisher" = Ok p)
          (rows df) →
   run.1 = Ok news_df).
Proof.
  intros Hdf run. split_and!.
  - destruct (download_articles_events news_df delay w) as (evs & Htr & Hevs).
    exists evs. split; [done|]. intros u t o Hin.
    apply list_elem_of_lookup in Hin as [j Hj].
    by apply (Forall_lookup_1 _ _ _ _ Hevs) in Hj.
  - intros l Hl. pose proof (download_articles_run news_df delay w df run.1 run.2 Hdf) as H.
    rewrite <- surjective_pairing in H. specialize (H eq_refl).
    rewrite Hl in H. destruct H as (-> & articles & df' & Hlen & Hblocked & Hset & Hheap).
    exists df'. split.
    { rewrite Hheap. apply list_lookup_insert_eq. by eapply lookup_lt_Some. }
    intros i row u Hrow Hu Hb.
    destruct (setitem_lookup _ _ _ _ i row Hset Hrow) as (v & row' & Hv & Hrow' & Hget).
    exists row'. split; [done|].
    rewrite list_lookup_fmap, (Hblocked i row u Hrow Hu Hb) in Hv.
    simpl in Hv. by simplify_eq.
  - intros Hrows. by apply download_articles_ok with df.
Qed.

End articles.

(** ** download_historical_prices *)

Section prices.
Context (E : Env).

Local Arguments fetches : simpl never.

Lemma fetches_app evs1 evs2 : fetches (evs1 ++ evs2) = fetches evs1 ++ fetches evs2.
Proof. unfold fetches. apply omap_app. Qed.

Lemma reported_app_l evs evs' f : reported evs f → reported (evs ++ evs') f.
Proof.
  unfold reported. destruct (f.2) as [[|b bs]|e]; try done;
    intros H; apply elem_of_app; auto.
Qed.

Lemma reported_app_r evs evs' f : reported evs f → reported (evs' ++ evs) f.
Proof.
  unfold reported. destruct (f.2) as [[|b bs]|e]; try done;
    intros H; apply elem_of_app; auto.
Qed.

Lemma fetches_cons_stdout m evs : fetches (Stdout m :: evs) = fetches evs.
Proof. reflexivity. Qed.

Lemma fetches_snoc_stdout m evs : fetches (evs ++ [Stdout m]) = fetches evs.
Proof. rewrite fetches_app. simpl. by rewrite app_nil_r. Qed.

(** One iteration: one request, logged with its outcome; a frame is added
    exactly when bars came back. *)
Lemma fetch_symbol_run start_date end_date symbol all_data w :
  ∃ new evs,
    fetch_symbol E start_date end_date symbol all_data w =
      (Ok (all_data ++ new), {| trace := trace w ++ evs; heap := heap w |}) ∧
    fetches evs =
      [(symbol, ticker_history E (trace w ++ [Stdout (Downloading symbol)])
                  symbol start_date end_date)] ∧
    mjoin (rows <$> new) = mjoin (bars_of <$> fetches evs) ∧
    (new = [] ↔ Forall (λ f, bars_of f = []) (fetches evs)) ∧
    Forall (reported evs) (fetches evs) ∧
    Forall prices_event evs.
Proof.
  unfold fetch_symbol. rewrite run_bind. simpl.
  unfold try_except. rewrite run_bind. unfold call at 1. simpl.
  set (h := trace w ++ [Stdout (Downloading symbol)]).
  destruct (ticker_history E h symbol start_date end_date) as [[|b bs]|e] eqn:Hfetch.
  - exists [], [Stdout (Downloading symbol);
                TickerHistory symbol start_date end_date (Ok []);
                Stdout (WarnNoData symbol)].
    simpl. rewrite ?run_bind. simpl. rewrite app_nil_r. unfold h.
    rewrite <- !app_assoc. simpl.
    split_and!; try done.
    + split; [intros _|done]. repeat constructor.
    + constructor; [|constructor]. unfold reported; simpl. repeat constructor.
    + repeat constructor.
  - eexists [_], [Stdout (Downloading symbol);
                  TickerHistory symbol start_date end_date (Ok (b :: bs))].
    simpl. unfold h. rewrite <- !app_assoc. simpl.
    split_and!; try done.
    + split; [done|]. intros H. by inversion H.
    + repeat constructor.
    + repeat constructor.
  - exists [], [Stdout (Downloading symbol);
                TickerHistory symbol start_date end_date (Raise e);
                Stdout (ErrorDownloading symbol e)].
    simpl. rewrite ?run_bind. simpl. rewrite app_nil_r. unfold h.
    rewrite <- !app_assoc. simpl.
    split_and!; try done.
    + split; [intros _|done]. repeat constructor.
    + constructor; [|constructor]. unfold reported; simpl. repeat constructor.
    + repeat constructor.
Qed.

(** The loop asks for every symbol in turn, whatever happened before. *)
Lemma fetch_loop start_date end_date symbols : ∀ all_data w,
  ∃ new evs,
    for_in symbols (fetch_symbol E start_date end_date) all_data w =
      (Ok (all_data ++ new), {| trace := trace w ++ evs; heap := heap w |}) ∧
    (fetches evs).*1 = symbols ∧
    mjoin (rows <$> new) = mjoin (bars_of <$> fetches evs) ∧
    (new = [] ↔ Forall (λ f, bars_of f = []) (fetches evs)) ∧
    Forall (reported evs) (fetches evs) ∧
    Forall prices_event evs.
Proof.
  induction symbols as [|symbol symbols IH]; intros all_data w; simpl.
  - exists [], []. rewrite !app_nil_r. by destruct w.
  - destruct (fetch_symbol_run start_date end_date symbol all_data w)
      as (new1 & evs1 & Hrun1 & Hf1 & Hrows1 & Hnil1 & Hrep1 & Hev1).
    rewrite run_bind, Hrun1.
    destruct (IH (all_data ++ new1) {| trace := trace w ++ evs1; heap := heap w |})
      as (new2 & evs2 & Hrun2 & Hf2 & Hrows2 & Hnil2 & Hrep2 & Hev2).
    exists (new1 ++ new2), (evs1 ++ evs2). rewrite Hrun2. simpl.
    rewrite !app_assoc. split; [done|].
    rewrite fetches_app, !fmap_app, !join_app, Hf2, Hrows1, Hrows2.
    split_and!; try done.
    + by rewrite Hf1.
    + rewrite Forall_app, <- Hnil1, <- Hnil2. split.
      * by intros [-> ->]%app_eq_nil.
      * by intros [-> ->].
    + apply Forall_app. split.
      * apply Forall_lookup. intros i f Hi. apply reported_app_l.
        by eapply (Forall_lookup_1 _ _ _ _ Hrep1).
      * apply Forall_lookup. intros i f Hi. apply reported_app_r.
        by eapply (Forall_lookup_1 _ _ _ _ Hrep2).
    + by apply Forall_app.
Qed.



(** The complete behaviour of the download, in terms of the requests found
    in the stretch [evs] of trace it adds. *)
Lemma download_historical_prices_run symbols start_date end_date w :
  ∃ evs,
    trace (download_historical_prices E symbols start_date end_date w).2 =
      trace w ++ evs ∧
    (fetches evs).*1 = list_set E symbols ++ [CStr "^GSPC"] ∧
    Forall (reported evs) (fetches evs) ∧
    Forall prices_event evs ∧
    match download_historical_prices E symbols start_date end_date w with
    | (Raise e, w1) =>
        e = ValueError "No historical price data could be downloaded" ∧
        Forall (λ f, bars_of f = []) (fetches evs) ∧
        heap w1 = heap w
    | (Ok l, w1) =>
        Exists (λ f, bars_of f ≠ []) (fetches evs) ∧
        l = length (heap w) ∧
        ∃ prices, heap w1 = heap w ++ [prices] ∧
          columns prices = price_columns ∧
          rows prices =
            sort_rows E ["date"; "symbol"] price_columns
              (mjoin (bars_of <$> fetches evs))
    end.
Proof.
  unfold download_historical_prices.
  rewrite run_bind. simpl.
  set (w0 := {| trace := trace w ++ [Stdout (Text "Downloading historical prices...")];
                heap := heap w |}).
  destruct (fetch_loop start_date end_date (list_set E symbols ++ [CStr "^GSPC"]) [] w0)
    as (new & evs & Hrun & Hsyms & Hrows & Hnil & Hrep & Hev).
  rewrite run_bind, Hrun. simpl.
  destruct new as [|d ds].
  - exists (Stdout (Text "Downloading historical prices...") :: evs).
    simpl. rewrite <- app_assoc. rewrite fetches_cons_stdout.
    split_and!; try done.
    + apply Forall_lookup. intros i f Hi.
      apply (reported_app_r evs [Stdout (Text "Downloading historical prices...")]).
      by eapply (Forall_lookup_1 _ _ _ _ Hrep).
    + by constructor.
    + by apply Hnil.
  - set (prices := sort_values E ["date"; "symbol"] (concat price_columns (d :: ds))).
    exists (Stdout (Text "Downloading historical prices...") :: evs ++
            [Stdout (Downloaded (length (rows prices))
                       (length (list_set E symbols ++ [CStr "^GSPC"])))]).
    rewrite run_bind. simpl. rewrite <- !app_assoc. simpl.
    rewrite fetches_cons_stdout, fetches_snoc_stdout.
    split_and!; try done.
    + apply Forall_lookup. intros i f Hi.
      apply (reported_app_r _ [Stdout (Text "Downloading historical prices...")]).
      apply reported_app_l. by eapply (Forall_lookup_1 _ _ _ _ Hrep).
    + constructor; [done|]. apply Forall_app. split; [done|]. by repeat constructor.
    + apply not_Forall_Exists; [intros f; apply _|]. intros H.
      by apply Hnil in H.
    + exists prices. split_and!; try done.
      unfold prices, sort_values. simpl. f_equal.
      change (mjoin (rows <$> d :: ds) = mjoin (bars_of <$> fetches evs)).
      by rewrite Hrows.
Qed.



End prices.

(** ** merge_datasets *)

Section merge.
Context (E : Env).

Ltac run_step H a w Hs :=
  apply bind_inv in H as [(a & w & Hs & H)|(? & Hs & ->)].

Ltac early_failure :=
  left; eexists; split; [reflexivity | simpl in *; congruence].

Lemma read_csv_inv path w r w1 :
  read_csv E path w = (r, w1) →
  heap w1 = heap w ∧
  ((∃ df, fs E path = Some df ∧ r = Ok df) ∨ (∃ e, r = Raise e)).
Proof.
  unfold read_csv. destruct (fs E path) as [df|].
  - rewrite run_bind. simpl. intros [= <- <-]. split; [done|]. left. by exists df.
  - intros [= <- <-]. split; [done|]. right. by eexists.
Qed.

(** Every run of [merge_datasets] either fails before a table is created,
    or fails after creating the sorted table, or returns the second of two
    new tables. *)
Lemma merge_datasets_inv pa ph w r w1 :
  merge_datasets E pa ph w = (r, w1) →
  (∃ e, r = Raise e ∧ heap w1 = heap w) ∨
  (∃ e df, r = Raise e ∧ heap w1 = heap w ++ [df]) ∨
  (∃ A H A' H' (s : merge_steps E A' H') articles df3 out,
     fs E pa = Some A ∧ fs E ph = Some H ∧
     getitem_list A required_cols = Ok A' ∧
     getitem_list H required_cols = Ok H' ∧
     let sorted := sort_values E ["date"] (ms_dated E A' H' s) in
     length articles = length (rows sorted) ∧
     setitem sorted "article" (CStr <$> articles) = Ok df3 ∧
     getitem_list df3 all_news_columns = Ok out ∧
     r = Ok (S (length (heap w))) ∧
     heap w1 = heap w ++ [df3; out]).
Proof.
  unfold merge_datasets. intros Hrun.
  run_step Hrun u1 w2 Hs; unfold print, emit in Hs; simplify_eq.
  run_step Hrun A w3 Hs; apply read_csv_inv in Hs as [Hh3 [(? & HA & ?)|(? & ?)]];
    simpl in Hh3; simplify_eq; [|early_failure].
  run_step Hrun H w4 Hs; apply read_csv_inv in Hs as [Hh4 [(? & HH & ?)|(? & ?)]];
    simplify_eq; [|early_failure].
  run_step Hrun u2 w5 Hs; unfold print, emit in Hs; simplify_eq.
  run_step Hrun u3 w6 Hs; unfold print, emit in Hs; simplify_eq.
  run_step Hrun A' w7 Hs; unfold lift in Hs; simplify_eq; [|early_failure].
  run_step Hrun H' w8 Hs; unfold lift in Hs; simplify_eq; [|early_failure].
  run_step Hrun numbered w9 Hs; unfold lift in Hs; simplify_eq; [|early_failure].
  run_step Hrun dates w10 Hs; unfold lift in Hs; simplify_eq; [|early_failure].
  run_step Hrun parsed w11 Hs; unfold lift in Hs; simplify_eq; [|early_failure].
  run_step Hrun dated w12 Hs; unfold lift in Hs; simplify_eq; [|early_failure].
  run_step Hrun u4 w13 Hs; unfold print, emit in Hs; simplify_eq.
  set (sorted := sort_values E ["date"] dated) in *.
  run_step Hrun l3 w14 Hs; unfold new_frame in Hs; simpl in Hs; simplify_eq.
  match type of Hrun with _ ?w0 = _ => set (w3' := w0) in * end.
  assert (heap w3' !! length (heap w4) = Some sorted) as Hl3.
  { unfold w3'. simpl. by apply list_lookup_middle. }
  run_step Hrun l4 w15 Hdl;
    pose proof (download_articles_run E _ _ _ _ _ _ Hl3 Hdl) as Hda; simpl in Hda.
  2:{ right. left. eexists _, sorted. split; [done|]. rewrite Hda.
      unfold w3'. simpl. congruence. }
  destruct Hda as (-> & articles & df3 & Hlen & _ & Hset & Hheap).
  assert (heap w15 = heap w ++ [df3]) as Hheap4.
  { rewrite Hheap. unfold w3'. simpl. rewrite insert_app_r_alt by lia.
    rewrite Nat.sub_diag. simpl. congruence. }
  assert (heap w15 !! length (heap w4) = Some df3) as Hl4.
  { rewrite Hheap4. apply list_lookup_middle. congruence. }
  run_step Hrun df w16 Hs; unfold read_frame in Hs; cbv beta in Hs;
    rewrite Hl4 in Hs; simplify_eq.
  run_step Hrun out w17 Hs; unfold lift in Hs; simplify_eq.
  2:{ right. left. eexists _, df. by split. }
  unfold new_frame in Hrun. simplify_eq.
  right. right.
  match goal with
  | HA : fs E pa = Some ?A, HH : fs E ph = Some ?H,
    Hnum : setitem _ "id" _ = Ok numbered,
    Hdates : getitem numbered "date" = Ok dates,
    Hparsed : to_datetime E dates = Ok parsed,
    Hdated : setitem numbered "date" _ = Ok dated |- _ =>
      exists A, H, A', H',
        (Build_merge_steps E A' H' numbered dates parsed dated
           Hnum Hdates Hparsed Hdated), articles, df, out
  end.
  simpl. split_and!; try done.
  - rewrite Hheap4, length_app. simpl. f_equal. lia.
  - rewrite Hheap4. by rewrite <- app_assoc.
Qed.

End merge.

(** ** Rows of the merged table *)

Lemma fit_6 row :
  fit 6 row = [cell_at row 0; cell_at row 1; cell_at row 2; cell_at row 3;
               cell_at row 4; cell_at row 5].
Proof.
  destruct row as [|c0 [|c1 [|c2 [|c3 [|c4 [|c5 row]]]]]]; reflexivity.
Qed.

Lemma getitem_list_inv df keys df' :
  getitem_list df keys = Ok df' →
  columns df' = keys ∧ length (rows df') = length (rows df).
Proof.
  unfold getitem_list. destruct (missing_labels _ _); [|done].
  intros [= <-]. simpl. by rewrite length_fmap.
Qed.

Lemma fmap_zip_with_l' {A B C D} (f : A → B → C) (g : C → D) (h : A → D)
    (l : list A) (k : list B) :
  (∀ x y, g (f x y) = h x) → length l ≤ length k →
  g <$> zip_with f l k = h <$> l.
Proof.
  intros Hf. revert k. induction l as [|x l IH]; intros [|y k] ?; simpl in *;
    try done; try lia.
  rewrite Hf. f_equal. apply IH. lia.
Qed.

Lemma setitem_required df key i values df' :
  columns df = required_cols →
  get_loc required_cols key = Some i →
  setitem df key values = Ok df' →
  columns df' = required_cols ∧
  length values = length (rows df) ∧
  rows df' = zip_with (λ row v, <[i:=v]> (fit 6 row)) (rows df) values.
Proof.
  intros Hcols Hi. unfold setitem. destruct (decide _) as [Hlen|]; [|done].
  rewrite Hcols, Hi. by intros [= <-].
Qed.

Lemma setitem_article df values df' :
  columns df = required_cols →
  setitem df "article" values = Ok df' →
  columns df' = required_cols ++ ["article"] ∧
  length values = length (rows df) ∧
  rows df' = zip_with (λ row v, fit 6 row ++ [v]) (rows df) values.
Proof.
  intros Hcols. unfold setitem. destruct (decide _) as [Hlen|]; [|done].
  rewrite Hcols.
  change (get_loc required_cols "article") with (@None nat).
  by intros [= <-].
Qed.

Lemma length_id_range n : length (id_range n) = n.
Proof. unfold id_range. by rewrite length_fmap, length_seq. Qed.

Lemma lookup_id_range n k :
  k < n → id_range n !! k = Some (CInt (Z.of_nat (S k))).
Proof.
  intros Hk. unfold id_range. rewrite list_lookup_fmap, lookup_seq_lt by done.
  done.
Qed.

Lemma numbered_rows a h numbered :
  setitem (concat required_cols [a; h]) "id"
    (id_range (length (rows (concat required_cols [a; h])))) = Ok numbered →
  columns numbered = required_cols ∧
  rows numbered =
    zip_with (λ row v, <[0:=v]> (fit 6 row)) (rows a ++ rows h)
      (id_range (length (rows a ++ rows h))).
Proof.
  intros Hnum.
  destruct (setitem_required (concat required_cols [a; h]) "id" 0 _ _
              eq_refl eq_refl Hnum) as (Hc & _ & Hr).
  unfold concat in Hr. simpl in Hr. rewrite app_nil_r in Hr. done.
Qed.

Lemma numbered_dates a h numbered :
  setitem (concat required_cols [a; h]) "id"
    (id_range (length (rows (concat required_cols [a; h])))) = Ok numbered →
  getitem numbered "date" =
    Ok ((λ src, field required_cols src "date") <$> (rows a ++ rows h)).
Proof.
  intros Hnum. destruct (numbered_rows a h numbered Hnum) as [Hc Hr].
  unfold getitem. rewrite Hc.
  change (get_loc required_cols "date") with (Some 4).
  f_equal. rewrite Hr. apply fmap_zip_with_l'.
  - intros row v. rewrite fit_6. reflexivity.
  - by rewrite length_id_range.
Qed.

(** The intermediate tables exist as soon as the dates can be parsed. *)
Lemma merge_steps_exist E a h parsed :
  library_contract E →
  to_datetime E ((λ src, field required_cols src "date") <$> (rows a ++ rows h))
    = Ok parsed →
  ∃ s : merge_steps E a h, ms_parsed E a h s = parsed.
Proof.
  intros HE Hparsed.
  destruct (setitem_ok (concat required_cols [a; h]) "id"
              (id_range (length (rows (concat required_cols [a; h])))))
    as [numbered Hnum].
  { apply length_id_range. }
  pose proof (numbered_dates a h numbered Hnum) as Hdates.
  destruct (numbered_rows a h numbered Hnum) as [Hc Hr].
  destruct (setitem_ok numbered "date" (timestamp <$> parsed)) as [dated Hdated].
  { rewrite length_fmap, (to_datetime_length E HE _ _ Hparsed), length_fmap, Hr.
    rewrite length_zip_with, length_id_range. lia. }
  by exists (Build_merge_steps E a h numbered _ parsed dated Hnum Hdates Hparsed Hdated).
Qed.

Section merged.
Context (E : Env) (a h : DataFrame) (s : merge_steps E a h).

Let srcs := rows a ++ rows h.

Lemma numbered_spec :
  columns (ms_numbered E a h s) = required_cols ∧
  rows (ms_numbered E a h s) =
    zip_with (λ row v, <[0:=v]> (fit 6 row)) srcs (id_range (length srcs)).
Proof. apply numbered_rows, ms_numbered_eq. Qed.

Lemma dates_spec :
  ms_dates E a h s = (λ src, field required_cols src "date") <$> srcs.
Proof.
  pose proof (numbered_dates a h _ (ms_numbered_eq E a h s)) as Hd.
  rewrite (ms_dates_eq E a h s) in Hd. by injection Hd.
Qed.

Lemma dated_spec :
  columns (ms_dated E a h s) = required_cols ∧
  length (ms_parsed E a h s) = length srcs ∧
  rows (ms_dated E a h s) =
    zip_with (λ row v, <[4:=v]> (fit 6 row))
      (zip_with (λ row v, <[0:=v]> (fit 6 row)) srcs (id_range (length srcs)))
      (timestamp <$> ms_parsed E a h s).
Proof.
  destruct numbered_spec as [Hc Hr].
  destruct (setitem_required _ "date" 4 _ _ Hc eq_refl (ms_dated_eq E a h s))
    as (Hc' & Hlen & Hr').
  rewrite Hr in Hr', Hlen.
  rewrite length_fmap, length_zip_with, length_id_range in Hlen.
  split_and!; [done|lia|done].
Qed.

(** Row [k] of the table before the sort. *)
Lemma dated_lookup k r :
  rows (ms_dated E a h s) !! k = Some r →
  ∃ src t, srcs !! k = Some src ∧ ms_parsed E a h s !! k = Some t ∧
    r = [CInt (Z.of_nat (S k)); field required_cols src "headline";
         field required_cols src "URL"; field required_cols src "publisher";
         timestamp t; field required_cols src "symbol"].
Proof.
  destruct dated_spec as (_ & Hlen & ->).
  rewrite !lookup_zip_with. intros Hr.
  destruct (srcs !! k) as [src|] eqn:Hsrc; simpl in Hr; [|done].
  rewrite lookup_id_range in Hr by (by eapply lookup_lt_Some).
  simpl in Hr. rewrite list_lookup_fmap in Hr.
  destruct (ms_parsed E a h s !! k) as [t|]; simpl in Hr; [|done].
  injection Hr as <-. exists src, t. split_and!; try done.
  rewrite fit_6. simpl. rewrite fit_6. reflexivity.
Qed.

Lemma length_dated : length (rows (ms_dated E a h s)) = length srcs.
Proof.
  destruct dated_spec as (_ & Hlen & ->).
  rewrite !length_zip_with, length_id_range, length_fmap. lia.
Qed.

Lemma dated_ids :
  (λ r, cell_at r 0) <$> rows (ms_dated E a h s) = id_range (length srcs).
Proof.
  apply list_eq. intros k. rewrite list_lookup_fmap.
  destruct (decide (k < length srcs)) as [Hk|Hk].
  - rewrite lookup_id_range by done.
    destruct (lookup_lt_is_Some_2 (rows (ms_dated E a h s)) k) as [r Hr].
    { by rewrite length_dated. }
    rewrite Hr. apply dated_lookup in Hr as (src & t & _ & _ & ->). done.
  - rewrite !lookup_ge_None_2; [done| |].
    + rewrite length_id_range. lia.
    + rewrite length_dated. lia.
Qed.

(** The table after the sort, the article column and the final
    reordering of the columns. *)
Context (articles : list string) (df3 out : DataFrame).
Context (Hlen : length articles =
                length (rows (sort_values E ["date"] (ms_dated E a h s)))).
Context (Hdf3 : setitem (sort_values E ["date"] (ms_dated E a h s)) "article"
                  (CStr <$> articles) = Ok df3).
Context (Hout : getitem_list df3 all_news_columns = Ok out).

Let sorted := rows (sort_values E ["date"] (ms_dated E a h s)).

Lemma out_spec :
  columns out = all_news_columns ∧
  rows out =
    zip_with (λ r v, [cell_at r 0; cell_at r 1; cell_at r 2; v; cell_at r 3;
                      cell_at r 4; cell_at r 5])
      sorted (CStr <$> articles).
Proof.
  destruct dated_spec as (Hc & _ & _).
  destruct (setitem_article (sort_values E ["date"] (ms_dated E a h s)) _ _
              Hc Hdf3) as (Hc3 & _ & Hr3).
  pose proof Hout as Ho. unfold getitem_list in Ho. rewrite Hc3 in Ho.
  change (missing_labels (required_cols ++ ["article"]) all_news_columns)
    with (@nil string) in Ho.
  injection Ho as <-. split; [done|]. simpl. rewrite Hr3.
  fold sorted. generalize (CStr <$> articles). generalize sorted.
  intros l. induction l as [|r l IH]; intros [|v vs]; simpl; try done.
  rewrite IH. f_equal. rewrite fit_6. reflexivity.
Qed.

Context (HE : library_contract E).

Lemma sorted_perm : sorted ≡ₚ rows (ms_dated E a h s).
Proof. unfold sorted, sort_values. simpl. apply (sort_rows_perm E HE). Qed.

Lemma length_sorted : length sorted = length srcs.
Proof. by rewrite sorted_perm, length_dated. Qed.

Lemma length_out : length (rows out) = length srcs.
Proof.
  destruct out_spec as [_ ->].
  rewrite length_zip_with, length_fmap, Hlen. fold sorted.
  rewrite Nat.min_id. apply length_sorted.
Qed.

Lemma out_ids : (λ r, cell_at r 0) <$> rows out ≡ₚ id_range (length srcs).
Proof.
  destruct out_spec as [_ ->].
  rewrite (fmap_zip_with_l' _ _ (λ r, cell_at r 0)).
  - by rewrite sorted_perm, dated_ids.
  - done.
  - rewrite length_fmap, Hlen. done.
Qed.

Lemma out_sorted : Sorted date_le (date_of all_news_columns <$> rows out).
Proof.
  destruct out_spec as [_ ->].
  rewrite (fmap_zip_with_l' _ _ (date_of required_cols)).
  - destruct dated_spec as (Hc & _ & _).
    pose proof (sort_rows_date E HE (columns (ms_dated E a h s))
                  (rows (ms_dated E a h s))) as Hs.
    rewrite <- Hc. apply Hs. rewrite Hc.
    apply Forall_lookup. intros k r Hr.
    apply dated_lookup in Hr as (src & t & _ & _ & ->). by destruct t.
  - done.
  - rewrite length_fmap, Hlen. done.
Qed.

Lemma out_rows row :
  row ∈ rows out →
  ∃ k src t text,
    srcs !! k = Some src ∧ ms_parsed E a h s !! k = Some t ∧
    row = merged_row k src t text.
Proof.
  destruct out_spec as [_ ->].
  intros Hin. apply list_elem_of_lookup in Hin as [i Hi].
  rewrite lookup_zip_with in Hi.
  destruct (sorted !! i) as [r|] eqn:Hr; simpl in Hi; [|done].
  rewrite list_lookup_fmap in Hi.
  destruct (articles !! i) as [text|]; simpl in Hi; [|done].
  injection Hi as <-.
  apply list_elem_of_lookup_2 in Hr. rewrite sorted_perm in Hr.
  apply list_elem_of_lookup in Hr as [k Hk].
  apply dated_lookup in Hk as (src & t & Hsrc & Ht & ->).
  by exists k, src, t, text.
Qed.

End merged.

Section merge_output.
Context (E : Env) (HE : library_contract E).

Lemma bind_ok {A B} (m : M A) (f : A → M B) w a w1 :
  m w = (Ok a, w1) → (m ≫= f) w = f a w1.
Proof. intros H. by rewrite run_bind, H. Qed.

(** With the stub files in place and the dates parsed, [merge_datasets]
    reaches the article download with the sorted table as its newest one. *)
Lemma merge_datasets_forward pa ph w A H A' H' (s : merge_steps E A' H') :
  fs E pa = Some A → fs E ph = Some H →
  getitem_list A required_cols = Ok A' →
  getitem_list H required_cols = Ok H' →
  ∃ w3,
    heap w3 = heap w ++ [sort_values E ["date"] (ms_dated E A' H' s)] ∧
    merge_datasets E pa ph w =
      (download_articles E (length (heap w)) 1 ≫= λ r,
       read_frame r ≫= λ df,
       lift (getitem_list df all_news_columns) ≫= λ out, new_frame out) w3.
Proof.
  intros HA HH HA' HH'. unfold merge_datasets.
  erewrite bind_ok by reflexivity.
  erewrite bind_ok by (unfold read_csv; rewrite HA; reflexivity).
  erewrite bind_ok by (unfold read_csv; rewrite HH; reflexivity).
  erewrite bind_ok by reflexivity.
  erewrite bind_ok by reflexivity.
  erewrite bind_ok by (rewrite HA'; reflexivity).
  erewrite bind_ok by (rewrite HH'; reflexivity).
  erewrite bind_ok by (rewrite (ms_numbered_eq E A' H' s); reflexivity).
  erewrite bind_ok by (rewrite (ms_dates_eq E A' H' s); reflexivity).
  erewrite bind_ok by (rewrite (ms_parsed_eq E A' H' s); reflexivity).
  erewrite bind_ok by (rewrite (ms_dated_eq E A' H' s); reflexivity).
  erewrite bind_ok by reflexivity.
  erewrite bind_ok by reflexivity.
  eexists. split; [|reflexivity]. reflexivity.
Qed.

Lemma merge_datasets_returns pa ph w A H A' H' :
  fs E pa = Some A → fs E ph = Some H →
  getitem_list A required_cols = Ok A' →
  getitem_list H required_cols = Ok H' →
  is_ok (to_datetime E ((λ src, field required_cols src "date")
                          <$> (rows A' ++ rows H'))) = true →
  Forall (λ src, is_str (field required_cols src "URL")) (rows A' ++ rows H') →
  is_ok (merge_datasets E pa ph w).1 = true.
Proof.
  intros HA HH HA' HH' Hdates Hurls.
  destruct (to_datetime E _) as [parsed|] eqn:Hparsed; [|done].
  destruct (merge_steps_exist E A' H' parsed HE Hparsed) as [s _].
  destruct (merge_datasets_forward pa ph w A H A' H' s HA HH HA' HH')
    as (w3 & Hheap3 & ->).
  set (sorted := sort_values E ["date"] (ms_dated E A' H' s)) in *.
  assert (heap w3 !! length (heap w) = Some sorted) as Hl3.
  { rewrite Hheap3. by apply list_lookup_middle. }
  assert ((download_articles E (length (heap w)) 1 w3).1 = Ok (length (heap w)))
    as Hok.
  { apply download_articles_ok with sorted; [done|].
    apply Forall_lookup. intros i r Hr.
    apply list_elem_of_lookup_2 in Hr.
    unfold sorted, sort_values in Hr. simpl in Hr.
    rewrite (sort_rows_perm E HE) in Hr.
    apply list_elem_of_lookup in Hr as [k Hk].
    apply dated_lookup in Hk as (src & t & Hsrc & _ & ->).
    destruct (dated_spec E A' H' s) as (Hc & _ & _).
    unfold sorted, sort_values. simpl. rewrite Hc.
    pose proof (Forall_lookup_1 _ _ _ _ Hurls Hsrc) as Hu. simpl in Hu.
    destruct (field required_cols src "URL") as [u| | | | |] eqn:Hfu; try done.
    exists u, (field required_cols src "publisher"). by split. }
  destruct (download_articles E (length (heap w)) 1 w3) as [r4 w4] eqn:Hdl.
  simpl in Hok. subst r4.
  pose proof (download_articles_run E _ _ _ _ _ _ Hl3 Hdl) as Hda. simpl in Hda.
  destruct Hda as (_ & articles & df3 & Hlen & _ & Hset & Hheap).
  rewrite run_bind, Hdl.
  assert (heap w4 !! length (heap w) = Some df3) as Hl4.
  { rewrite Hheap. apply list_lookup_insert_eq. by eapply lookup_lt_Some. }
  rewrite run_bind. unfold read_frame at 1. rewrite Hl4.
  rewrite run_bind. unfold lift at 1.
  destruct (dated_spec E A' H' s) as (Hc & _ & _).
  destruct (setitem_article sorted _ _ Hc Hset) as (Hc3 & _ & _).
  unfold getitem_list. rewrite Hc3.
  change (missing_labels (required_cols ++ ["article"]) all_news_columns)
    with (@nil string).
  reflexivity.
Qed.

End merge_output.

(** ** The concrete environments satisfy the library contract *)

Global Instance date_le_total : Total date_le.
Proof. intros [x|] [y|]; simpl; auto. destruct (Z.le_ge_cases x y); auto; lia. Qed.

Global Instance by_date_total cols : Total (Scenario.by_date cols).
Proof. intros r1 r2. unfold Scenario.by_date. apply date_le_total. Qed.

Lemma stable_sort_contract by_ cols rs :
  Scenario.stable_sort by_ cols rs ≡ₚ rs ∧
  Sorted date_le (date_of cols <$> Scenario.stable_sort ["date"] cols rs).
Proof.
  split.
  - unfold Scenario.stable_sort. destruct (decide _);
      by rewrite ?merge_sort_Permutation.
  - unfold Scenario.stable_sort. rewrite decide_False by done.
    apply (Sorted_fmap _ (Scenario.by_date cols)); [done|].
    apply Sorted_merge_sort. apply _.
Qed.

Lemma elem_of_unique (xs : list cell) x : x ∈ unique xs ↔ x ∈ xs.
Proof.
  induction xs as [|c xs IH]; simpl; [done|].
  rewrite !elem_of_cons, list_elem_of_filter, IH.
  destruct (decide (x = c)) as [->|Hne]; [by split; left|].
  split.
  - intros [->|[_ Hin]]; [done | by right].
  - intros [->|Hin]; [done | by right].
Qed.

Lemma env_contract : library_contract Scenario.env.
Proof.
  split; simpl.
  - intros. apply stable_sort_contract.
  - intros. apply (stable_sort_contract ["date"]).
  - intros cells ts [= <-]. by rewrite length_fmap.
  - apply elem_of_unique.
Qed.

Lemma env_reversing_contract : library_contract Scenario.env_reversing.
Proof.
  split; simpl; unfold Scenario.reversing_sort.
  - intros. rewrite (proj1 (stable_sort_contract _ _ _)). apply reverse_Permutation.
  - intros. apply (stable_sort_contract ["date"]).
  - intros cells ts [= <-]. by rewrite length_fmap.
  - apply elem_of_unique.
Qed.

(** ** merge_datasets: the merged table *)

(** Claim C1, as amended.  When the two stub files have the common columns,
    [merge_datasets] returns as soon as the dates parse and every URL is a
    string, and the table it returns has the all_news columns and one row
    per stub row (n1 + n2 rows).  Ids are given before the sort, in
    concatenation order: the row made from position [k] of the
    concatenation (first source before second source, each in file order)
    carries id [k + 1] whatever its original id was, so the id column is a
    permutation of 1..n1+n2, in general not in increasing order.  The rows
    are in ascending date order, NaT last. *)
Theorem merge_datasets_output (E : Env) (pa ph : string) (w : world)
    (A H A' H' : DataFrame) :
  library_contract E →
  fs E pa = Some A → fs E ph = Some H →
  getitem_list A required_cols = Ok A' →
  getitem_list H required_cols = Ok H' →
  let srcs := rows A' ++ rows H' in
  let dates := (λ src, field required_cols src "date") <$> srcs in
  let n := length (rows A) + length (rows H) in
  let run := merge_datasets E pa ph w in
  (is_ok (to_datetime E dates) = true →
   Forall (λ src, is_str (field required_cols src "URL")) srcs →
   is_ok run.1 = true) ∧
  ∀ l, run.1 = Ok l →
    ∃ out parsed ids,
      heap run.2 !! l = Some out ∧
      to_datetime E dates = Ok parsed ∧
      columns out = all_news_columns ∧
      length (rows out) = n ∧
      getitem out "id" = Ok ids ∧ ids ≡ₚ id_range n ∧
      Sorted date_le (date_of all_news_columns <$> rows out) ∧
      ∀ row, row ∈ rows out →
        ∃ k src t text,
          srcs !! k = Some src ∧ parsed !! k = Some t ∧
          row = merged_row k src t text.
Proof.
  intros HE HA HH HA' HH' srcs dates n run. split.
  { by apply (merge_datasets_returns E HE pa ph w A H A' H'). }
  intros l Hl.
  pose proof (merge_datasets_inv E pa ph w run.1 run.2) as Hinv.
  rewrite <- surjective_pairing in Hinv. specialize (Hinv eq_refl).
  rewrite Hl in Hinv.
  destruct Hinv as [(e & [=] & _)|[(e & df & [=] & _)|Hinv]].
  destruct Hinv as (A0 & H0 & A0' & H0' & s & articles & df3 & out & HA0 & HH0 &
                    HA0' & HH0' & Hlen & Hdf3 & Hout & [= ->] & Hheap).
  simplify_eq.
  assert (A0' = A') as -> by congruence.
  assert (H0' = H') as -> by congruence.
  destruct (getitem_list_inv _ _ _ HA') as [_ HlenA].
  destruct (getitem_list_inv _ _ _ HH') as [_ HlenH].
  assert (length srcs = n) as Hn.
  { unfold srcs, n. rewrite length_app. lia. }
  destruct (out_spec E A' H' s articles df3 out Hdf3 Hout) as [Hcols _].
  exists out, (ms_parsed E A' H' s), ((λ r, cell_at r 0) <$> rows out).
  split_and!.
  - rewrite Hheap. rewrite lookup_app_r by lia.
    replace (S (length (heap w)) - length (heap w)) with 1 by lia. done.
  - unfold dates, srcs. rewrite <- (dates_spec E A' H' s). apply ms_parsed_eq.
  - done.
  - rewrite (length_out E A' H' s articles df3 out Hlen Hdf3 Hout HE). done.
  - unfold getitem. rewrite Hcols. done.
  - rewrite <- Hn. by apply (out_ids E A' H' s articles df3 out).
  - by apply (out_sorted E A' H' s articles df3 out).
  - by apply (out_rows E A' H' s articles df3 out).
Qed.

(** The theorem at the 3-row and 5-row stub files of the scenario. *)
Lemma merge_datasets_output_witness :
  let E := Scenario.env in
  let srcs := rows Scenario.analyst_ratings ++ rows Scenario.headline_stubs in
  let dates := (λ src, field required_cols src "date") <$> srcs in
  let run := merge_datasets E analyst_ratings_path headlines_path Scenario.start in
  (is_ok (to_datetime E dates) = true →
   Forall (λ src, is_str (field required_cols src "URL")) srcs →
   is_ok run.1 = true) ∧
  ∀ l, run.1 = Ok l →
    ∃ out parsed ids,
      heap run.2 !! l = Some out ∧
      to_datetime E dates = Ok parsed ∧
      columns out = all_news_columns ∧
      length (rows out) = 8 ∧
      getitem out "id" = Ok ids ∧ ids ≡ₚ id_range 8 ∧
      Sorted date_le (date_of all_news_columns <$> rows out) ∧
      ∀ row, row ∈ rows out →
        ∃ k src t text,
          srcs !! k = Some src ∧ parsed !! k = Some t ∧
          row = merged_row k src t text.
Proof.
  apply (merge_datasets_output Scenario.env analyst_ratings_path headlines_path
           Scenario.start Scenario.analyst_ratings Scenario.headline_stubs
           Scenario.analyst_ratings Scenario.headline_stubs env_contract);
    vm_compute; reflexivity.
Defined.

(** Counterexample to claim C1 as stated.  On the 3-row and 5-row stub
    files the id column of the merged table is 2, 5, 3, 4, 8, 1, 7, 6: the
    ids 1..8 were given in concatenation order before the sort by date, so
    in the returned table they are not the sequence 1..8.  And with a sort
    that also orders by date but treats equal dates differently, which
    pandas' default algorithm is free to do, the table is still in date
    order while the first-source row of 2020-01-01 (id 2) comes after the
    second-source row of that day (id 5). *)
Lemma merge_datasets_ids_follow_the_sort :
  merged_column Scenario.env "id" =
    Some (Ok (CInt <$> [2; 5; 3; 4; 8; 1; 7; 6])%Z) ∧
  merged_column Scenario.env "id" ≠ Some (Ok (id_range 8)) ∧
  library_contract Scenario.env_reversing ∧
  merged_column Scenario.env_reversing "date" =
    Some (Ok (CTime <$> [20200101; 20200101; 20200102; 20200102; 20200102;
                         20200103; 20200103; 20200104])%Z) ∧
  merged_column Scenario.env_reversing "id" =
    Some (Ok (CInt <$> [5; 2; 8; 4; 3; 7; 1; 6])%Z).
Proof.
  split_and!.
  - vm_compute. reflexivity.
  - vm_compute. discriminate.
  - apply env_reversing_contract.
  - vm_compute. reflexivity.
  - vm_compute. reflexivity.
Qed.

(** ** Which tables a stage changes *)

Lemma download_historical_prices_heap E symbols start_date end_date w :
  let run := download_historical_prices E symbols start_date end_date w in
  heap_extends w run.2 ∧
  ∀ l, run.1 = Ok l → heap w !! l = None ∧ is_Some (heap run.2 !! l).
Proof.
  intros run.
  destruct (download_historical_prices_run E symbols start_date end_date w)
    as (evs & _ & _ & _ & _ & Hres).
  fold run in Hres. destruct run as [[l|e] w1]; simpl.
  - destruct Hres as (_ & -> & prices & Hheap & _). unfold heap_extends. simpl.
    rewrite Hheap. split; [by apply prefix_app_r|].
    intros l [= <-]. split; [by apply lookup_ge_None_2|].
    exists prices. by apply list_lookup_middle.
  - destruct Hres as (_ & _ & Hheap). unfold heap_extends. simpl.
    rewrite Hheap. split; [done|]. by intros l [=].
Qed.

Lemma merge_datasets_heap E pa ph w :
  let run := merge_datasets E pa ph w in
  heap_extends w run.2 ∧
  ∀ l, run.1 = Ok l → heap w !! l = None ∧ is_Some (heap run.2 !! l).
Proof.
  intros run.
  pose proof (merge_datasets_inv E pa ph w run.1 run.2) as Hinv.
  rewrite <- surjective_pairing in Hinv. specialize (Hinv eq_refl).
  unfold heap_extends.
  destruct Hinv as [(e & -> & ->)|[(e & df & -> & ->)|Hinv]].
  - split; [done|]. by intros l [=].
  - split; [by apply prefix_app_r|]. by intros l [=].
  - destruct Hinv as (A & H & A' & H' & s & articles & df3 & out & _ & _ & _ & _ &
                      _ & _ & _ & -> & ->).
    split; [by apply prefix_app_r|].
    intros l [= <-]. split; [apply lookup_ge_None_2; lia|].
    exists out. rewrite lookup_app_r by lia.
    by replace (S (length (heap w)) - length (heap w)) with 1 by lia.
Qed.

(** Claim C6, as amended.  The price download and the dataset merge leave
    every table that existed before the call unchanged and return a
    reference to a table created by the call.  [download_articles] does
    not: it returns the very reference it was given, creates no table, and
    the table behind that reference has been given its article column in
    place (all other tables are unchanged); when it raises, nothing has
    been changed. *)
Theorem only_download_articles_updates_in_place
    (E : Env) (w : world) (news_df : loc) (df : DataFrame) (delay : Z)
    (symbols : list cell) (start_date end_date pa ph : string) :
  heap w !! news_df = Some df →
  (let run := download_historical_prices E symbols start_date end_date w in
   heap_extends w run.2 ∧
   ∀ l, run.1 = Ok l → heap w !! l = None ∧ is_Some (heap run.2 !! l)) ∧
  (let run := merge_datasets E pa ph w in
   heap_extends w run.2 ∧
   ∀ l, run.1 = Ok l → heap w !! l = None ∧ is_Some (heap run.2 !! l)) ∧
  (let run := download_articles E news_df delay w in
   (∀ e, run.1 = Raise e → heap run.2 = heap w) ∧
   ∀ l, run.1 = Ok l →
     l = news_df ∧
     length (heap run.2) = length (heap w) ∧
     (∀ l', l' ≠ news_df → heap run.2 !! l' = heap w !! l') ∧
     ∃ articles df',
       length articles = length (rows df) ∧
       setitem df "article" (CStr <$> articles) = Ok df' ∧
       heap run.2 !! news_df = Some df').
Proof.
  intros Hdf. split_and!.
  - apply download_historical_prices_heap.
  - apply merge_datasets_heap.
  - intros run.
    pose proof (download_articles_run E news_df delay w df run.1 run.2 Hdf) as Hrun.
    rewrite <- surjective_pairing in Hrun. specialize (Hrun eq_refl).
    split.
    + intros e He. by rewrite He in Hrun.
    + intros l Hl. rewrite Hl in Hrun.
      destruct Hrun as (-> & articles & df' & Hlen & _ & Hset & Hheap).
      rewrite Hheap. split_and!.
      * done.
      * by rewrite length_insert.
      * intros l' Hne. by apply list_lookup_insert_ne.
      * exists articles, df'. split_and!; try done.
        apply list_lookup_insert_eq. by eapply lookup_lt_Some.
Qed.

(** The theorem at a world holding the analyst ratings table. *)
Lemma only_download_articles_updates_in_place_witness :
  let E := Scenario.env in
  let w := {| trace := []; heap := [Scenario.analyst_ratings] |} in
  heap w !! 0 = Some Scenario.analyst_ratings ∧
  (let run := download_historical_prices E [CStr "AAPL"] "2009-01-01" "2020-12-31" w in
   heap_extends w run.2 ∧
   ∀ l, run.1 = Ok l → heap w !! l = None ∧ is_Some (heap run.2 !! l)) ∧
  (let run := merge_datasets E analyst_ratings_path headlines_path w in
   heap_extends w run.2 ∧
   ∀ l, run.1 = Ok l → heap w !! l = None ∧ is_Some (heap run.2 !! l)) ∧
  (let run := download_articles E 0 1 w in
   (∀ e, run.1 = Raise e → heap run.2 = heap w) ∧
   ∀ l, run.1 = Ok l →
     l = 0 ∧
     length (heap run.2) = length (heap w) ∧
     (∀ l', l' ≠ 0 → heap run.2 !! l' = heap w !! l') ∧
     ∃ articles df',
       length articles = length (rows Scenario.analyst_ratings) ∧
       setitem Scenario.analyst_ratings "article" (CStr <$> articles) = Ok df' ∧
       heap run.2 !! 0 = Some df').
Proof.
  split; [reflexivity|].
  apply (only_download_articles_updates_in_place Scenario.env
           {| trace := []; heap := [Scenario.analyst_ratings] |} 0
           Scenario.analyst_ratings 1 [CStr "AAPL"] "2009-01-01" "2020-12-31"
           analyst_ratings_path headlines_path).
  reflexivity.
Defined.

(** Counterexample to claim C6 as stated.  Called on the only table of the
    heap, [download_articles] returns the reference it was given, the heap
    still holds one table, and that table is no longer the input table: it
    has the additional article column. *)
Lemma download_articles_updates_its_argument :
  let w := {| trace := []; heap := [Scenario.analyst_ratings] |} in
  let run := download_articles Scenario.env 0 1 w in
  run.1 = Ok 0 ∧
  length (heap run.2) = 1 ∧
  heap run.2 !! 0 ≠ heap w !! 0 ∧
  columns <$> heap run.2 !! 0 = Some (required_cols ++ ["article"]).
Proof.
  split_and!.
  - vm_compute. reflexivity.
  - vm_compute. reflexivity.
  - vm_compute. discriminate.
  - vm_compute. reflexivity.
Qed.

(** ** The earlier theorems at concrete inputs *)


(** Claim C3 at a host that always answers 503. *)
Lemma scrape_article_gives_up_after_three_witness :
  let url := CStr "http://down.example/a3" in
  (∀ h, ∃ r, requests_get Scenario.env h url headers 10 = Ok r ∧
             status_code r ≠ 200%Z) ∧
  ∃ r1 r2 r3,
    scrape_article Scenario.env url (CStr "Zacks") Scenario.start =
    (Ok "",
     {| trace := trace Scenario.start ++
          [HttpGet url 10 (Ok r1); Sleep 1; HttpGet url 10 (Ok r2); Sleep 1;
           HttpGet url 10 (Ok r3); Sleep 1];
        heap := heap Scenario.start |}).
Proof.
  assert (∀ h, ∃ r, requests_get Scenario.env h (CStr "http://down.example/a3")
                      headers 10 = Ok r ∧ status_code r ≠ 200%Z) as Hdown.
  { intros h. exists {| status_code := 503; text := "" |}.
    split; [vm_compute; reflexivity | vm_compute; discriminate]. }
  split; [exact Hdown|].
  exact (proj2 (scrape_article_gives_up_after_three Scenario.env
                  (CStr "http://down.example/a3") (CStr "Zacks") Scenario.start)
               Hdown).
Defined.

(** Claim C5 at the analyst ratings table, whose second URL is denylisted. *)
Lemma download_articles_skips_denylisted_witness :
  let E := Scenario.env in
  let df := Scenario.analyst_ratings in
  let w := {| trace := []; heap := [df] |} in
  heap w !! 0 = Some df ∧
  let run := download_articles E 0 1 w in
  (∃ evs, trace run.2 = trace w ++ evs ∧
     ∀ u t o, HttpGet (CStr u) t o ∈ evs → blocked u = false) ∧
  (∀ l, run.1 = Ok l →
     ∃ df', heap run.2 !! l = Some df' ∧
       ∀ i row u, rows df !! i = Some row →
         row_getitem (columns df) row "URL" = Ok (CStr u) →
         blocked u = true →
         ∃ row', rows df' !! i = Some row' ∧
                 row_getitem (columns df') row' "article" = Ok (CStr "")) ∧
  (Forall (λ row, ∃ u p, row_getitem (columns df) row "URL" = Ok (CStr u) ∧
                         row_getitem (columns df) row "publisher" = Ok p)
          (rows df) →
   run.1 = Ok 0).
Proof.
  split; [reflexivity|].
  apply (download_articles_skips_denylisted Scenario.env 0 1
           {| trace := []; heap := [Scenario.analyst_ratings] |}
           Scenario.analyst_ratings).
  reflexivity.
Defined.

(** ** main *)

Lemma logged_logged w evs1 evs2 :
  logged (logged w evs1) evs2 = logged w (evs1 ++ evs2).
Proof. unfold logged. simpl. by rewrite app_assoc. Qed.

Lemma emit_run ev w : emit ev w = (Ok (), logged w [ev]).
Proof. reflexivity. Qed.

Lemma print_run m w : print m w = (Ok (), logged w [Stdout m]).
Proof. reflexivity. Qed.

Section main.
Context (E : Env).

Lemma read_csv_run path df w :
  fs E path = Some df → read_csv E path w = (Ok df, logged w [ReadCsv path]).
Proof. intros H. unfold read_csv. rewrite H. reflexivity. Qed.

Lemma path_exists_run path w :
  path_exists E path w =
    (Ok (bool_decide (is_Some (fs E path))),
     logged w [PathExists path (bool_decide (is_Some (fs E path)))]).
Proof. reflexivity. Qed.

(** A validation block prints its title and one report line; it never
    raises and changes no table. *)
Lemma validate_logged_run title schema df w :
  validate_logged E title schema df w =
    (Ok (), logged w [Stdout (Text title); report E schema df]).
Proof.
  unfold validate_logged, report, schema_validate.
  erewrite bind_ok by apply print_run.
  unfold try_except. destruct (validate E schema df) as [|fc fcs].
  - erewrite bind_ok by reflexivity. rewrite print_run. by rewrite logged_logged.
  - simpl. rewrite print_run. by rewrite logged_logged.
Qed.

(** The helper of utils.py has no handler: a table that fails validation
    makes it raise, with every failure case. *)
Lemma load_and_validate_csv_raises filepath schema df w :
  fs E filepath = Some df → validate E schema df ≠ [] →
  load_and_validate_csv E filepath schema w =
    (Raise (SchemaErrors (validate E schema df)), logged w [ReadCsv filepath]).
Proof.
  intros Hfs Hfail. unfold load_and_validate_csv.
  erewrite bind_ok by (by apply read_csv_run).
  rewrite run_bind. unfold schema_validate.
  destruct (validate E schema df); [done|]. reflexivity.
Qed.

(** A stage of [main] after its table has been produced. *)
Lemma stage_epilogue_run title schema path l df w :
  heap w !! l = Some df →
  (prices ← read_frame l;
   validate_logged E title schema prices;;
   to_csv prices path;;
   print (SavedTo path)) w =
  (Ok (), logged w (stage_epilogue E title schema df path)).
Proof.
  intros Hl.
  erewrite bind_ok by (unfold read_frame; rewrite Hl; reflexivity).
  erewrite bind_ok by apply validate_logged_run.
  erewrite bind_ok by apply emit_run.
  rewrite print_run, !logged_logged. reflexivity.
Qed.

Lemma main_inputs_present w A H :
  fs E analyst_ratings_path = Some A → fs E headlines_path = Some H →
  main E w =
    (task_a E;; task_bc E;;
     print (Text newline_banner);;
     print (Text "Phase 1.1 Complete!");;
     print (Text banner);;
     print (Text "Generated files:");;
     print (Generated historical_prices_path);;
     print (Generated all_news_path))
    (logged w (main_prologue ++
               [PathExists analyst_ratings_path true;
                PathExists headlines_path true])).
Proof.
  intros HA HH. unfold main.
  erewrite bind_ok by apply emit_run.
  erewrite bind_ok by apply print_run.
  erewrite bind_ok by apply print_run.
  erewrite bind_ok by apply print_run.
  erewrite bind_ok by apply path_exists_run.
  rewrite HA. rewrite bool_decide_eq_true_2 by eauto. cbn [negb].
  erewrite bind_ok by apply path_exists_run.
  rewrite HH. rewrite bool_decide_eq_true_2 by eauto. cbn [negb].
  rewrite !logged_logged. reflexivity.
Qed.

Lemma task_a_run w A H sa sh :
  fs E analyst_ratings_path = Some A → fs E headlines_path = Some H →
  getitem A "symbol" = Ok sa → getitem H "symbol" = Ok sh →
  let symbols := list_set E (unique (dropna sa) ++ unique (dropna sh)) in
  task_a E w =
    (prices_df ← download_historical_prices E symbols "2009-01-01" "2020-12-31";
     prices ← read_frame prices_df;
     validate_logged E "Validating historical_prices schema..."
       historical_prices_schema prices;;
     to_csv prices historical_prices_path;;
     print (SavedTo historical_prices_path))
    (logged w (task_a_prologue ++ [Stdout (FoundSymbols (length symbols))])).
Proof.
  intros HA HH Hsa Hsh symbols. unfold task_a.
  erewrite bind_ok by apply print_run.
  erewrite bind_ok by apply print_run.
  erewrite bind_ok by apply print_run.
  erewrite bind_ok by (by apply read_csv_run).
  erewrite bind_ok by (by apply read_csv_run).
  erewrite bind_ok by (rewrite Hsa; reflexivity).
  erewrite bind_ok by (rewrite Hsh; reflexivity).
  erewrite bind_ok by apply print_run.
  rewrite !logged_logged. reflexivity.
Qed.

(** Without a symbol column task (a) stops before the download. *)
Lemma task_a_no_symbol w A H :
  fs E analyst_ratings_path = Some A → fs E headlines_path = Some H →
  get_loc (columns A) "symbol" = None ∨ get_loc (columns H) "symbol" = None →
  task_a E w = (Raise (KeyError ["symbol"]), logged w task_a_prologue).
Proof.
  intros HA HH Hmissing. unfold task_a.
  erewrite bind_ok by apply print_run.
  erewrite bind_ok by apply print_run.
  erewrite bind_ok by apply print_run.
  erewrite bind_ok by (by apply read_csv_run).
  erewrite bind_ok by (by apply read_csv_run).
  rewrite !logged_logged.
  destruct (get_loc (columns A) "symbol") as [i|] eqn:HiA.
  - destruct Hmissing as [|HiH]; [done|].
    erewrite bind_ok by (unfold getitem; rewrite HiA; reflexivity).
    rewrite run_bind. unfold getitem. rewrite HiH. reflexivity.
  - rewrite run_bind. unfold getitem. rewrite HiA. reflexivity.
Qed.

Lemma task_bc_run w :
  task_bc E w =
    (all_news_df ← merge_datasets E analyst_ratings_path headlines_path;
     all_news ← read_frame all_news_df;
     validate_logged E "Validating all_news schema..." all_news_schema all_news;;
     to_csv all_news all_news_path;;
     print (SavedTo all_news_path))
    (logged w task_bc_prologue).
Proof.
  unfold task_bc.
  erewrite bind_ok by apply print_run.
  erewrite bind_ok by apply print_run.
  erewrite bind_ok by apply print_run.
  rewrite !logged_logged. reflexivity.
Qed.

Lemma epilogue_run w :
  (print (Text newline_banner);;
   print (Text "Phase 1.1 Complete!");;
   print (Text banner);;
   print (Text "Generated files:");;
   print (Generated historical_prices_path);;
   print (Generated all_news_path)) w = (Ok (), logged w main_epilogue).
Proof.
  erewrite bind_ok by apply print_run.
  erewrite bind_ok by apply print_run.
  erewrite bind_ok by apply print_run.
  erewrite bind_ok by apply print_run.
  erewrite bind_ok by apply print_run.
  rewrite print_run, !logged_logged. reflexivity.
Qed.

(** Claim C4.  A validation block of [main] never raises: it prints its
    title and one report line, which for a table that fails validation is
    the exception carrying every failure case (column, row index, value
    and check of each) that the lazy validation collected.  So whenever
    the price download and the merge return their tables, [main] runs to
    its end whatever the validations find: each table is written to its
    file right after its report, and the merge stage runs after the price
    stage. *)
Theorem schema_violations_are_reported_not_raised
    (w : world) (A H : DataFrame) (sa sh : list cell) :
  fs E analyst_ratings_path = Some A → fs E headlines_path = Some H →
  getitem A "symbol" = Ok sa → getitem H "symbol" = Ok sh →
  (∀ title schema df w',
     validate_logged E title schema df w' =
       (Ok (), logged w' [Stdout (Text title); report E schema df])) ∧
  let symbols := list_set E (unique (dropna sa) ++ unique (dropna sh)) in
  let run_a :=
    download_historical_prices E symbols "2009-01-01" "2020-12-31"
      (logged w (main_prologue ++
                 [PathExists analyst_ratings_path true;
                  PathExists headlines_path true] ++
                 task_a_prologue ++ [Stdout (FoundSymbols (length symbols))])) in
  ∀ l1, run_a.1 = Ok l1 →
    ∃ prices, heap run_a.2 !! l1 = Some prices ∧
      let run_bc :=
        merge_datasets E analyst_ratings_path headlines_path
          (logged run_a.2
             (stage_epilogue E "Validating historical_prices schema..."
                historical_prices_schema prices historical_prices_path ++
              task_bc_prologue)) in
      ∀ l2, run_bc.1 = Ok l2 →
        ∃ news, heap run_bc.2 !! l2 = Some news ∧
          main E w =
            (Ok (),
             logged run_bc.2
               (stage_epilogue E "Validating all_news schema..."
                  all_news_schema news all_news_path ++ main_epilogue)).
Proof.
  intros HA HH Hsa Hsh. split; [apply validate_logged_run|].
  intros symbols run_a l1 Hl1.
  destruct (download_historical_prices_heap E symbols "2009-01-01" "2020-12-31"
              (logged w (main_prologue ++
                 [PathExists analyst_ratings_path true;
                  PathExists headlines_path true] ++
                 task_a_prologue ++ [Stdout (FoundSymbols (length symbols))])))
    as [_ Hfresh].
  fold run_a in Hfresh. destruct (Hfresh l1 Hl1) as [_ [prices Hprices]].
  exists prices. split; [done|].
  intros run_bc l2 Hl2.
  destruct (merge_datasets_heap E analyst_ratings_path headlines_path
              (logged run_a.2
                 (stage_epilogue E "Validating historical_prices schema..."
                    historical_prices_schema prices historical_prices_path ++
                  task_bc_prologue)))
    as [_ Hfresh2].
  fold run_bc in Hfresh2. destruct (Hfresh2 l2 Hl2) as [_ [news Hnews]].
  exists news. split; [done|].
  rewrite (main_inputs_present w A H HA HH).
  rewrite run_bind, (task_a_run _ A H sa sh HA HH Hsa Hsh).
  fold symbols. rewrite logged_logged, <- !app_assoc.
  rewrite run_bind. fold run_a.
  destruct run_a as [r1 w1] eqn:Hrun_a. simpl in Hl1, Hprices. subst r1.
  rewrite (stage_epilogue_run _ _ _ l1 prices w1 Hprices).
  rewrite run_bind, task_bc_run, logged_logged.
  rewrite run_bind. change (w1) with ((Ok l1, w1).2) at 1. fold run_bc.
  destruct run_bc as [r2 w2] eqn:Hrun_bc. simpl in Hl2, Hnews. subst r2.
  rewrite (stage_epilogue_run _ _ _ l2 news w2 Hnews).
  rewrite epilogue_run, logged_logged. reflexivity.
Qed.

End main.

(** ** main: absent and malformed input files *)

Section inputs.
Context (E : Env).

(** Claim C7, as amended.  When analyst_ratings.csv or headlines.csv is
    absent, [main] reports the first absent file and returns at once,
    without raising: the whole run stops there.  Nothing is read,
    requested from the network or written, so no artifact is produced
    (both artifacts need both files). *)
Theorem main_stops_at_missing_input (w : world) :
  fs E analyst_ratings_path = None ∨ fs E headlines_path = None →
  main E w = (Ok (), logged w (main_prologue ++ missing_input_report E)) ∧
  Forall (λ ev, ¬ is_network ev ∧ ¬ is_to_csv ev)
         (main_prologue ++ missing_input_report E).
Proof.
  intros Hmissing. unfold missing_input_report. split.
  - unfold main.
    erewrite bind_ok by apply emit_run.
    erewrite bind_ok by apply print_run.
    erewrite bind_ok by apply print_run.
    erewrite bind_ok by apply print_run.
    erewrite bind_ok by apply path_exists_run.
    destruct (fs E analyst_ratings_path) as [A|] eqn:HA.
    + destruct Hmissing as [|HH]; [done|].
      rewrite bool_decide_eq_true_2 by eauto. cbn [negb].
      erewrite bind_ok by apply path_exists_run.
      rewrite HH. rewrite bool_decide_eq_false_2 by (by intros [? ?]). cbn [negb].
      erewrite bind_ok by apply print_run.
      rewrite print_run, !logged_logged. reflexivity.
    + rewrite bool_decide_eq_false_2 by (by intros [? ?]). cbn [negb].
      erewrite bind_ok by apply print_run.
      rewrite print_run, !logged_logged. reflexivity.
  - destruct (fs E analyst_ratings_path); repeat constructor; simpl; auto.
Qed.

Lemma getitem_list_missing df keys :
  missing_labels (columns df) keys ≠ [] →
  getitem_list df keys = Raise (KeyError (missing_labels (columns df) keys)).
Proof. unfold getitem_list. by destruct (missing_labels _ _). Qed.

Lemma getitem_list_present df keys :
  missing_labels (columns df) keys = [] → ∃ df', getitem_list df keys = Ok df'.
Proof. unfold getitem_list. intros ->. by eexists. Qed.

(** A stub table without one of the required columns stops the merge
    before the article download. *)
Lemma merge_datasets_missing_column w A H :
  fs E analyst_ratings_path = Some A → fs E headlines_path = Some H →
  missing_labels (columns A) required_cols ≠ [] ∨
  missing_labels (columns H) required_cols ≠ [] →
  ∃ m, merge_datasets E analyst_ratings_path headlines_path w =
         (Raise (KeyError m), logged w (merge_prologue A H)).
Proof.
  intros HA HH Hmissing. unfold merge_datasets.
  erewrite bind_ok by apply print_run.
  erewrite bind_ok by (by apply read_csv_run).
  erewrite bind_ok by (by apply read_csv_run).
  erewrite bind_ok by apply print_run.
  erewrite bind_ok by apply print_run.
  rewrite !logged_logged.
  destruct (decide (missing_labels (columns A) required_cols = [])) as [HmA|HmA].
  - destruct Hmissing as [|HmH]; [done|].
    destruct (getitem_list_present A required_cols HmA) as [A' HA'].
    erewrite bind_ok by (rewrite HA'; reflexivity).
    rewrite run_bind. unfold lift at 1. rewrite (getitem_list_missing H _ HmH).
    by eexists.
  - rewrite run_bind. unfold lift at 1. rewrite (getitem_list_missing A _ HmA).
    by eexists.
Qed.





End inputs.

(** ** main at concrete inputs *)

(** Claim C7 (amended) where analyst_ratings.csv is absent. *)
Lemma main_stops_at_missing_input_witness :
  let E := Scenario.env_no_ratings in
  (fs E analyst_ratings_path = None ∨ fs E headlines_path = None) ∧
  main E Scenario.start =
    (Ok (), logged Scenario.start (main_prologue ++ missing_input_report E)) ∧
  Forall (λ ev, ¬ is_network ev ∧ ¬ is_to_csv ev)
         (main_prologue ++ missing_input_report E).
Proof.
  split; [left; reflexivity|].
  apply (main_stops_at_missing_input Scenario.env_no_ratings Scenario.start).
  left. reflexivity.
Defined.

(** Counterexample to claim C7 as stated.  analyst_ratings.csv is absent,
    headlines.csv is there and the price provider answers: the run ends
    right after the report of the absent file.  No artifact is written,
    historical_prices.csv included, and no later step is taken. *)
Lemma missing_ratings_stops_the_whole_run :
  let E := Scenario.env_no_ratings in
  fs E headlines_path = Some Scenario.headline_stubs ∧
  main E Scenario.start =
    (Ok (),
     {| trace :=
          [Makedirs datasets_dir; Stdout (Text banner);
           Stdout (Text "Phase 1.1: Data Collection"); Stdout (Text banner);
           PathExists analyst_ratings_path false;
           Stdout (ErrorNotFound analyst_ratings_path);
           Stdout (Text "Please provide the analyst_ratings.csv file in the Assignment_2 directory")];
        heap := [] |}) ∧
  Forall (λ ev, ¬ is_to_csv ev) (trace (main E Scenario.start).2).
Proof.
  split_and!.
  - vm_compute. reflexivity.
  - vm_compute. reflexivity.
  - vm_compute. repeat constructor; tauto.
Qed.



(** The same malformed file when no symbol has bars: the run fails in the
    price download, right after the last of its five requests, and never
    enters the merge. *)
Example malformed_stub_without_prices :
  let run := main env_malformed_no_prices Scenario.start in
  run.1 = Raise (ValueError "No historical price data could be downloaded") ∧
  (fetches (trace run.2)).*1 =
    [CStr "AAPL"; CStr "TSLA"; CStr "NONE"; CStr "MSFT"; CStr "^GSPC"] ∧
  list.last (trace run.2) = Some (Stdout (WarnNoData (CStr "^GSPC"))).
Proof. split_and!; vm_compute; reflexivity. Qed.

(** Claim C4 where the validator rejects every row of both tables: both
    stages return their table, so [main] runs to its end. *)
Lemma schema_violations_are_reported_not_raised_witness :
  let E := Scenario.env_rejecting in
  let w := Scenario.start in
  let sa := [CStr "AAPL"; CStr "MSFT"; CNaN] in
  let sh := [CStr "AAPL"; CStr "TSLA"; CStr "AAPL"; CStr "NONE"; CStr "MSFT"] in
  let symbols := list_set E (unique (dropna sa) ++ unique (dropna sh)) in
  let run_a :=
    download_historical_prices E symbols "2009-01-01" "2020-12-31"
      (logged w (main_prologue ++
                 [PathExists analyst_ratings_path true;
                  PathExists headlines_path true] ++
                 task_a_prologue ++ [Stdout (FoundSymbols (length symbols))])) in
  run_a.1 = Ok 0 ∧
  ∃ prices, heap run_a.2 !! 0 = Some prices ∧
    validate E historical_prices_schema prices ≠ [] ∧
    let run_bc :=
      merge_datasets E analyst_ratings_path headlines_path
        (logged run_a.2
           (stage_epilogue E "Validating historical_prices schema..."
              historical_prices_schema prices historical_prices_path ++
            task_bc_prologue)) in
    run_bc.1 = Ok 2 ∧
    ∃ news, heap run_bc.2 !! 2 = Some news ∧
      validate E all_news_schema news ≠ [] ∧
      main E w =
        (Ok (),
         logged run_bc.2
           (stage_epilogue E "Validating all_news schema..."
              all_news_schema news all_news_path ++ main_epilogue)).
Proof.
  intros E w sa sh symbols run_a.
  assert (run_a.1 = Ok 0) as Hrun_a by (vm_compute; reflexivity).
  split; [exact Hrun_a|].
  destruct (proj2 (schema_violations_are_reported_not_raised E w
                     Scenario.analyst_ratings Scenario.headline_stubs sa sh
                     eq_refl eq_refl eq_refl eq_refl) 0 Hrun_a)
    as (prices & Hprices & Hrest).
  exists prices. split; [exact Hprices|].
  assert (heap run_a.2 !! 0 = Some prices) as Hp by exact Hprices.
  vm_compute in Hp. injection Hp as <-.
  split; [vm_compute; discriminate|].
  match type of Hrest with
  | let run_bc := ?r in _ =>
      assert (r.1 = Ok 2) as Hrun_bc by (vm_compute; reflexivity)
  end.
  split; [exact Hrun_bc|].
  destruct (Hrest 2 Hrun_bc) as (news & Hnews & Hmain).
  exists news. split; [exact Hnews|].
  split; [|exact Hmain].
  match type of Hnews with ?l = _ => assert (l = Some news) as Hn by exact Hnews end.
  vm_compute in Hn. injection Hn as <-.
  vm_compute. discriminate.
Defined.

(** ** Daily returns (modelled from the spec) *)

Section daily_returns.
Import ImpactScorer.

Lemma returns_on_from symbol bars : ∀ seen,
  returns_on symbol bars (daily_return_from seen bars) =
  chained (prior symbol seen) (series symbol bars).
Proof.
  induction bars as [|b bars IH]; intros seen; [done|].
  unfold returns_on, series in *. simpl.
  rewrite filter_cons. rewrite (filter_cons _ b). simpl.
  destruct (decide (pb_symbol b = symbol)) as [Hb|Hb].
  - simpl. rewrite IH. simpl. rewrite decide_True by done. by rewrite Hb.
  - rewrite IH. simpl. by rewrite decide_False by done.
Qed.

Lemma length_chained prev bars : length (chained prev bars) = length bars.
Proof. revert prev. induction bars; intros; simpl; auto. Qed.

Lemma chained_lookup bars : ∀ prev t b p,
  bars !! S t = Some b → bars !! t = Some p →
  chained prev bars !! S t =
    Some (Some (simple_return (pb_close b) (pb_close p))).
Proof.
  induction bars as [|b0 bars IH]; intros prev t b p; [done|].
  destruct t as [|t]; simpl.
  - intros Hb [= ->]. destruct bars as [|b1 bars]; [done|].
    simpl in *. by injection Hb as ->.
  - intros Hb Hp. by apply (IH (Some b0) t).
Qed.

(** Claim C9.  For every symbol of a price table in date order, the
    daily_return column has one value per bar of the symbol; the value at
    the symbol's bar t >= 1 is close_t / close_{t-1} - 1 (the float64
    operations, on the symbol's own previous bar), and the first bar of
    every symbol is treated as undefined. *)
Theorem daily_return_is_simple_return (bars : list PriceBar) (symbol : string) :
  let returns := returns_on symbol bars (daily_return bars) in
  length returns = length (series symbol bars) ∧
  (∀ b, series symbol bars !! 0 = Some b → returns !! 0 = Some None) ∧
  ∀ t b p,
    series symbol bars !! S t = Some b → series symbol bars !! t = Some p →
    returns !! S t = Some (Some (simple_return (pb_close b) (pb_close p))).
Proof.
  intros returns. unfold returns, daily_return.
  rewrite returns_on_from. simpl. split_and!.
  - apply length_chained.
  - intros b. by destruct (series symbol bars).
  - apply chained_lookup.
Qed.

Example daily_return_quotes :
  daily_return quotes =
    [None; None; Some (303 / 300 - 1)%float; Some (3232 / 3200 - 1)%float].
Proof. reflexivity. Qed.

End daily_returns.

(** ** The denylist test *)

Lemma string_prefix_app needle : ∀ hay,
  String.prefix needle hay = true ↔ ∃ b, hay = needle +:+ b.
Proof.
  induction needle as [|a needle IH]; intros hay; simpl.
  - destruct hay; split; eauto.
  - destruct hay as [|c hay]; [split; [done|by intros [? ?]]|].
    simpl. destruct (ascii_dec a c) as [->|Hne].
    + rewrite IH. split; intros [b Hb]; exists b.
      * simpl. by rewrite Hb.
      * simpl in Hb. by injection Hb.
    + split; [done|]. intros [b Hb]. simpl in Hb. by injection Hb.
Qed.

Lemma contains_unfold needle hay :
  contains needle hay =
  String.prefix needle hay ||
  match hay with
  | EmptyString => false
  | String _ hay' => contains needle hay'
  end.
Proof. destruct hay; cbn [contains]; by destruct (String.prefix needle _). Qed.

Lemma contains_app needle hay :
  contains needle hay = true ↔ ∃ a b, hay = a +:+ needle +:+ b.
Proof.
  induction hay as [|c hay IH]; rewrite contains_unfold, orb_true_iff, string_prefix_app.
  - split.
    + intros [[b Hb]|]; [|done]. by exists "", b.
    + intros (a & b & Hab). left. destruct a; [|done]. eauto.
  - rewrite IH. split.
    + intros [[b Hb]|(a & b & ->)]; [by exists "", b|]. by exists (String c a), b.
    + intros (a & b & Hab). destruct a as [|c' a]; [left; eauto|].
      right. simpl in Hab. injection Hab as -> ->. eauto.
Qed.

Lemma lower_app a b : lower (a +:+ b) = lower a +:+ lower b.
Proof. induction a as [|c a IH]; simpl; [done|by rewrite IH]. Qed.

Lemma lower_app_inv x : ∀ u y,
  lower u = x +:+ y → ∃ a b, u = a +:+ b ∧ lower a = x ∧ lower b = y.
Proof.
  induction x as [|c x IH]; intros u y; simpl.
  - intros Hu. by exists "", u.
  - destruct u as [|d u]; [done|]. simpl. intros [= Hc Hu].
    destruct (IH u y Hu) as (a & b & -> & Ha & Hb).
    exists (String d a), b. simpl. by rewrite Hc, Ha.
Qed.

Lemma lower_ascii_letter (d c : ascii) :
  (97 ≤ N_of_ascii d ≤ 122)%N → lower_ascii c = d ↔ letter_of d c.
Proof.
  intros Hd. unfold lower_ascii, letter_of.
  pose proof (N_ascii_bounded c) as Hc.
  destruct ((65 <=? N_of_ascii c)%N && (N_of_ascii c <=? 90)%N) eqn:Hcap.
  - apply andb_true_iff in Hcap as [H1 H2].
    apply N.leb_le in H1, H2. split.
    + intros <-. right. rewrite N_ascii_embedding; lia.
    + intros [->|Hcd]; [lia|].
      rewrite Hcd. apply ascii_N_embedding.
  - apply andb_false_iff in Hcap. split.
    + by left.
    + intros [->|Hcd]; [done|].
      destruct Hcap as [H|H]; apply N.leb_gt in H; lia.
Qed.

Lemma lower_spells pattern : ∀ word,
  lowercase pattern → lower word = pattern ↔ spells pattern word.
Proof.
  induction pattern as [|d pattern IH]; intros [|c word] Hp; simpl; try done.
  destruct Hp as [Hd Hp].
  rewrite <- (IH word Hp), <- (lower_ascii_letter d c Hd).
  split; [by intros [= -> ->]|by intros [-> ->]].
Qed.

(** Property X3.  The denylist test of [download_articles] holds exactly
    for the URLs that contain the word gurufocus somewhere (host, path or
    query), each of its nine letters being written as the lower-case
    letter or as its capital. *)
Theorem blocked_anywhere_any_case (url : string) :
  blocked url = true ↔
  ∃ before word after,
    url = before +:+ word +:+ after ∧ spells "gurufocus" word.
Proof.
  assert (lowercase "gurufocus") as Hlow by (simpl; repeat split; lia).
  unfold blocked. rewrite contains_app. split.
  - intros (a' & b' & Hu).
    apply lower_app_inv in Hu as (a & rest & -> & _ & Hrest).
    apply lower_app_inv in Hrest as (m & b & -> & Hm & _).
    exists a, m, b. split; [done|]. by apply lower_spells.
  - intros (a & m & b & -> & Hm). apply lower_spells in Hm; [|done].
    exists (lower a), (lower b). by rewrite !lower_app, Hm.
Qed.

(** ** Whitespace of an article text *)

Lemma tidy_get s : ∀ b i c,
  tidy b s = true → String.get i s = Some c → isspace c = true →
  c = " "%char ∧ (i = 0 → b = false) ∧
  ∀ c', String.get (S i) s = Some c' → isspace c' = false.
Proof.
  induction s as [|a s IH]; intros b i c Ht Hget Hc; [done|].
  destruct i as [|i]; simpl in Hget.
  - injection Hget as ->. simpl in Ht. rewrite Hc in Ht.
    apply andb_true_iff in Ht as [Ht Hs].
    apply andb_true_iff in Ht as [Ha Hb].
    apply bool_decide_eq_true in Ha. apply negb_true_iff in Hb.
    split_and!; [done..|].
    intros c' Hc'. simpl in Hc'. destruct s as [|d s]; [done|].
    simpl in Hc'. injection Hc' as ->. simpl in Hs.
    destruct (isspace c'); [|done].
    rewrite andb_false_r in Hs. done.
  - assert (∃ b', tidy b' s = true) as [b' Hb'].
    { simpl in Ht. destruct (isspace a); [|by eauto].
      apply andb_true_iff in Ht as [_ Ht]. eauto. }
    destruct (IH b' i c Hb' Hget Hc) as (-> & _ & Hnext).
    split_and!; [done..|]. intros c'. simpl. apply Hnext.
Qed.

Lemma tidy_single_spaced s : tidy true s = true → single_spaced s.
Proof.
  intros Ht i c Hget Hc.
  destruct (tidy_get s true i c Ht Hget Hc) as (-> & Hi & Hnext).
  split_and!; [done| |done]. destruct i; [by specialize (Hi eq_refl)|lia].
Qed.

Lemma tidy_substring s : ∀ b n, tidy b s = true → tidy b (substring 0 n s) = true.
Proof.
  induction s as [|a s IH]; intros b n Ht; [by destruct n|].
  destruct n as [|n]; [done|]. simpl in *.
  destruct (isspace a).
  - apply andb_true_iff in Ht as [-> Ht]. simpl. by apply IH.
  - by apply IH.
Qed.

Lemma length_substring s : ∀ n, String.length (substring 0 n s) ≤ n.
Proof.
  induction s as [|a s IH]; intros [|n]; simpl; try lia.
  specialize (IH n). lia.
Qed.

Lemma tidy_word w rest b :
  blank_free w = true →
  tidy b (w +:+ rest) = tidy (if decide (w = "") then b else false) rest.
Proof.
  revert b. induction w as [|a w IH]; intros b Hw; [done|].
  simpl in *. apply andb_true_iff in Hw as [Ha Hw].
  apply negb_true_iff in Ha. rewrite Ha, IH by done.
  by destruct (decide (w = "")).
Qed.

Lemma blank_free_rev_app s1 : ∀ s2,
  blank_free (String.rev_app s1 s2) = blank_free s1 && blank_free s2.
Proof.
  induction s1 as [|a s1 IH]; intros s2; [done|].
  simpl. rewrite IH. simpl. by destruct (isspace a), (blank_free s1).
Qed.

Lemma rev_app_nonempty s1 : ∀ s2, s2 ≠ "" → String.rev_app s1 s2 ≠ "".
Proof. induction s1 as [|a s1 IH]; intros s2 Hs2; [done|]. simpl. by apply IH. Qed.

Lemma rev_nonempty s : s ≠ "" → String.rev s ≠ "".
Proof.
  destruct s as [|a s]; [done|]. intros _.
  unfold String.rev. simpl. by apply rev_app_nonempty.
Qed.

(** The words of [split] are not empty and hold no blank character. *)
Lemma split_go_words s : ∀ cur,
  blank_free cur = true →
  Forall (λ w, w ≠ "" ∧ blank_free w = true) (split_go cur s).
Proof.
  assert (∀ cur, blank_free cur = true →
    Forall (λ w, w ≠ "" ∧ blank_free w = true)
           (if decide (cur = "") then [] else [String.rev cur])) as Hcur.
  { intros cur Hc. destruct (decide (cur = "")); [done|].
    repeat constructor; [by apply rev_nonempty|].
    unfold String.rev. by rewrite blank_free_rev_app, Hc. }
  induction s as [|a s IH]; intros cur Hc; simpl; [by apply Hcur|].
  destruct (isspace a) eqn:Ha.
  - apply Forall_app. split; [by apply Hcur | by apply IH].
  - apply IH. simpl. by rewrite Ha.
Qed.

Lemma append_empty_r w : w +:+ "" = w.
Proof.
  induction w as [|a w IH]; [done|].
  change (String a (w +:+ "") = String a w). by rewrite IH.
Qed.

Lemma tidy_join ws :
  Forall (λ w, w ≠ "" ∧ blank_free w = true) ws → tidy true (join " " ws) = true.
Proof.
  unfold join. induction 1 as [|w ws [Hne Hw] Hws IH]; [done|].
  simpl. destruct ws as [|w2 ws].
  - rewrite <- (append_empty_r w). by rewrite tidy_word.
  - rewrite tidy_word by done. rewrite decide_False by done.
    change (tidy true (String.concat " " (w2 :: ws)) = true). apply IH.
Qed.

(** The text [extract_text] gives for a document has at most 10000
    characters and is single-spaced. *)
Lemma extract_text_tidy (E : Env) (sp : soup E) :
  String.length (extract_text E sp) ≤ 10000 ∧ tidy true (extract_text E sp) = true.
Proof.
  unfold extract_text, slice_to. split; [apply length_substring|].
  apply tidy_substring, tidy_join. by apply split_go_words.
Qed.

(** ** scrape_article: every outcome *)

Section scrape_outcome.
Context (E : Env).

(** The retry loop: refused attempts, then it runs out of attempts, gets
    a 200, or the request raises. *)
Lemma attempts_run url n : ∀ last w,
  ∃ rs fin,
    Forall (λ r, status_code r ≠ 200%Z) rs ∧
    (attempts E n url last w).2 = logged w (refusals url rs ++ fin) ∧
    ((length rs = n ∧ fin = [] ∧
      (attempts E n url last w).1 = Ok (from_option Some last (list.last rs))) ∨
     (length rs < n ∧ ∃ r, status_code r = 200%Z ∧
        fin = [HttpGet url 10 (Ok r)] ∧
        (attempts E n url last w).1 = Ok (Some r)) ∨
     (length rs < n ∧ ∃ e,
        fin = [HttpGet url 10 (Raise e)] ∧
        (attempts E n url last w).1 = Raise e)).
Proof.
  induction n as [|n IH]; intros last w.
  { exists [], []. split_and!; [done| |left; by split_and!].
    unfold logged. simpl. rewrite app_nil_r. by destruct w. }
  cbn [attempts]. rewrite run_bind. unfold call.
  destruct (requests_get E (trace w) url headers 10) as [r|e] eqn:Hget.
  - destruct (decide (status_code r = 200%Z)) as [H200|H200].
    + exists [], [HttpGet url 10 (Ok r)]. split_and!; [done..|].
      right; left. split; [simpl; lia|]. by exists r.
    + rewrite run_bind. unfold sleep, emit. cbn [trace heap].
      set (w2 := {| trace := _; heap := heap w |}).
      destruct (IH (Some r) w2) as (rs & fin & Hrs & Hw & Hres).
      exists (r :: rs), fin. split_and!.
      * by constructor.
      * rewrite Hw. unfold logged, w2, refusals. simpl.
        by rewrite <- !app_assoc.
      * destruct Hres as [(Hlen & -> & Hr)|[(Hlen & r' & ? & -> & Hr)|(Hlen & e & -> & Hr)]].
        -- left. split_and!; [simpl; lia|done|]. rewrite Hr. f_equal.
           destruct rs as [|r1 rs]; [done|].
           change (list.last (r :: r1 :: rs)) with (list.last (r1 :: rs)).
           destruct (list.last (r1 :: rs)) eqn:Hl; [done|].
           by apply last_None in Hl.
        -- right; left. split; [simpl; lia|]. by exists r'.
        -- right; right. split; [simpl; lia|]. by exists e.
  - exists [], [HttpGet url 10 (Raise e)]. split_and!; [done..|].
    right; right. split; [simpl; lia|]. by exists e.
Qed.

(** [scrape_article] gives the empty string or the text of a document. *)
Lemma scrape_article_result url publisher w s :
  (scrape_article E url publisher w).1 = Ok s →
  s = "" ∨ ∃ sp, s = extract_text E sp.
Proof.
  unfold scrape_article, try_except. rewrite run_bind.
  destruct (attempts E 3 url None w) as [[[r|]|e] w1]; simpl.
  - destruct (decide (status_code r ≠ 200%Z)); [intros [= <-]; by left|].
    rewrite run_bind. unfold lift.
    destruct (BeautifulSoup E (text r)) as [sp|e]; simpl.
    + intros [= <-]. right. by exists sp.
    + intros [= <-]. by left.
  - intros [= <-]. by left.
  - intros [= <-]. by left.
Qed.

(** Property X1.  The complete behaviour of [scrape_article]. It makes at
    most three requests, pausing one second after each answer that is not a
    200, and stops at the first 200 or at the first request that raises.
    After three refusals it returns the empty string. A request that raises
    is not tried again: the error is printed and the empty string returned.
    A 200 answer is parsed and gives the extracted text (the empty string,
    with the error printed, when the parser raises). *)
Theorem scrape_article_outcome (url publisher : cell) (w : world) :
  ∃ rs fin result,
    scrape_article E url publisher w =
      (Ok result, logged w (refusals url rs ++ fin)) ∧
    Forall (λ r, status_code r ≠ 200%Z) rs ∧
    ((length rs = 3 ∧ fin = [] ∧ result = "") ∨
     (length rs < 3 ∧ ∃ e,
        fin = [HttpGet url 10 (Raise e); Stdout (ErrorScraping url e)] ∧
        result = "") ∨
     (length rs < 3 ∧ ∃ r, status_code r = 200%Z ∧
        match BeautifulSoup E (text r) with
        | Ok sp => fin = [HttpGet url 10 (Ok r)] ∧ result = extract_text E sp
        | Raise e =>
            fin = [HttpGet url 10 (Ok r); Stdout (ErrorScraping url e)] ∧
            result = ""
        end)).
Proof.
  destruct (attempts_run url 3 None w) as (rs & fin & Hrs & Hw & Hres).
  unfold scrape_article, try_except. rewrite run_bind.
  destruct (attempts E 3 url None w) as [res w1]. simpl in Hw, Hres. subst w1.
  destruct Hres as [(Hlen & -> & ->)|[(Hlen & r & H200 & -> & ->)|(Hlen & e & -> & ->)]].
  - destruct rs as [|r1 [|r2 [|r3 [|? ?]]]]; try done.
    pose proof (Forall_lookup_1 _ _ 2 r3 Hrs eq_refl) as H3. simpl in H3 |- *.
    destruct (decide (status_code r3 ≠ 200%Z)); [|done].
    exists [r1; r2; r3], [], "". split_and!; [done|exact Hrs|].
    left. done.
  - simpl. destruct (decide (status_code r ≠ 200%Z)); [done|].
    rewrite run_bind. unfold lift.
    destruct (BeautifulSoup E (text r)) as [sp|e] eqn:Hsp; simpl.
    + exists rs, [HttpGet url 10 (Ok r)], (extract_text E sp).
      split_and!; [done..|]. right; right. split; [done|]. exists r.
      by rewrite Hsp.
    + exists rs, [HttpGet url 10 (Ok r); Stdout (ErrorScraping url e)], "".
      split_and!; [|done|].
      * erewrite bind_ok by apply print_run.
        rewrite logged_logged, <- app_assoc. reflexivity.
      * right; right. split; [done|]. exists r. by rewrite Hsp.
  - simpl.
    exists rs, [HttpGet url 10 (Raise e); Stdout (ErrorScraping url e)], "".
    split_and!; [|done|].
    + erewrite bind_ok by apply print_run.
      rewrite logged_logged, <- app_assoc. reflexivity.
    + right; left. split; [done|]. by exists e.
Qed.

(** Property X2.  Whatever the network and the parser do, [scrape_article]
    returns a text of at most 10000 characters in which whitespace occurs
    only as single spaces between words: a blank character is a space, is
    not the first character and is not followed by another blank character. *)
Theorem scrape_article_text_is_normalised (url publisher : cell) (w : world) :
  ∃ s, (scrape_article E url publisher w).1 = Ok s ∧
       String.length s ≤ 10000 ∧ single_spaced s.
Proof.
  destruct (scrape_article_returns E url publisher w) as [s Hs].
  exists s. split; [done|].
  apply scrape_article_result in Hs as [->|[sp ->]].
  - split; [simpl; lia|]. by intros [|i] c.
  - destruct (extract_text_tidy E sp) as [Hlen Ht].
    split; [done|]. by apply tidy_single_spaced.
Qed.

End scrape_outcome.

(** ** download_articles: requests, pauses and failures *)

Lemma gets_app evs1 evs2 : gets (evs1 ++ evs2) = gets evs1 ++ gets evs2.
Proof. apply omap_app. Qed.

Lemma slept_app evs1 evs2 : slept (evs1 ++ evs2) = (slept evs1 + slept evs2)%Z.
Proof.
  induction evs1 as [|ev evs1 IH]; [done|].
  destruct ev; simpl; rewrite ?IH; lia.
Qed.

Lemma logged_nil w : logged w [] = w.
Proof. destruct w. unfold logged. simpl. by rewrite app_nil_r. Qed.

Section budget.
Context (E : Env).

Lemma attempts_budget url n : ∀ last w,
  ∃ evs,
    (attempts E n url last w).2 = logged w evs ∧
    length (gets evs) ≤ n ∧
    (0 < n → 0 < length (gets evs)) ∧
    slept evs = Z.of_nat (length (filter (λ o, refused o = true) (gets evs))).
Proof.
  induction n as [|n IH]; intros last w.
  { exists []. rewrite logged_nil. split_and!; [done|simpl; lia|lia|done]. }
  cbn [attempts]. rewrite run_bind. unfold call.
  destruct (requests_get E (trace w) url headers 10) as [r|e] eqn:Hget.
  - destruct (decide (status_code r = 200%Z)) as [H200|H200].
    + exists [HttpGet url 10 (Ok r)]. split_and!; [done|simpl; lia|simpl; lia|].
      simpl. rewrite filter_cons, decide_False; [done|].
      simpl. rewrite bool_decide_eq_true. tauto.
    + rewrite run_bind. unfold sleep, emit. cbn [trace heap].
      set (w2 := {| trace := _; heap := heap w |}).
      destruct (IH (Some r) w2) as (evs & Hw & Hle & _ & Hs).
      exists ([HttpGet url 10 (Ok r); Sleep 1] ++ evs). split_and!.
      * rewrite Hw. unfold logged, w2. simpl. by rewrite <- !app_assoc.
      * rewrite gets_app, length_app. simpl. lia.
      * rewrite gets_app, length_app. simpl. lia.
      * rewrite slept_app, gets_app, list.filter_app, length_app, Hs. simpl.
        rewrite filter_cons, decide_True; [simpl; lia|].
        simpl. by rewrite bool_decide_eq_true.
  - exists [HttpGet url 10 (Raise e)]. split_and!; [done|simpl; lia|simpl; lia|done].
Qed.

(** One call of [scrape_article]: one to three requests, and a second of
    pause for each refused one. *)
Lemma scrape_article_budget url publisher w :
  ∃ evs,
    (scrape_article E url publisher w).2 = logged w evs ∧
    1 ≤ length (gets evs) ≤ 3 ∧
    slept evs = Z.of_nat (length (filter (λ o, refused o = true) (gets evs))).
Proof.
  destruct (attempts_budget url 3 None w) as (evs & Hw & Hle & Hpos & Hs).
  specialize (Hpos ltac:(lia)).
  assert (∀ m, gets (evs ++ [Stdout m]) = gets evs) as Hg.
  { intros m. rewrite gets_app. simpl. by rewrite app_nil_r. }
  assert (∀ m, slept (evs ++ [Stdout m]) = slept evs) as Hsl.
  { intros m. rewrite slept_app. simpl. lia. }
  unfold scrape_article, try_except. rewrite run_bind.
  destruct (attempts E 3 url None w) as [[[r|]|e] w1]; simpl in Hw; subst w1.
  - destruct (decide (status_code r ≠ 200%Z)).
    { exists evs. split_and!; [done|lia..|done]. }
    rewrite run_bind. unfold lift.
    destruct (BeautifulSoup E (text r)) as [sp|e].
    + exists evs. split_and!; [done|lia..|done].
    + exists (evs ++ [Stdout (ErrorScraping url e)]).
      rewrite Hg, Hsl. split_and!; [|lia..|done].
      erewrite bind_ok by apply print_run. by rewrite logged_logged.
  - exists (evs ++ [Stdout (ErrorScraping url (UnboundLocalError "response"))]).
    rewrite Hg, Hsl. split_and!; [|lia..|done].
    unfold raise. erewrite bind_ok by apply print_run. by rewrite logged_logged.
  - exists (evs ++ [Stdout (ErrorScraping url e)]).
    rewrite Hg, Hsl. split_and!; [|lia..|done].
    erewrite bind_ok by apply print_run. by rewrite logged_logged.
Qed.

(** One iteration of the loop of [download_articles], case by case. *)
Lemma article_for_unfold cols total delay idx row acc w :
  article_for E cols total delay (idx, row) acc w =
  let w0 := logged w (progress_line idx total) in
  match row_getitem cols row "URL" with
  | Raise e => (Raise e, w0)
  | Ok url =>
      match row_getitem cols row "publisher" with
      | Raise e => (Raise e, w0)
      | Ok publisher =>
          match url with
          | CStr u =>
              if blocked u
              then (Ok (acc ++ [""]), logged w0 [Stdout (SkippingBlocked url)])
              else
                match scrape_article E url publisher w0 with
                | (Ok a, w1) => (Ok (acc ++ [a]), logged w1 [Sleep delay])
                | (Raise e, w1) => (Raise e, w1)
                end
          | _ => (Raise (AttributeError "lower"), w0)
          end
      end
  end.
Proof.
  unfold article_for, progress_line. cbn [fst snd].
  rewrite run_bind.
  assert ((if decide ((idx + 1) mod 10 = 0)
           then print (Progress (idx + 1) total) else mret ()) w =
          (Ok (), logged w (if decide ((idx + 1) mod 10 = 0)
                            then [Stdout (Progress (idx + 1) total)] else [])))
    as ->.
  { destruct (decide _); [apply print_run|]. by rewrite logged_nil. }
  cbn zeta. rewrite run_bind. unfold lift at 1.
  destruct (row_getitem cols row "URL") as [url|e]; [|done].
  rewrite run_bind. unfold lift at 1.
  destruct (row_getitem cols row "publisher") as [publisher|e]; [|done].
  destruct url as [u| | | | |]; try done.
  destruct (blocked u).
  - erewrite bind_ok by apply print_run. done.
  - rewrite run_bind.
    destruct (scrape_article E (CStr u) publisher _) as [[a|e] w1]; [|done].
    erewrite bind_ok by apply emit_run. done.
Qed.


Lemma gets_progress idx total : gets (progress_line idx total) = [].
Proof. unfold progress_line. by destruct (decide _). Qed.

Lemma slept_progress idx total : slept (progress_line idx total) = 0%Z.
Proof. unfold progress_line. by destruct (decide _). Qed.

Lemma article_for_budget cols total delay idx row acc w :
  ∃ evs,
    (article_for E cols total delay (idx, row) acc w).2 = logged w evs ∧
    length (gets evs) ≤ (if requested cols row then 3 else 0) ∧
    (is_ok (article_for E cols total delay (idx, row) acc w).1 = true →
     (if requested cols row then 1 else 0) ≤ length (gets evs) ∧
     slept evs =
       ((if requested cols row then delay else 0) +
        Z.of_nat (length (filter (λ o, refused o = true) (gets evs))))%Z).
Proof.
  rewrite article_for_unfold. cbn zeta. unfold requested.
  pose proof (gets_progress idx total) as Hg.
  pose proof (slept_progress idx total) as Hs.
  destruct (row_getitem cols row "URL") as [url|e].
  2: { exists (progress_line idx total). rewrite Hg. by split_and!. }
  destruct (row_getitem cols row "publisher") as [publisher|e].
  2: { exists (progress_line idx total). rewrite Hg.
       split_and!; [done|destruct url as [u| | | | |]; try destruct (negb _); simpl; lia|done]. }
  destruct url as [u| | | | |];
    try (exists (progress_line idx total); rewrite Hg; by split_and!).
  destruct (blocked u).
  - exists (progress_line idx total ++ [Stdout (SkippingBlocked (CStr u))]).
    rewrite logged_logged, gets_app, slept_app, Hg, Hs. simpl.
    split_and!; [done|lia|]. intros _. split; [lia|done].
  - destruct (scrape_article_budget (CStr u) publisher
                (logged w (progress_line idx total))) as (evs & Hw & Hn & Hsl).
    destruct (scrape_article E (CStr u) publisher _) as [[a|e] w1];
      simpl in Hw; subst w1.
    + exists (progress_line idx total ++ evs ++ [Sleep delay]).
      rewrite !logged_logged, !gets_app, !slept_app, Hg, Hs, Hsl.
      simpl. rewrite app_nil_r. split_and!; [done|lia|].
      intros _. split; lia.
    + exists (progress_line idx total ++ evs).
      rewrite !logged_logged, !gets_app, Hg. simpl.
      split_and!; [done|lia|done].
Qed.

Lemma article_loop_budget cols total delay xs : ∀ acc w,
  let k := length (filter (λ ir : nat * list cell, requested cols ir.2 = true) xs) in
  ∃ evs,
    (for_in xs (article_for E cols total delay) acc w).2 = logged w evs ∧
    length (gets evs) ≤ 3 * k ∧
    (is_ok (for_in xs (article_for E cols total delay) acc w).1 = true →
     k ≤ length (gets evs) ∧
     slept evs =
       (delay * Z.of_nat k +
        Z.of_nat (length (filter (λ o, refused o = true) (gets evs))))%Z).
Proof.
  induction xs as [|[idx row] xs IH]; intros acc w; cbn zeta.
  { exists []. rewrite logged_nil. simpl. split_and!; [done|lia|]. intros _. lia. }
  rewrite filter_cons. cbn [snd for_in]. rewrite run_bind.
  destruct (article_for_budget cols total delay idx row acc w)
    as (evs1 & Hw1 & Hle1 & Hok1).
  destruct (article_for E cols total delay (idx, row) acc w) as [[acc1|e] w1];
    simpl in Hw1, Hok1; subst w1.
  - destruct (IH acc1 (logged w evs1)) as (evs2 & Hw2 & Hle2 & Hok2).
    cbn zeta in Hle2, Hok2. destruct (Hok1 eq_refl) as [Hge1 Hs1].
    exists (evs1 ++ evs2).
    rewrite Hw2, logged_logged, gets_app, slept_app, list.filter_app, !length_app.
    destruct (requested cols row) eqn:Hreq.
    + rewrite decide_True by done. simpl length.
      split_and!; [done|lia|]. intros Hok. destruct (Hok2 Hok) as [Hge2 Hs2]. lia.
    + rewrite decide_False by done.
      split_and!; [done|lia|]. intros Hok. destruct (Hok2 Hok) as [Hge2 Hs2]. lia.
  - exists evs1. split_and!; [done| |done].
    destruct (requested cols row); [rewrite decide_True by done|rewrite decide_False by done];
      simpl length; lia.
Qed.

Lemma filter_imap_snd {A} (P : A → Prop) `{!∀ x, Decision (P x)} (l : list A) :
  ∀ g : nat → A → nat * A, (∀ i x, (g i x).2 = x) →
  length (filter (λ ir : nat * A, P ir.2) (imap g l)) = length (filter P l).
Proof.
  induction l as [|x l IH]; intros g Hg; [done|].
  simpl. rewrite !filter_cons, Hg.
  destruct (decide (P x)); simpl; rewrite IH; auto; intros i y; apply Hg.
Qed.

(** Property X5.  The requests and pauses of [download_articles]. With [k]
    the number of rows whose URL is a str outside the denylist, it makes at
    most three requests per such row (and none for the others); when it
    returns it has made at least one request per such row, and the time it
    slept is [delay] seconds per such row plus one second per refused
    request. *)
Theorem download_articles_request_budget
    (news_df : loc) (delay : Z) (w : world) (df : DataFrame) :
  heap w !! news_df = Some df →
  let run := download_articles E news_df delay w in
  let k := length (filter (λ row, requested (columns df) row = true) (rows df)) in
  ∃ evs,
    trace run.2 = trace w ++ evs ∧
    length (gets evs) ≤ 3 * k ∧
    (is_ok run.1 = true →
     k ≤ length (gets evs) ∧
     slept evs =
       (delay * Z.of_nat k +
        Z.of_nat (length (filter (λ o, refused o = true) (gets evs))))%Z).
Proof.
  intros Hdf run k. unfold run, download_articles.
  erewrite bind_ok by apply print_run.
  erewrite bind_ok by (unfold read_frame; simpl; rewrite Hdf; reflexivity).
  rewrite run_bind.
  destruct (article_loop_budget (columns df) (length (rows df)) delay
              (imap pair (rows df)) []
              (logged w [Stdout (Text "Downloading full articles...")]))
    as (evs & Hw & Hle & Hok).
  cbn zeta in Hle, Hok.
  pose proof (filter_imap_snd (λ row, requested (columns df) row = true)
                (rows df) pair (λ _ _, eq_refl)) as Hk.
  cbn beta in Hk. rewrite Hk in Hle, Hok. clear Hk.
  fold k in Hle, Hok.
  destruct (for_in _ _ _ _) as [[articles|e] w1]; simpl in Hw, Hok; subst w1.
  - rewrite run_bind. unfold lift at 1.
    destruct (setitem df "article" (CStr <$> articles)) as [df'|e].
    + erewrite bind_ok by reflexivity.
      erewrite bind_ok by apply print_run. simpl.
      exists ([Stdout (Text "Downloading full articles...")] ++ evs ++
              [Stdout (Scraped (length (filter (λ a, truthy a = true) articles))
                               (length (rows df)))]).
      rewrite !gets_app, !slept_app. simpl. rewrite app_nil_r.
      split_and!; [by rewrite <- !app_assoc|done|].
      intros _. destruct (Hok eq_refl). split; [done|lia].
    + simpl. exists ([Stdout (Text "Downloading full articles...")] ++ evs).
      rewrite !gets_app. simpl. split_and!; [by rewrite <- !app_assoc|done|done].
  - simpl. exists ([Stdout (Text "Downloading full articles...")] ++ evs).
    rewrite !gets_app. simpl. split_and!; [by rewrite <- !app_assoc|done|done].
Qed.

End budget.

(** ** download_articles: which tables it accepts *)

Section bad_rows.
Context (E : Env).

(** An iteration returns exactly for a row with a str URL and a publisher;
    the exceptions it can raise are those of the two lookups and of
    [url.lower()]. *)
Lemma article_for_outcome cols total delay idx row acc w :
  match (article_for E cols total delay (idx, row) acc w).1 with
  | Ok out => scrapable cols row ∧ ∃ a, out = acc ++ [a]
  | Raise e => ¬ scrapable cols row ∧ bad_rows_error cols [row] e
  end.
Proof.
  rewrite article_for_unfold. cbn zeta. unfold scrapable, bad_rows_error, row_getitem.
  destruct (get_loc cols "URL") as [i|]; simpl.
  2: { split; [by intros (? & ? & [=] & _)|by left]. }
  destruct (get_loc cols "publisher") as [j|]; simpl.
  2: { split; [by intros (? & ? & _ & [=])|by right; left]. }
  destruct (cell_at row i) as [u| | | | |] eqn:Hcell;
    try (simpl; split; [by intros (? & ? & [=] & _)|];
         right; right; split; [done|]; eexists row, _;
         split; [by apply list_elem_of_singleton|];
         rewrite Hcell; split; [reflexivity|simpl; tauto]).
  destruct (blocked u); simpl; [by eauto 6|].
  destruct (scrape_article_returns E (CStr u) (cell_at row j)
              (logged w (progress_line idx total))) as [a Ha].
  destruct (scrape_article E (CStr u) (cell_at row j) _) as [r w1].
  simpl in Ha. subst r. simpl. eauto 6.
Qed.

Lemma bad_rows_error_mono cols table table' e :
  table ⊆ table' → bad_rows_error cols table e → bad_rows_error cols table' e.
Proof.
  intros Hsub [?|[?|(? & row & c & Hrow & ?)]]; [by left|by right; left|].
  right; right. split; [done|]. exists row, c. split; [by apply Hsub|done].
Qed.

Lemma article_loop_outcome cols total delay xs : ∀ acc w,
  match (for_in xs (article_for E cols total delay) acc w).1 with
  | Ok out => Forall (λ ir, scrapable cols ir.2) xs
  | Raise e =>
      ¬ Forall (λ ir, scrapable cols ir.2) xs ∧ bad_rows_error cols xs.*2 e
  end.
Proof.
  induction xs as [|[idx row] xs IH]; intros acc w; [by constructor|].
  cbn [for_in]. rewrite run_bind.
  pose proof (article_for_outcome cols total delay idx row acc w) as Hx.
  destruct (article_for E cols total delay (idx, row) acc w) as [[acc1|e] w1];
    simpl in Hx.
  - destruct Hx as [Hrow _]. specialize (IH acc1 w1).
    destruct (for_in xs _ acc1 w1) as [[out|e] w2]; simpl in *.
    + by constructor.
    + destruct IH as [Hn He]. split.
      * intros Hall. apply Hn. by inversion Hall.
      * eapply bad_rows_error_mono; [|done]. intros r Hr. simpl. by constructor.
  - destruct Hx as [Hn He]. simpl. split.
    + intros Hall. apply Hn. by inversion Hall.
    + eapply bad_rows_error_mono; [|done].
      intros r Hr. apply list_elem_of_singleton in Hr as ->. by left.
Qed.

Lemma snd_imap_pair {A} (l : list A) : (imap pair l).*2 = l.
Proof.
  apply list_eq. intros i. rewrite list_lookup_fmap, list_lookup_imap.
  by destruct (l !! i).
Qed.

(** Property X4.  [download_articles] returns exactly when every row of the
    table has a str under URL and a cell under publisher (in particular for
    a table without rows, whatever its columns). Otherwise it raises the
    KeyError of the first column found missing, or the AttributeError of
    [url.lower()] on a URL that is no str, such as the NaN of an empty CSV
    field. *)
Theorem download_articles_fails_only_on_bad_rows
    (news_df : loc) (delay : Z) (w : world) (df : DataFrame) :
  heap w !! news_df = Some df →
  let run := download_articles E news_df delay w in
  (is_ok run.1 = true ↔ Forall (scrapable (columns df)) (rows df)) ∧
  ∀ e, run.1 = Raise e → bad_rows_error (columns df) (rows df) e.
Proof.
  intros Hdf run.
  assert (Forall (λ ir : nat * list cell, scrapable (columns df) ir.2)
            (imap pair (rows df)) ↔
          Forall (scrapable (columns df)) (rows df)) as Hrows.
  { rewrite !Forall_lookup. split.
    - intros H i row Hi. apply (H i (i, row)).
      by rewrite list_lookup_imap, Hi.
    - intros H i [j row] Hi. rewrite list_lookup_imap in Hi.
      destruct (rows df !! i) as [row'|] eqn:Hrow; [|done].
      simpl in Hi. injection Hi as <- <-. by apply (H i). }
  unfold run, download_articles.
  erewrite bind_ok by apply print_run.
  erewrite bind_ok by (unfold read_frame; simpl; rewrite Hdf; reflexivity).
  rewrite run_bind.
  set (w0 := logged w _).
  pose proof (article_loop_outcome (columns df) (length (rows df)) delay
                (imap pair (rows df)) [] w0) as Hloop.
  rewrite snd_imap_pair in Hloop.
  destruct (for_in _ _ _ w0) as [[articles|e] w1] eqn:Hrun; simpl in Hloop.
  - apply article_loop in Hrun as (new & -> & Hlen & _).
    rewrite length_imap in Hlen. simpl.
    destruct (setitem_ok df "article" (CStr <$> new)) as [df' Hset].
    { by rewrite length_fmap. }
    erewrite bind_ok by (unfold lift; rewrite Hset; reflexivity).
    erewrite bind_ok by reflexivity.
    erewrite bind_ok by apply print_run. simpl.
    split; [|done]. split; [intros _; by apply Hrows|done].
  - destruct Hloop as [Hn He]. simpl. split.
    + split; [done|]. intros Hall. destruct Hn. by apply Hrows.
    + by intros ? [= <-].
Qed.

End bad_rows.

(** ** download_articles: the columns of the table *)

Lemma get_loc_lookup cols key i : get_loc cols key = Some i → cols !! i = Some key.
Proof.
  revert i. induction cols as [|c cols IH]; intros i; simpl; [done|].
  destruct (decide (c = key)) as [->|]; [by intros [= <-]|].
  destruct (get_loc cols key) as [j|]; simpl; [|done].
  intros [= <-]. by apply IH.
Qed.

Lemma get_loc_app_ne cols key key' :
  key' ≠ key → get_loc (cols ++ [key]) key' = get_loc cols key'.
Proof.
  intros Hne. induction cols as [|c cols IH]; simpl.
  - by rewrite decide_False.
  - destruct (decide (c = key')); [done|]. by rewrite IH.
Qed.

Lemma cell_at_fit n row i : i < n → cell_at (fit n row) i = cell_at row i.
Proof.
  intros Hi. unfold cell_at, fit. rewrite lookup_take_lt by done.
  destruct (decide (i < length row)) as [Hlt|Hge].
  - by rewrite lookup_app_l.
  - rewrite lookup_app_r by lia. rewrite lookup_replicate_2 by lia.
    by rewrite lookup_ge_None_2 by lia.
Qed.

(** [df[key] = values] leaves every other column as it was. *)
Lemma setitem_other df key values df' key' :
  setitem df key values = Ok df' → key' ≠ key →
  getitem df' key' = getitem df key'.
Proof.
  unfold setitem. destruct (decide _) as [Hlen|]; [|done].
  intros Hset Hne. unfold getitem.
  destruct (get_loc (columns df) key) as [j|] eqn:Hj; injection Hset as <-; simpl.
  - destruct (get_loc (columns df) key') as [i|] eqn:Hi; [|done].
    f_equal. apply fmap_zip_with_l'; [|lia].
    intros row v. unfold cell_at at 1.
    rewrite list_lookup_insert_ne.
    + apply cell_at_fit. by eapply get_loc_lt.
    + intros ->. apply get_loc_lookup in Hj, Hi. congruence.
  - rewrite get_loc_app_ne by done.
    destruct (get_loc (columns df) key') as [i|] eqn:Hi; [|done].
    f_equal. apply fmap_zip_with_l'; [|lia].
    intros row v. unfold cell_at at 1.
    rewrite lookup_app_l by (rewrite length_fit; by eapply get_loc_lt).
    apply cell_at_fit. by eapply get_loc_lt.
Qed.

Lemma fmap_zip_with_r' {A B C} (f : A → B → C) (g : C → B)
    (l : list A) (k : list B) :
  (∀ x y, g (f x y) = y) → length k ≤ length l →
  g <$> zip_with f l k = k.
Proof.
  intros Hf. revert l. induction k as [|y k IH]; intros [|x l] ?; simpl in *;
    try done; try lia.
  rewrite Hf. f_equal. apply IH. lia.
Qed.

(** [df[key] = values] makes the column [key] read as [values]. *)
Lemma setitem_same df key values df' :
  setitem df key values = Ok df' → getitem df' key = Ok values.
Proof.
  unfold setitem. destruct (decide _) as [Hlen|]; [|done].
  intros Hset. unfold getitem.
  destruct (get_loc (columns df) key) as [j|] eqn:Hj; injection Hset as <-; simpl.
  - rewrite Hj. f_equal. apply fmap_zip_with_r'; [|lia].
    intros row v. unfold cell_at.
    rewrite list_lookup_insert_eq; [done|].
    rewrite length_fit. by eapply get_loc_lt.
  - rewrite (get_loc_snoc _ _ Hj). f_equal. apply fmap_zip_with_r'; [|lia].
    intros row v.
    unfold cell_at. rewrite lookup_app_r; rewrite length_fit; [|done].
    by rewrite Nat.sub_diag.
Qed.

Section texts.
Context (E : Env).

Lemma article_loop_texts (P : string → Prop) cols total delay xs :
  P "" → (∀ sp, P (extract_text E sp)) →
  ∀ acc w out w1,
    for_in xs (article_for E cols total delay) acc w = (Ok out, w1) →
    Forall P acc → Forall P out.
Proof.
  intros Hempty Htext.
  induction xs as [|[idx row] xs IH]; intros acc w out w1; simpl.
  - by intros [= <- _].
  - intros H Hacc. apply bind_inv in H as [(acc1 & w2 & Hx & H)|(? & _ & [=])].
    apply (IH _ _ _ _ H). clear H IH.
    rewrite article_for_unfold in Hx. cbn zeta in Hx.
    destruct (row_getitem cols row "URL") as [url|]; [|done].
    destruct (row_getitem cols row "publisher") as [publisher|]; [|done].
    destruct url as [u| | | | |]; try done.
    destruct (blocked u).
    + injection Hx as <- _. apply Forall_app. by repeat constructor.
    + destruct (scrape_article E (CStr u) publisher _) as [[a|e] w3] eqn:Hs;
        [|done].
      injection Hx as <- _. apply Forall_app. split; [done|].
      repeat constructor.
      assert ((scrape_article E (CStr u) publisher
                 (logged w (progress_line idx total))).1 = Ok a) as Ha
        by (by rewrite Hs).
      by apply scrape_article_result in Ha as [->|[sp ->]].
Qed.

(** Property X6.  When [download_articles] returns, the table behind its
    argument has the rows it had, every column other than [article] reads as
    before, and the [article] column holds one str per row, each of at most
    10000 characters and single-spaced (never a null). *)
Theorem download_articles_adds_only_the_article_column
    (news_df : loc) (delay : Z) (w : world) (df : DataFrame) :
  heap w !! news_df = Some df →
  let run := download_articles E news_df delay w in
  ∀ l, run.1 = Ok l →
    ∃ df' texts,
      heap run.2 !! l = Some df' ∧
      length (rows df') = length (rows df) ∧
      (∀ key, key ≠ "article" → getitem df' key = getitem df key) ∧
      getitem df' "article" = Ok (CStr <$> texts) ∧
      length texts = length (rows df) ∧
      Forall (λ s, String.length s ≤ 10000 ∧ single_spaced s) texts.
Proof.
  intros Hdf run l. unfold run, download_articles.
  erewrite bind_ok by apply print_run.
  erewrite bind_ok by (unfold read_frame; simpl; rewrite Hdf; reflexivity).
  rewrite run_bind.
  set (w0 := logged w _).
  pose proof (keeps_for_in same_heap (imap pair (rows df))
        (article_for E (columns df) (length (rows df)) delay) []
        (article_for_same_heap E _ _ _) w0) as Hheap.
  destruct (for_in _ _ _ w0) as [[articles|e] w1] eqn:Hloop; [|done].
  unfold same_heap in Hheap. simpl in Hheap.
  pose proof (article_loop_texts
                (λ s, String.length s ≤ 10000 ∧ tidy true s = true)
                _ _ _ _ ltac:(split; [simpl; lia|done])
                (extract_text_tidy E) _ _ _ _ Hloop (Forall_nil_2 _)) as Htexts.
  apply article_loop in Hloop as (new & Hnew & Hlen & _).
  simpl in Hnew. subst new. rewrite length_imap in Hlen.
  rewrite run_bind. unfold lift at 1.
  destruct (setitem df "article" (CStr <$> articles)) as [df'|] eqn:Hset; [|done].
  erewrite bind_ok by reflexivity.
  erewrite bind_ok by apply print_run.
  simpl. intros [= <-].
  exists df', articles. split_and!.
  - rewrite Hheap. apply list_lookup_insert_eq. by eapply lookup_lt_Some.
  - by eapply setitem_length.
  - intros key Hkey. by eapply setitem_other.
  - by eapply setitem_same.
  - done.
  - apply Forall_lookup. intros i s Hi.
    destruct (Forall_lookup_1 _ _ _ _ Htexts Hi) as [? ?].
    split; [done|]. by apply tidy_single_spaced.
Qed.

End texts.

(** ** download_articles at the analyst ratings of the scenario *)

(** Two of the three rows are scraped: one is served at once, one is
    refused three times. *)
Lemma download_articles_request_budget_witness :
  let E := Scenario.env in
  let df := Scenario.analyst_ratings in
  let w := {| trace := []; heap := [df] |} in
  heap w !! 0 = Some df ∧
  let run := download_articles E 0 1 w in
  let k := length (filter (λ row, requested (columns df) row = true) (rows df)) in
  ∃ evs,
    trace run.2 = trace w ++ evs ∧
    length (gets evs) ≤ 3 * k ∧
    (is_ok run.1 = true →
     k ≤ length (gets evs) ∧
     slept evs =
       (1 * Z.of_nat k +
        Z.of_nat (length (filter (λ o, refused o = true) (gets evs))))%Z).
Proof.
  split; [reflexivity|].
  apply (download_articles_request_budget Scenario.env 0 1
           {| trace := []; heap := [Scenario.analyst_ratings] |}
           Scenario.analyst_ratings).
  reflexivity.
Defined.

Lemma download_articles_fails_only_on_bad_rows_witness :
  let E := Scenario.env in
  let df := Scenario.analyst_ratings in
  let w := {| trace := []; heap := [df] |} in
  heap w !! 0 = Some df ∧
  let run := download_articles E 0 1 w in
  (is_ok run.1 = true ↔ Forall (scrapable (columns df)) (rows df)) ∧
  ∀ e, run.1 = Raise e → bad_rows_error (columns df) (rows df) e.
Proof.
  split; [reflexivity|].
  apply (download_articles_fails_only_on_bad_rows Scenario.env 0 1
           {| trace := []; heap := [Scenario.analyst_ratings] |}
           Scenario.analyst_ratings).
  reflexivity.
Defined.

Lemma download_articles_adds_only_the_article_column_witness :
  let E := Scenario.env in
  let df := Scenario.analyst_ratings in
  let w := {| trace := []; heap := [df] |} in
  let run := download_articles E 0 1 w in
  heap w !! 0 = Some df ∧ run.1 = Ok 0 ∧
  ∃ df' texts,
    heap run.2 !! 0 = Some df' ∧
    length (rows df') = length (rows df) ∧
    (∀ key, key ≠ "article" → getitem df' key = getitem df key) ∧
    getitem df' "article" = Ok (CStr <$> texts) ∧
    length texts = length (rows df) ∧
    Forall (λ s, String.length s ≤ 10000 ∧ single_spaced s) texts.
Proof.
  split; [reflexivity|]. split; [vm_compute; reflexivity|].
  apply (download_articles_adds_only_the_article_column Scenario.env 0 1
           {| trace := []; heap := [Scenario.analyst_ratings] |}
           Scenario.analyst_ratings eq_refl 0).
  vm_compute. reflexivity.
Defined.

(** A table with an empty URL field: the download stops at that row with
    the AttributeError of [url.lower()], after the requests for the rows
    before it, and the table is left without an article column. *)
Example download_articles_stops_at_a_missing_url :
  let df := {| columns := ["URL"; "publisher"];
               rows := [[CStr "http://news.example/a1"; CStr "Benzinga"];
                        [CNaN; CStr "Zacks"];
                        [CStr "http://news.example/a3"; CStr "Zacks"]] |} in
  let run := download_articles Scenario.env 0 1 {| trace := []; heap := [df] |} in
  run.1 = Raise (AttributeError "lower") ∧
  length (gets (trace run.2)) = 1 ∧
  heap run.2 = [df].
Proof. vm_compute. done. Qed.

(** ** download_historical_prices: the rows of the price table *)

Section price_rows.
Context (E : Env).

Lemma fetch_loop_answered start_date end_date symbols : ∀ all_data w,
  ∃ evs,
    (for_in symbols (fetch_symbol E start_date end_date) all_data w).2 =
      logged w evs ∧
    Forall (answered E start_date end_date) (fetches evs).
Proof.
  induction symbols as [|s symbols IH]; intros all_data w.
  { exists []. by rewrite logged_nil. }
  cbn [for_in]. rewrite run_bind.
  destruct (fetch_symbol_run E start_date end_date s all_data w)
    as (new & evs1 & -> & Hf & _).
  destruct (IH (all_data ++ new) {| trace := trace w ++ evs1; heap := heap w |})
    as (evs2 & -> & Hall).
  exists (evs1 ++ evs2). split; [by rewrite <- logged_logged|].
  rewrite fetches_app. apply Forall_app. split; [|done].
  rewrite Hf. repeat constructor. by eexists.
Qed.

Lemma download_historical_prices_answered symbols start_date end_date w :
  ∃ evs,
    trace (download_historical_prices E symbols start_date end_date w).2 =
      trace w ++ evs ∧
    Forall (answered E start_date end_date) (fetches evs).
Proof.
  unfold download_historical_prices.
  erewrite bind_ok by apply print_run. rewrite run_bind.
  destruct (fetch_loop_answered start_date end_date
              (list_set E symbols ++ [CStr "^GSPC"]) []
              (logged w [Stdout (Text "Downloading historical prices...")]))
    as (evs & Hw & Hall).
  destruct (fetch_loop E start_date end_date
              (list_set E symbols ++ [CStr "^GSPC"]) []
              (logged w [Stdout (Text "Downloading historical prices...")]))
    as (new & evs' & Hrun & _).
  rewrite Hrun in Hw |- *. simpl in Hw.
  assert (evs' = evs) as ->.
  { unfold logged in Hw. simpl in Hw. injection Hw as Hw.
    by apply app_inv_head in Hw. }
  clear Hw. destruct new as [|d ds]; cbn [app].
  - unfold raise. simpl. exists (Stdout (Text "Downloading historical prices...") :: evs).
    split; [by rewrite <- app_assoc|]. by rewrite fetches_cons_stdout.
  - erewrite bind_ok by apply print_run. unfold new_frame. simpl.
    eexists (Stdout (Text "Downloading historical prices...") :: evs ++ [_]).
    split; [by rewrite <- !app_assoc|].
    by rewrite fetches_cons_stdout, fetches_snoc_stdout.
Qed.

(** Property X7.  Every row of the table [download_historical_prices]
    returns is one bar in the canonical columns: a Timestamp, the symbol,
    four floats and an int. The symbol is one of those asked for, or ['s&p']
    for the rows of the index; no row carries the provider's name ['^GSPC']. *)
Theorem download_historical_prices_rows
    (symbols : list cell) (start_date end_date : string) (w : world) :
  library_contract E →
  let run := download_historical_prices E symbols start_date end_date w in
  ∀ l, run.1 = Ok l →
    ∃ prices, heap run.2 !! l = Some prices ∧
      ∀ row, row ∈ rows prices →
        ∃ b symbol,
          row = [CTime (Date b); symbol; CFloat (Open b); CFloat (High b);
                 CFloat (Low b); CFloat (Close b); CInt (Volume b)] ∧
          symbol ≠ CStr "^GSPC" ∧
          (symbol = CStr "s&p" ∨ symbol ∈ symbols).
Proof.
  intros HE run l Hl.
  destruct (download_historical_prices_run E symbols start_date end_date w)
    as (evs & Htr & Hsyms & _ & _ & Hres).
  fold run in Htr, Hres. destruct run as [r w1]. simpl in Hl. subst r.
  destruct Hres as (_ & -> & prices & Hheap & _ & Hrows).
  exists prices. split; [simpl; rewrite Hheap; by apply list_lookup_middle|].
  intros row Hrow. rewrite Hrows, (sort_rows_perm E HE) in Hrow.
  apply list_elem_of_join in Hrow as (bars & Hrow & Hbars).
  apply list_elem_of_fmap in Hbars as ([s o] & -> & Hf).
  assert (s ∈ (fetches evs).*1) as Hs.
  { apply list_elem_of_fmap. by exists (s, o). }
  rewrite Hsyms in Hs.
  unfold bars_of in Hrow. simpl in Hrow. destruct o as [df|]; [|by inversion Hrow].
  apply list_elem_of_fmap in Hrow as (b & -> & _).
  exists b, (if decide (s = CStr "^GSPC") then CStr "s&p" else s).
  split; [done|]. destruct (decide (s = CStr "^GSPC")) as [->|Hne].
  - split; [done|by left].
  - split; [done|]. right.
    apply elem_of_app in Hs as [Hs|Hs].
    + by apply (list_set_elem E HE).
    + apply list_elem_of_singleton in Hs. done.
Qed.

End price_rows.

Lemma download_historical_prices_rows_witness :
  let E := Scenario.env in
  let symbols := [CStr "AAPL"; CStr "MSFT"] in
  let run := download_historical_prices E symbols "2009-01-01" "2020-12-31"
               Scenario.start in
  library_contract E ∧ run.1 = Ok 0 ∧
  ∃ prices, heap run.2 !! 0 = Some prices ∧
    ∀ row, row ∈ rows prices →
      ∃ b symbol,
        row = [CTime (Date b); symbol; CFloat (Open b); CFloat (High b);
               CFloat (Low b); CFloat (Close b); CInt (Volume b)] ∧
        symbol ≠ CStr "^GSPC" ∧
        (symbol = CStr "s&p" ∨ symbol ∈ symbols).
Proof.
  split; [exact env_contract|]. split; [vm_compute; reflexivity|].
  apply (download_historical_prices_rows Scenario.env
           [CStr "AAPL"; CStr "MSFT"] "2009-01-01" "2020-12-31" Scenario.start
           env_contract 0).
  vm_compute. reflexivity.
Defined.

(** ** main: the order of its work *)

Lemma acts_of_class (P : event → Prop) (k : action) evs :
  (∀ ev, P ev → act ev = None ∨ act ev = Some k) →
  Forall P evs → ∃ n, omap act evs = replicate n k.
Proof.
  intros HP. induction 1 as [|ev evs Hev _ [n IH]]; [by exists 0|].
  destruct (HP ev Hev) as [Hact|Hact].
  - exists n. simpl. rewrite Hact. exact IH.
  - exists (S n). simpl. rewrite Hact. f_equal. exact IH.
Qed.

Lemma acts_prices evs :
  Forall prices_event evs → ∃ n, omap act evs = replicate n PriceRequest.
Proof. apply acts_of_class. intros []; simpl; auto; done. Qed.

Lemma acts_merge evs :
  Forall merge_event evs → ∃ n, omap act evs = replicate n ArticleRequest.
Proof. apply acts_of_class. intros []; simpl; auto; done. Qed.

Section order.
Context (E : Env).

Lemma read_csv_events path : keeps (grows_by merge_event) (read_csv E path).
Proof.
  unfold read_csv. destruct (fs E path).
  - apply keeps_bind; [apply _ | by apply grows_by_emit | intros _].
    apply keeps_ret; apply _.
  - apply keeps_raise; apply _.
Qed.

Lemma merge_datasets_events pa ph :
  keeps (grows_by merge_event) (merge_datasets E pa ph).
Proof.
  unfold merge_datasets.
  apply keeps_bind; [apply _ | by apply grows_by_emit | intros _].
  apply keeps_bind; [apply _ | apply read_csv_events | intros A].
  apply keeps_bind; [apply _ | apply read_csv_events | intros H].
  apply keeps_bind; [apply _ | by apply grows_by_emit | intros _].
  apply keeps_bind; [apply _ | by apply grows_by_emit | intros _].
  apply keeps_bind; [apply _ | apply keeps_lift; apply _ | intros A'].
  apply keeps_bind; [apply _ | apply keeps_lift; apply _ | intros H'].
  apply keeps_bind; [apply _ | apply keeps_lift; apply _ | intros numbered].
  apply keeps_bind; [apply _ | apply keeps_lift; apply _ | intros dates].
  apply keeps_bind; [apply _ | apply keeps_lift; apply _ | intros parsed].
  apply keeps_bind; [apply _ | apply keeps_lift; apply _ | intros dated].
  apply keeps_bind; [apply _ | by apply grows_by_emit | intros _].
  apply keeps_bind; [apply _ | apply grows_by_new_frame | intros r].
  apply keeps_bind; [apply _ | | intros r'].
  { intros w. eapply grows_by_weaken; [|apply download_articles_events].
    intros [] ; simpl; try done. }
  apply keeps_bind; [apply _ | apply keeps_read_frame; apply _ | intros df].
  apply keeps_bind; [apply _ | apply keeps_lift; apply _ | intros out].
  apply grows_by_new_frame.
Qed.

Lemma act_report schema df : act (report E schema df) = None.
Proof. unfold report. by destruct (validate E schema df). Qed.

Lemma main_missing_run w :
  fs E analyst_ratings_path = None ∨ fs E headlines_path = None →
  main E w = (Ok (), logged w (main_prologue ++ missing_input_report E)).
Proof.
  intros Hmissing. unfold missing_input_report, main.
  erewrite bind_ok by apply emit_run.
  erewrite bind_ok by apply print_run.
  erewrite bind_ok by apply print_run.
  erewrite bind_ok by apply print_run.
  erewrite bind_ok by apply path_exists_run.
  destruct (fs E analyst_ratings_path) as [A|] eqn:HA.
  - destruct Hmissing as [|HH]; [done|].
    rewrite bool_decide_eq_true_2 by eauto. cbn [negb].
    erewrite bind_ok by apply path_exists_run.
    rewrite HH. rewrite bool_decide_eq_false_2 by (by intros [? ?]). cbn [negb].
    erewrite bind_ok by apply print_run.
    rewrite print_run, !logged_logged. reflexivity.
  - rewrite bool_decide_eq_false_2 by (by intros [? ?]). cbn [negb].
    erewrite bind_ok by apply print_run.
    rewrite print_run, !logged_logged. reflexivity.
Qed.

(** Property X10.  In every run of [main], whatever the files, the network
    and the validation do, the price requests come first, then the one write
    of historical_prices.csv, then the article requests, then the one write
    of all_news.csv; a run that fails stops somewhere along this line.
    Nothing else is ever written. A run that returns has either done nothing
    of this (an input file was absent) or all of it. *)
Theorem main_order_of_work (w : world) :
  ∃ evs price_requests article_requests,
    trace (main E w).2 = trace w ++ evs ∧
    omap act evs `prefix_of` full_run price_requests article_requests ∧
    (is_ok (main E w).1 = true →
     omap act evs = [] ∨
     omap act evs = full_run price_requests article_requests).
Proof.
  destruct (fs E analyst_ratings_path) as [A|] eqn:HA;
    [destruct (fs E headlines_path) as [H|] eqn:HH|].
  2,3: rewrite main_missing_run by auto;
       exists (main_prologue ++ missing_input_report E), 0, 0;
       unfold missing_input_report; rewrite HA, ?HH;
       (split_and!; [done|by apply prefix_nil|by left]).
  rewrite (main_inputs_present E w A H HA HH). rewrite run_bind.
  set (pre := main_prologue ++ [PathExists analyst_ratings_path true;
                                PathExists headlines_path true]).
  destruct (getitem A "symbol") as [sa|e] eqn:Hsa;
    [destruct (getitem H "symbol") as [sh|e] eqn:Hsh|].
  2,3: rewrite (task_a_no_symbol E _ A H HA HH);
       [exists (pre ++ task_a_prologue), 0, 0;
        split_and!; [simpl; by rewrite <- app_assoc|by apply prefix_nil|done]|].
  2,3: unfold getitem in *.
  2: destruct (get_loc (columns H) "symbol"); [done|by right].
  2: destruct (get_loc (columns A) "symbol"); [done|by left].
  rewrite (task_a_run E _ A H sa sh HA HH Hsa Hsh). rewrite logged_logged.
  set (symbols := list_set E (unique (dropna sa) ++ unique (dropna sh))).
  set (w0 := logged w _).
  destruct (download_historical_prices_run E symbols "2009-01-01" "2020-12-31" w0)
    as (evs_a & Htr & _ & _ & Hevs_a & Hres).
  apply acts_prices in Hevs_a as [a Ha].
  rewrite run_bind.
  destruct (download_historical_prices E symbols "2009-01-01" "2020-12-31" w0)
    as [[l1|e] w1]; simpl in Htr.
  2: { exists (pre ++ (task_a_prologue ++ [Stdout (FoundSymbols (length symbols))])
                ++ evs_a), a, 0.
       split_and!; [simpl; rewrite Htr; unfold w0; simpl; by rewrite <- !app_assoc| |done].
       rewrite !omap_app, Ha. simpl. by apply prefix_app_r. }
  destruct Hres as (_ & -> & prices & Hheap & _).
  assert (heap w1 !! length (heap w0) = Some prices) as Hl1.
  { rewrite Hheap. by apply list_lookup_middle. }
  rewrite (stage_epilogue_run E _ _ _ _ prices w1 Hl1).
  rewrite run_bind, task_bc_run, logged_logged, run_bind.
  set (w2 := logged w1 _).
  destruct (merge_datasets_events analyst_ratings_path headlines_path w2)
    as (evs_m & Htr_m & Hevs_m).
  apply acts_merge in Hevs_m as [b Hb].
  destruct (merge_datasets_heap E analyst_ratings_path headlines_path w2)
    as [_ Hfresh].
  destruct (merge_datasets E analyst_ratings_path headlines_path w2)
    as [[l2|e] w3]; simpl in Htr_m, Hfresh.
  2: { exists (pre ++ (task_a_prologue ++ [Stdout (FoundSymbols (length symbols))])
                ++ evs_a ++
                (stage_epilogue E "Validating historical_prices schema..."
                   historical_prices_schema prices historical_prices_path ++
                 task_bc_prologue) ++ evs_m), a, b.
       split_and!; [|rewrite !omap_app, Ha, Hb|done].
       { simpl. rewrite Htr_m. unfold w2. simpl. rewrite Htr. unfold w0. simpl.
         by rewrite <- !app_assoc. }
       simpl. rewrite act_report. simpl.
       unfold full_run. exists [WriteNews]. by rewrite <- !app_assoc. }
  destruct (Hfresh l2 eq_refl) as [_ [news Hnews]].
  rewrite (stage_epilogue_run E _ _ _ _ news w3 Hnews).
  rewrite epilogue_run, logged_logged.
  exists (pre ++ (task_a_prologue ++ [Stdout (FoundSymbols (length symbols))])
            ++ evs_a ++
            (stage_epilogue E "Validating historical_prices schema..."
               historical_prices_schema prices historical_prices_path ++
             task_bc_prologue) ++ evs_m ++
            (stage_epilogue E "Validating all_news schema..." all_news_schema
               news all_news_path ++ main_epilogue)), a, b.
  match goal with |- _ ∧ omap act ?evs `prefix_of` _ ∧ _ =>
    assert (omap act evs = full_run a b) as Hacts
  end.
  { rewrite !omap_app, Ha, Hb. simpl. by rewrite !act_report. }
  split_and!; [|by rewrite Hacts|by right].
  simpl. rewrite Htr_m. unfold w2. simpl. rewrite Htr. unfold w0. simpl.
  by rewrite <- !app_assoc.
Qed.

End order.

(** ** main: when it aborts and when it completes *)

Section completion.
Context (E : Env).

Lemma prices_event_quiet ev : prices_event ev → ¬ is_to_csv ev ∧ ¬ is_http_get ev.
Proof. destruct ev; simpl; tauto. Qed.

(** The last request of the price download is the one for the index, and
    every request got the provider's answer. *)
Lemma download_historical_prices_index symbols start_date end_date w :
  ∃ evs h,
    trace (download_historical_prices E symbols start_date end_date w).2 =
      trace w ++ evs ∧
    Forall (answered E start_date end_date) (fetches evs) ∧
    (CStr "^GSPC",
     ticker_history E h (CStr "^GSPC") start_date end_date) ∈ fetches evs.
Proof.
  destruct (download_historical_prices_answered E symbols start_date end_date w)
    as (evs & Htr & Hans).
  destruct (download_historical_prices_run E symbols start_date end_date w)
    as (evs' & Htr' & Hsyms & _).
  assert (evs' = evs) as ->.
  { rewrite Htr in Htr'. by apply app_inv_head in Htr'. }
  assert (CStr "^GSPC" ∈ (fetches evs).*1) as Hin.
  { rewrite Hsyms. apply elem_of_app. right. by apply list_elem_of_singleton. }
  apply list_elem_of_fmap in Hin as ([s o] & Hs & Hin). simpl in Hs. subst s.
  apply list_elem_of_lookup in Hin as [i Hi].
  destruct (Forall_lookup_1 _ _ _ _ Hans Hi) as [h Hh]. simpl in Hh. subst o.
  exists evs, h. split_and!; [done..|].
  apply list_elem_of_lookup. by exists i.
Qed.

(** Property X12.  When the provider has no bar for any symbol, [main] ends
    with an exception (the ValueError of the price download when both stub
    files have a symbol column): no file is written and no article is
    requested. *)
Theorem main_aborts_without_prices (w : world) (A H : DataFrame) :
  fs E analyst_ratings_path = Some A → fs E headlines_path = Some H →
  (∀ h symbol start_date end_date,
     bars_of (symbol, ticker_history E h symbol start_date end_date) = []) →
  ∃ e evs,
    (main E w).1 = Raise e ∧
    (is_ok (getitem A "symbol") = true → is_ok (getitem H "symbol") = true →
     e = ValueError "No historical price data could be downloaded") ∧
    trace (main E w).2 = trace w ++ evs ∧
    Forall (λ ev, ¬ is_to_csv ev ∧ ¬ is_http_get ev) evs.
Proof.
  intros HA HH Hnone.
  rewrite (main_inputs_present E w A H HA HH). rewrite run_bind.
  set (pre := main_prologue ++ [PathExists analyst_ratings_path true;
                                PathExists headlines_path true]).
  destruct (getitem A "symbol") as [sa|e] eqn:Hsa;
    [destruct (getitem H "symbol") as [sh|e] eqn:Hsh|].
  2,3: rewrite (task_a_no_symbol E _ A H HA HH);
       [exists (KeyError ["symbol"]), (pre ++ task_a_prologue);
        split_and!; [done|done|simpl; by rewrite <- app_assoc|
                     repeat constructor; simpl; tauto]|].
  2,3: unfold getitem in *.
  2: destruct (get_loc (columns H) "symbol"); [done|by right].
  2: destruct (get_loc (columns A) "symbol"); [done|by left].
  rewrite (task_a_run E _ A H sa sh HA HH Hsa Hsh). rewrite logged_logged.
  set (symbols := list_set E (unique (dropna sa) ++ unique (dropna sh))).
  set (w0 := logged w _).
  destruct (download_historical_prices_run E symbols "2009-01-01" "2020-12-31" w0)
    as (evs_a & Htr & _ & _ & Hevs_a & Hres).
  destruct (download_historical_prices_answered E symbols "2009-01-01"
              "2020-12-31" w0) as (evs' & Htr' & Hans).
  assert (evs' = evs_a) as ->.
  { rewrite Htr in Htr'. by apply app_inv_head in Htr'. }
  rewrite run_bind.
  destruct (download_historical_prices E symbols "2009-01-01" "2020-12-31" w0)
    as [[l1|e] w1]; simpl in Htr.
  { destruct Hres as (Hex & _). apply list.Exists_exists in Hex as ([s o] & Hin & Hbars).
    apply list_elem_of_lookup in Hin as [i Hi].
    destruct (Forall_lookup_1 _ _ _ _ Hans Hi) as [h Hh]. simpl in Hh. subst o.
    by rewrite Hnone in Hbars. }
  destruct Hres as (-> & _).
  exists (ValueError "No historical price data could be downloaded"),
         (pre ++ (task_a_prologue ++ [Stdout (FoundSymbols (length symbols))])
              ++ evs_a).
  split_and!; [done|done| |].
  - simpl. rewrite Htr. unfold w0. simpl. by rewrite <- !app_assoc.
  - repeat (apply Forall_app; split).
    all: try (repeat constructor; simpl; tauto).
    apply Forall_lookup. intros i ev Hev. apply prices_event_quiet.
    by apply (Forall_lookup_1 _ _ _ _ Hevs_a Hev).
Qed.

Lemma getitem_list_getitem df keys df' key :
  getitem_list df keys = Ok df' → key ∈ keys → ∃ c, getitem df key = Ok c.
Proof.
  unfold getitem_list, getitem.
  destruct (missing_labels (columns df) keys) eqn:Hm; [|done].
  intros _ Hkey. destruct (get_loc (columns df) key) eqn:Hloc; [by eauto|].
  assert (key ∈ missing_labels (columns df) keys) as Hin.
  { unfold missing_labels. by apply list_elem_of_filter. }
  rewrite Hm in Hin. by apply elem_of_nil in Hin.
Qed.

(** Property X11.  When both stub files have the common columns, the dates
    parse, every URL is a str and the index has bars, [main] runs to its end
    without an exception, whatever else the network and the validation do:
    it writes the price table to historical_prices.csv and then the merged
    table, with its n1 + n2 rows and the all_news columns, to all_news.csv. *)
Theorem main_completes (w : world) (A H A' H' : DataFrame) :
  library_contract E →
  fs E analyst_ratings_path = Some A → fs E headlines_path = Some H →
  getitem_list A required_cols = Ok A' →
  getitem_list H required_cols = Ok H' →
  is_ok (to_datetime E ((λ src, field required_cols src "date")
                          <$> (rows A' ++ rows H'))) = true →
  Forall (λ src, is_str (field required_cols src "URL")) (rows A' ++ rows H') →
  (∀ h start_date end_date,
     bars_of (CStr "^GSPC",
              ticker_history E h (CStr "^GSPC") start_date end_date) ≠ []) →
  ∃ evs1 evs2 evs3 prices news,
    (main E w).1 = Ok () ∧
    trace (main E w).2 =
      trace w ++ evs1 ++ [ToCsv historical_prices_path prices] ++ evs2 ++
      [ToCsv all_news_path news] ++ evs3 ∧
    columns prices = price_columns ∧
    columns news = all_news_columns ∧
    length (rows news) = length (rows A) + length (rows H).
Proof.
  intros HE HA HH HA' HH' Hdates Hurls Hindex.
  destruct (getitem_list_getitem A required_cols A' "symbol" HA') as [sa Hsa].
  { repeat constructor. }
  destruct (getitem_list_getitem H required_cols H' "symbol" HH') as [sh Hsh].
  { repeat constructor. }
  rewrite (main_inputs_present E w A H HA HH). rewrite run_bind.
  set (pre := main_prologue ++ [PathExists analyst_ratings_path true;
                                PathExists headlines_path true]).
  rewrite (task_a_run E _ A H sa sh HA HH Hsa Hsh). rewrite logged_logged.
  set (symbols := list_set E (unique (dropna sa) ++ unique (dropna sh))).
  set (w0 := logged w _).
  destruct (download_historical_prices_run E symbols "2009-01-01" "2020-12-31" w0)
    as (evs_a & Htr & _ & _ & _ & Hres).
  destruct (download_historical_prices_index symbols "2009-01-01" "2020-12-31" w0)
    as (evs' & h & Htr' & _ & Hin).
  assert (evs' = evs_a) as ->.
  { rewrite Htr in Htr'. by apply app_inv_head in Htr'. }
  rewrite run_bind.
  destruct (download_historical_prices E symbols "2009-01-01" "2020-12-31" w0)
    as [[l1|e] w1]; simpl in Htr.
  2: { destruct Hres as (_ & Hnone & _).
       apply list_elem_of_lookup in Hin as [i Hi].
       pose proof (Forall_lookup_1 _ _ _ _ Hnone Hi) as Hbars.
       by apply Hindex in Hbars. }
  destruct Hres as (_ & -> & prices & Hheap & Hcols & _).
  assert (heap w1 !! length (heap w0) = Some prices) as Hl1.
  { rewrite Hheap. by apply list_lookup_middle. }
  rewrite (stage_epilogue_run E _ _ _ _ prices w1 Hl1).
  rewrite run_bind, task_bc_run, logged_logged, run_bind.
  set (w2 := logged w1 _).
  pose proof (merge_datasets_returns E HE analyst_ratings_path headlines_path
                w2 A H A' H' HA HH HA' HH' Hdates Hurls) as Hok.
  destruct (merge_datasets_events E analyst_ratings_path headlines_path w2)
    as (evs_m & Htr_m & _).
  pose proof (merge_datasets_inv E analyst_ratings_path headlines_path w2
                (merge_datasets E analyst_ratings_path headlines_path w2).1
                (merge_datasets E analyst_ratings_path headlines_path w2).2)
    as Hinv.
  rewrite <- surjective_pairing in Hinv. specialize (Hinv eq_refl).
  destruct (merge_datasets E analyst_ratings_path headlines_path w2)
    as [[l2|e] w3]; [|done]. simpl in Htr_m, Hinv. clear Hok.
  destruct Hinv as [(e & [=] & _)|[(e & df & [=] & _)|Hinv]].
  destruct Hinv as (A0 & H0 & A0' & H0' & s & articles & df3 & news & HA0 & HH0 &
                    HA0' & HH0' & Hlen & Hdf3 & Hout & [= ->] & Hheap3).
  assert (A0 = A) as -> by congruence. assert (H0 = H) as -> by congruence.
  assert (A0' = A') as -> by congruence. assert (H0' = H') as -> by congruence.
  assert (heap w3 !! S (length (heap w2)) = Some news) as Hl2.
  { rewrite Hheap3. change (heap w2) with (heap w1).
    rewrite lookup_app_r by lia.
    replace (S (length (heap w1)) - length (heap w1)) with 1 by lia. done. }
  rewrite (stage_epilogue_run E _ _ _ _ news w3 Hl2).
  rewrite epilogue_run, logged_logged.
  exists (pre ++ (task_a_prologue ++ [Stdout (FoundSymbols (length symbols))]) ++
          evs_a ++ [Stdout (Text "Validating historical_prices schema...");
                    report E historical_prices_schema prices]),
         ([Stdout (SavedTo historical_prices_path)] ++ task_bc_prologue ++ evs_m ++
          [Stdout (Text "Validating all_news schema...");
           report E all_news_schema news]),
         ([Stdout (SavedTo all_news_path)] ++ main_epilogue), prices, news.
  split_and!.
  - done.
  - simpl. rewrite Htr_m. unfold w2. simpl. rewrite Htr. unfold w0. simpl.
    by rewrite <- !app_assoc.
  - done.
  - by destruct (out_spec E A' H' s articles df3 news Hdf3 Hout).
  - rewrite (length_out E A' H' s articles df3 news Hlen Hdf3 Hout HE).
    destruct (getitem_list_inv _ _ _ HA') as [_ <-].
    destruct (getitem_list_inv _ _ _ HH') as [_ <-].
    by rewrite length_app.
Qed.

End completion.

(** ** main in the scenario *)

Lemma main_aborts_without_prices_witness :
  let E := env_no_prices in
  fs E analyst_ratings_path = Some Scenario.analyst_ratings ∧
  fs E headlines_path = Some Scenario.headline_stubs ∧
  (∀ h symbol start_date end_date,
     bars_of (symbol, ticker_history E h symbol start_date end_date) = []) ∧
  ∃ e evs,
    (main E Scenario.start).1 = Raise e ∧
    (is_ok (getitem Scenario.analyst_ratings "symbol") = true →
     is_ok (getitem Scenario.headline_stubs "symbol") = true →
     e = ValueError "No historical price data could be downloaded") ∧
    trace (main E Scenario.start).2 = trace Scenario.start ++ evs ∧
    Forall (λ ev, ¬ is_to_csv ev ∧ ¬ is_http_get ev) evs.
Proof.
  split; [reflexivity|]. split; [reflexivity|]. split; [reflexivity|].
  apply (main_aborts_without_prices env_no_prices Scenario.start
           Scenario.analyst_ratings Scenario.headline_stubs eq_refl eq_refl).
  reflexivity.
Defined.

Lemma main_completes_witness :
  let E := Scenario.env in
  let A := Scenario.analyst_ratings in
  let H := Scenario.headline_stubs in
  library_contract E ∧
  fs E analyst_ratings_path = Some A ∧ fs E headlines_path = Some H ∧
  getitem_list A required_cols = Ok A ∧
  getitem_list H required_cols = Ok H ∧
  is_ok (to_datetime E ((λ src, field required_cols src "date")
                          <$> (rows A ++ rows H))) = true ∧
  Forall (λ src, is_str (field required_cols src "URL")) (rows A ++ rows H) ∧
  (∀ h start_date end_date,
     bars_of (CStr "^GSPC",
              ticker_history E h (CStr "^GSPC") start_date end_date) ≠ []) ∧
  ∃ evs1 evs2 evs3 prices news,
    (main E Scenario.start).1 = Ok () ∧
    trace (main E Scenario.start).2 =
      trace Scenario.start ++ evs1 ++ [ToCsv historical_prices_path prices] ++
      evs2 ++ [ToCsv all_news_path news] ++ evs3 ∧
    columns prices = price_columns ∧
    columns news = all_news_columns ∧
    length (rows news) = length (rows A) + length (rows H).
Proof.
  split; [exact env_contract|].
  split; [reflexivity|]. split; [reflexivity|].
  split; [reflexivity|]. split; [reflexivity|]. split; [reflexivity|].
  split; [repeat constructor|]. split; [done|].
  apply (main_completes Scenario.env Scenario.start
           Scenario.analyst_ratings Scenario.headline_stubs
           Scenario.analyst_ratings Scenario.headline_stubs
           env_contract eq_refl eq_refl eq_refl eq_refl eq_refl).
  - repeat constructor.
  - done.
Defined.

(** ** merge_datasets: how it can fail *)

Section merge_failures.
Context (E : Env).

(** The merge up to the parsing of the dates. *)
Lemma merge_datasets_preparation pa ph w :
  match fs E pa with
  | None =>
      merge_datasets E pa ph w =
        (Raise (FileNotFoundError pa), logged w [Stdout (Text "Merging datasets...")])
  | Some A =>
      match fs E ph with
      | None =>
          merge_datasets E pa ph w =
            (Raise (FileNotFoundError ph),
             logged w [Stdout (Text "Merging datasets..."); ReadCsv pa])
      | Some H =>
          let read :=
            [Stdout (Text "Merging datasets..."); ReadCsv pa; ReadCsv ph;
             Stdout (Loaded "analyst ratings" (length (rows A)));
             Stdout (Loaded "headlines" (length (rows H)))] in
          match getitem_list A required_cols with
          | Raise e => merge_datasets E pa ph w = (Raise e, logged w read)
          | Ok A' =>
              match getitem_list H required_cols with
              | Raise e => merge_datasets E pa ph w = (Raise e, logged w read)
              | Ok H' =>
                  match to_datetime E ((λ src, field required_cols src "date")
                                         <$> (rows A' ++ rows H')) with
                  | Raise e => merge_datasets E pa ph w = (Raise e, logged w read)
                  | Ok _ => True
                  end
              end
          end
      end
  end.
Proof.
  unfold merge_datasets.
  destruct (fs E pa) as [A|] eqn:HA.
  2: { erewrite bind_ok by apply print_run.
       rewrite run_bind. unfold read_csv. by rewrite HA. }
  destruct (fs E ph) as [H|] eqn:HH.
  2: { erewrite bind_ok by apply print_run.
       erewrite bind_ok by (by apply read_csv_run).
       rewrite run_bind. unfold read_csv. rewrite HH.
       by rewrite logged_logged. }
  cbn zeta.
  assert (∀ {B} (k : DataFrame → DataFrame → M B),
    (print (Text "Merging datasets...");;
     a ← read_csv E pa; h ← read_csv E ph;
     print (Loaded "analyst ratings" (length (rows a)));;
     print (Loaded "headlines" (length (rows h)));;
     k a h) w =
    k A H (logged w
      [Stdout (Text "Merging datasets..."); ReadCsv pa; ReadCsv ph;
       Stdout (Loaded "analyst ratings" (length (rows A)));
       Stdout (Loaded "headlines" (length (rows H)))])) as Hstart.
  { intros B k.
    erewrite bind_ok by apply print_run.
    erewrite bind_ok by (by apply read_csv_run).
    erewrite bind_ok by (by apply read_csv_run).
    erewrite bind_ok by apply print_run.
    erewrite bind_ok by apply print_run.
    by rewrite !logged_logged. }
  destruct (getitem_list A required_cols) as [A'|e] eqn:HA'.
  2: { rewrite Hstart. rewrite run_bind. unfold lift. by rewrite HA'. }
  destruct (getitem_list H required_cols) as [H'|e] eqn:HH'.
  2: { rewrite Hstart.
       erewrite bind_ok by (unfold lift; rewrite HA'; reflexivity).
       rewrite run_bind. unfold lift. by rewrite HH'. }
  destruct (to_datetime E _) as [parsed|e] eqn:Hparsed; [done|].
  rewrite Hstart.
  erewrite bind_ok by (unfold lift; rewrite HA'; reflexivity).
  erewrite bind_ok by (unfold lift; rewrite HH'; reflexivity).
  destruct (setitem_ok (concat required_cols [A'; H']) "id"
              (id_range (length (rows (concat required_cols [A'; H'])))))
    as [numbered Hnum].
  { apply length_id_range. }
  erewrite bind_ok by (unfold lift; rewrite Hnum; reflexivity).
  erewrite bind_ok
    by (unfold lift; rewrite (numbered_dates A' H' numbered Hnum); reflexivity).
  rewrite run_bind. unfold lift at 1. by rewrite Hparsed.
Qed.

Lemma download_articles_raises news_df delay w df e :
  heap w !! news_df = Some df →
  (download_articles E news_df delay w).1 = Raise e →
  bad_rows_error (columns df) (rows df) e.
Proof.
  intros Hdf. unfold download_articles.
  erewrite bind_ok by apply print_run.
  erewrite bind_ok by (unfold read_frame; simpl; rewrite Hdf; reflexivity).
  rewrite run_bind.
  set (w0 := logged w _).
  pose proof (article_loop_outcome E (columns df) (length (rows df)) delay
                (imap pair (rows df)) [] w0) as Hloop.
  rewrite snd_imap_pair in Hloop.
  destruct (for_in _ _ _ w0) as [[articles|e'] w1] eqn:Hrun; simpl in Hloop.
  - apply article_loop in Hrun as (new & -> & Hlen & _).
    rewrite length_imap in Hlen. simpl.
    destruct (setitem_ok df "article" (CStr <$> new)) as [df' Hset].
    { by rewrite length_fmap. }
    erewrite bind_ok by (unfold lift; rewrite Hset; reflexivity).
    erewrite bind_ok by reflexivity.
    erewrite bind_ok by apply print_run. done.
  - simpl. intros [= <-]. by destruct Hloop.
Qed.

(** Property X8.  Once the two stub files have been read as tables,
    [merge_datasets] can fail in four ways only: the first file lacks
    common columns, the second file does, the dates do not parse, or a URL
    is no str.  Only the last failure comes after article requests have
    been made. *)
Theorem merge_datasets_fails_in_four_ways
    (pa ph : string) (w : world) (A H : DataFrame) (e : exn) :
  library_contract E →
  fs E pa = Some A → fs E ph = Some H →
  (merge_datasets E pa ph w).1 = Raise e →
  merge_failure E A H e ∧
  ∃ evs,
    trace (merge_datasets E pa ph w).2 = trace w ++ evs ∧
    (Forall (λ ev, ¬ is_http_get ev) evs ∨ e = AttributeError "lower").
Proof.
  intros HE HA HH He.
  pose proof (merge_datasets_preparation pa ph w) as Hprep.
  rewrite HA, HH in Hprep. cbn zeta in Hprep.
  destruct (getitem_list A required_cols) as [A'|e'] eqn:HA'.
  2: { rewrite Hprep in He |- *. injection He as <-.
       unfold getitem_list in HA'.
       destruct (missing_labels (columns A) required_cols) eqn:Hm; [done|].
       injection HA' as <-. split.
       - rewrite <- Hm. apply first_file_lacks_columns. by rewrite Hm.
       - eexists. split; [done|]. left. repeat constructor; simpl; tauto. }
  destruct (getitem_list H required_cols) as [H'|e'] eqn:HH'.
  2: { rewrite Hprep in He |- *. injection He as <-.
       unfold getitem_list in HA', HH'.
       destruct (missing_labels (columns A) required_cols) eqn:HmA; [|done].
       destruct (missing_labels (columns H) required_cols) eqn:Hm; [done|].
       injection HH' as <-. split.
       - rewrite <- Hm. apply second_file_lacks_columns; [done|]. by rewrite Hm.
       - eexists. split; [done|]. left. repeat constructor; simpl; tauto. }
  destruct (to_datetime E _) as [parsed|e'] eqn:Hparsed.
  2: { rewrite Hprep in He |- *. injection He as <-.
       split; [by eapply dates_do_not_parse|].
       eexists. split; [done|]. left. repeat constructor; simpl; tauto. }
  clear Hprep.
  assert (¬ Forall (λ src, is_str (field required_cols src "URL"))
            (rows A' ++ rows H')) as Hurls.
  { intros Hurls.
    pose proof (merge_datasets_returns E HE pa ph w A H A' H' HA HH HA' HH') as Hok.
    rewrite Hparsed in Hok. specialize (Hok eq_refl Hurls).
    by rewrite He in Hok. }
  destruct (merge_datasets_events E pa ph w) as (evs & Htr & _).
  assert (e = AttributeError "lower") as ->; [|split; [by eapply url_is_no_str|eauto]].
  destruct (merge_steps_exist E A' H' parsed HE Hparsed) as [s _].
  destruct (merge_datasets_forward E pa ph w A H A' H' s HA HH HA' HH')
    as (w3 & Hheap3 & Hrun).
  rewrite Hrun in He. clear Hrun.
  set (sorted := sort_values E ["date"] (ms_dated E A' H' s)) in *.
  assert (heap w3 !! length (heap w) = Some sorted) as Hl3.
  { rewrite Hheap3. by apply list_lookup_middle. }
  destruct (dated_spec E A' H' s) as (Hc & _ & _).
  rewrite run_bind in He.
  destruct (download_articles E (length (heap w)) 1 w3) as [[r4|e4] w4] eqn:Hdl.
  - pose proof (download_articles_run E _ _ _ _ _ _ Hl3 Hdl) as Hda. simpl in Hda.
    destruct Hda as (-> & articles & df3 & Hlen & _ & Hset & Hheap).
    assert (heap w4 !! length (heap w) = Some df3) as Hl4.
    { rewrite Hheap. apply list_lookup_insert_eq. by eapply lookup_lt_Some. }
    rewrite run_bind in He. unfold read_frame at 1 in He. rewrite Hl4 in He.
    rewrite run_bind in He. unfold lift at 1 in He.
    destruct (setitem_article sorted _ _ Hc Hset) as (Hc3 & _ & _).
    unfold getitem_list in He. rewrite Hc3 in He.
    change (missing_labels (required_cols ++ ["article"]) all_news_columns)
      with (@nil string) in He.
    done.
  - simpl in He. injection He as <-.
    assert ((download_articles E (length (heap w)) 1 w3).1 = Raise e4) as Hr
      by (by rewrite Hdl).
    apply (download_articles_raises _ _ _ sorted _ Hl3) in Hr.
    unfold sorted, sort_values in Hr. simpl in Hr. rewrite Hc in Hr.
    by destruct Hr as [[_ ?]|[[_ ?]|[-> _]]].
Qed.

End merge_failures.

Lemma env_malformed_contract : library_contract Scenario.env_malformed.
Proof. destruct env_contract. by split. Qed.

(** The merge on a ratings file without its headline column. *)
Lemma merge_datasets_fails_in_four_ways_witness :
  let E := Scenario.env_malformed in
  let A := Scenario.ratings_without_headline in
  let H := Scenario.headline_stubs in
  let run := merge_datasets E analyst_ratings_path headlines_path Scenario.start in
  library_contract E ∧
  fs E analyst_ratings_path = Some A ∧ fs E headlines_path = Some H ∧
  run.1 = Raise (KeyError ["headline"]) ∧
  merge_failure E A H (KeyError ["headline"]) ∧
  ∃ evs,
    trace run.2 = trace Scenario.start ++ evs ∧
    (Forall (λ ev, ¬ is_http_get ev) evs ∨
     KeyError ["headline"] = AttributeError "lower").
Proof.
  split; [exact env_malformed_contract|].
  split; [reflexivity|]. split; [reflexivity|].
  split; [vm_compute; reflexivity|].
  apply (merge_datasets_fails_in_four_ways Scenario.env_malformed
           analyst_ratings_path headlines_path Scenario.start
           Scenario.ratings_without_headline Scenario.headline_stubs
           (KeyError ["headline"]) env_malformed_contract eq_refl eq_refl).
  vm_compute. reflexivity.
Defined.

(** ** The schema tests *)

Example path_join_cases :
  path_join "datasets" "all_news.csv" = "datasets/all_news.csv" ∧
  path_join "datasets/" "all_news.csv" = "datasets/all_news.csv" ∧
  path_join "datasets" "/tmp/all_news.csv" = "/tmp/all_news.csv" ∧
  path_join "" "all_news.csv" = "all_news.csv".
Proof. by vm_compute. Qed.

Section tests.
Context (E : Env) (repr_schema : DataFrameSchema → string).

Lemma load_and_validate_csv_returns filepath schema df w :
  fs E filepath = Some df → validate E schema df = [] →
  load_and_validate_csv E filepath schema w =
    (Ok (length (heap w)),
     {| trace := trace w ++ [ReadCsv filepath]; heap := heap w ++ [df] |}).
Proof.
  intros Hfs Hv. unfold load_and_validate_csv.
  erewrite bind_ok by (by apply read_csv_run).
  rewrite run_bind. unfold schema_validate. by rewrite Hv.
Qed.

Lemma load_and_validate_csv_absent filepath schema w :
  fs E filepath = None →
  load_and_validate_csv E filepath schema w = (Raise (FileNotFoundError filepath), w).
Proof.
  intros Hfs. unfold load_and_validate_csv. rewrite run_bind.
  unfold read_csv. by rewrite Hfs.
Qed.

(** Property X14.  The outcome of the schema test of one file. An absent
    file fails the test with its "File not found" message. A table with
    failure cases never reaches the per-case report of the test: the
    SchemaErrors already leaves [load_and_validate_csv], inside a [try] that
    catches FileNotFoundError only, so the test ends with that exception;
    and a table that passed there passes the second validation as well. The
    report branch is dead code. *)
Theorem schema_test_never_reports_failure_cases
    (filename : string) (schema : DataFrameSchema) (w : world) :
  let filepath := path_join DATASET_DIR filename in
  let run := test_dataset_schema_validation E repr_schema filename schema w in
  match fs E filepath with
  | None => run.1 = Ok (Failed (FileNotFound filepath))
  | Some df =>
      match validate E schema df with
      | [] => run.1 = Ok (Returns ())
      | failure_cases => run.1 = Raise (SchemaErrors failure_cases)
      end
  end ∧
  ∀ path failure_cases, run.1 ≠ Ok (Failed (SchemaFailed path failure_cases)).
Proof.
  intros filepath run.
  assert (match fs E filepath with
          | None => run.1 = Ok (Failed (FileNotFound filepath))
          | Some df =>
              match validate E schema df with
              | [] => run.1 = Ok (Returns ())
              | failure_cases => run.1 = Raise (SchemaErrors failure_cases)
              end
          end) as Hrun.
  { unfold run, test_dataset_schema_validation. fold filepath.
    erewrite bind_ok by apply print_run. rewrite run_bind.
    unfold try_except. rewrite run_bind.
    destruct (fs E filepath) as [df|] eqn:Hfs.
    - destruct (validate E schema df) as [|fc fcs] eqn:Hv.
      + rewrite (load_and_validate_csv_returns _ _ df) by done.
        cbn [mret M_ret]. rewrite run_bind.
        unfold read_frame. cbn [heap logged].
        rewrite list_lookup_middle by done.
        unfold schema_validate. rewrite Hv.
        erewrite bind_ok by reflexivity.
        erewrite bind_ok by apply print_run. done.
      + rewrite (load_and_validate_csv_raises E _ _ df) by (by rewrite ?Hv).
        by rewrite Hv.
    - by rewrite load_and_validate_csv_absent. }
  split; [done|].
  intros path failure_cases Heq.
  destruct (fs E filepath) as [df|]; [|by rewrite Hrun in Heq].
  destruct (validate E schema df); by rewrite Hrun in Heq.
Qed.

End tests.

(** Property X15.  The table of [get_dataset_files] is never empty, so the
    function never skips: it gives 18 cases with distinct file names, and
    every data set has a sample twin ([sample_] before its name) that is
    checked against the same schema. *)
Theorem get_dataset_files_pairs_samples :
  ∃ datasets,
    get_dataset_files = Returns datasets ∧
    length datasets = 18 ∧
    NoDup datasets.*1 ∧
    ∀ name schema,
      (name, schema) ∈ datasets →
      String.prefix "sample_" name = false →
      ("sample_" +:+ name, schema) ∈ datasets.
Proof.
  eexists. split; [reflexivity|]. split; [reflexivity|]. split.
  - apply (bool_decide_unpack _). by vm_compute.
  - intros name schema Hin Hpre.
    apply list_elem_of_lookup in Hin as [i Hi].
    do 18 (destruct i as [|i];
           [injection Hi as <- <-;
            first [discriminate Hpre
                  | apply (bool_decide_unpack _); by vm_compute]|]).
    done.
Qed.

(** ** merge_datasets reads the common columns only *)

(** Property X9.  Two pairs of stub files with the same projection on the
    common columns give the same run of [merge_datasets]: the same result,
    the same trace, the same tables. Other columns of the stub files, and
    the order of their columns, have no effect. *)
Theorem merge_datasets_reads_only_common_columns
    (E : Env) (files : string → option DataFrame) (pa ph : string) (w : world)
    (A H A2 H2 A' H' : DataFrame) :
  fs E pa = Some A → fs E ph = Some H →
  files pa = Some A2 → files ph = Some H2 →
  getitem_list A required_cols = Ok A' →
  getitem_list A2 required_cols = Ok A' →
  getitem_list H required_cols = Ok H' →
  getitem_list H2 required_cols = Ok H' →
  merge_datasets (with_fs E files) pa ph w = merge_datasets E pa ph w.
Proof.
  intros HA HH HA2 HH2 HA' HA2' HH' HH2'.
  destruct (getitem_list_inv _ _ _ HA') as [_ HlA].
  destruct (getitem_list_inv _ _ _ HA2') as [_ HlA2].
  destruct (getitem_list_inv _ _ _ HH') as [_ HlH].
  destruct (getitem_list_inv _ _ _ HH2') as [_ HlH2].
  unfold merge_datasets.
  erewrite bind_ok by apply print_run.
  erewrite bind_ok by (by apply read_csv_run).
  erewrite bind_ok by (by apply read_csv_run).
  erewrite bind_ok by apply print_run.
  erewrite bind_ok by apply print_run.
  erewrite bind_ok by (unfold lift; rewrite HA2'; reflexivity).
  erewrite bind_ok by (unfold lift; rewrite HH2'; reflexivity).
  symmetry.
  erewrite bind_ok by apply print_run.
  erewrite bind_ok by (by apply read_csv_run).
  erewrite bind_ok by (by apply read_csv_run).
  erewrite bind_ok by apply print_run.
  erewrite bind_ok by apply print_run.
  erewrite bind_ok by (unfold lift; rewrite HA'; reflexivity).
  erewrite bind_ok by (unfold lift; rewrite HH'; reflexivity).
  rewrite <- HlA, <- HlH, HlA2, HlH2. reflexivity.
Qed.

(** The ratings of the scenario with a column more, in another order. *)
Lemma merge_datasets_reads_only_common_columns_witness :
  let E := Scenario.env in
  let A := Scenario.analyst_ratings in
  let H := Scenario.headline_stubs in
  fs E analyst_ratings_path = Some A ∧ fs E headlines_path = Some H ∧
  files_with_note analyst_ratings_path = Some ratings_with_note ∧
  files_with_note headlines_path = Some H ∧
  getitem_list A required_cols = Ok A ∧
  getitem_list ratings_with_note required_cols = Ok A ∧
  getitem_list H required_cols = Ok H ∧
  merge_datasets (with_fs E files_with_note) analyst_ratings_path headlines_path
    Scenario.start =
  merge_datasets E analyst_ratings_path headlines_path Scenario.start.
Proof.
  split; [reflexivity|]. split; [reflexivity|]. split; [reflexivity|].
  split; [reflexivity|]. split; [reflexivity|]. split; [reflexivity|].
  split; [reflexivity|].
  apply (merge_datasets_reads_only_common_columns Scenario.env files_with_note
           analyst_ratings_path headlines_path Scenario.start
           Scenario.analyst_ratings Scenario.headline_stubs
           ratings_with_note Scenario.headline_stubs
           Scenario.analyst_ratings Scenario.headline_stubs);
    reflexivity.
Defined.

(** ** main: the symbols whose prices it requests *)

Lemma fetches_none (P : event → Prop) evs :
  (∀ ev, P ev → fetch_of ev = None) → Forall P evs → fetches evs = [].
Proof.
  intros HP. induction 1 as [|ev evs Hev _ IH]; [done|].
  unfold fetches in *. simpl. by rewrite (HP ev Hev).
Qed.

Lemma fetches_merge evs : Forall merge_event evs → fetches evs = [].
Proof. apply fetches_none. by intros []. Qed.

Lemma fetch_of_report E schema df : fetch_of (report E schema df) = None.
Proof. unfold report. by destruct (validate E schema df). Qed.

Lemma elem_of_dropna (s : list cell) c : c ∈ dropna s ↔ isna c = false ∧ c ∈ s.
Proof. unfold dropna. apply (list_elem_of_filter (λ d, isna d = false)). Qed.

(** Property X13.  When both stub files have a symbol column, [main]
    requests prices exactly for the symbols found in that column of either
    file, null cells left out, and for the index ['^GSPC']. *)
Theorem main_requests_prices_for_the_stub_symbols
    (E : Env) (w : world) (A H : DataFrame) (sa sh : list cell) :
  library_contract E →
  fs E analyst_ratings_path = Some A → fs E headlines_path = Some H →
  getitem A "symbol" = Ok sa → getitem H "symbol" = Ok sh →
  ∃ evs,
    trace (main E w).2 = trace w ++ evs ∧
    ∀ s, s ∈ (fetches evs).*1 ↔
         s = CStr "^GSPC" ∨ (isna s = false ∧ (s ∈ sa ∨ s ∈ sh)).
Proof.
  intros HE HA HH Hsa Hsh.
  set (symbols := list_set E (unique (dropna sa) ++ unique (dropna sh))).
  assert (∀ evs_a,
            (fetches evs_a).*1 = list_set E symbols ++ [CStr "^GSPC"] →
            ∀ s, s ∈ (fetches evs_a).*1 ↔
                 s = CStr "^GSPC" ∨ (isna s = false ∧ (s ∈ sa ∨ s ∈ sh)))
    as Hsymbols.
  { intros evs_a -> s.
    rewrite elem_of_app, list_elem_of_singleton, (list_set_elem E HE).
    unfold symbols. rewrite (list_set_elem E HE), elem_of_app.
    rewrite !elem_of_unique, !elem_of_dropna. tauto. }
  rewrite (main_inputs_present E w A H HA HH). rewrite run_bind.
  set (pre := main_prologue ++ [PathExists analyst_ratings_path true;
                                PathExists headlines_path true]).
  rewrite (task_a_run E _ A H sa sh HA HH Hsa Hsh). rewrite logged_logged.
  fold symbols.
  set (w0 := logged w _).
  destruct (download_historical_prices_run E symbols "2009-01-01" "2020-12-31" w0)
    as (evs_a & Htr & Hsyms & _ & _ & Hres).
  specialize (Hsymbols evs_a Hsyms).
  rewrite run_bind.
  destruct (download_historical_prices E symbols "2009-01-01" "2020-12-31" w0)
    as [[l1|e] w1]; simpl in Htr.
  2: { exists (pre ++ (task_a_prologue ++ [Stdout (FoundSymbols (length symbols))])
                ++ evs_a).
       split; [simpl; rewrite Htr; unfold w0; simpl; by rewrite <- !app_assoc|].
       by rewrite !fetches_app. }
  destruct Hres as (_ & -> & prices & Hheap & _).
  assert (heap w1 !! length (heap w0) = Some prices) as Hl1.
  { rewrite Hheap. by apply list_lookup_middle. }
  rewrite (stage_epilogue_run E _ _ _ _ prices w1 Hl1).
  rewrite run_bind, task_bc_run, logged_logged, run_bind.
  set (w2 := logged w1 _).
  destruct (merge_datasets_events E analyst_ratings_path headlines_path w2)
    as (evs_m & Htr_m & Hevs_m).
  apply fetches_merge in Hevs_m.
  destruct (merge_datasets_heap E analyst_ratings_path headlines_path w2)
    as [_ Hfresh].
  destruct (merge_datasets E analyst_ratings_path headlines_path w2)
    as [[l2|e] w3]; simpl in Htr_m, Hfresh.
  2: { exists (pre ++ (task_a_prologue ++ [Stdout (FoundSymbols (length symbols))])
                ++ evs_a ++
                (stage_epilogue E "Validating historical_prices schema..."
                   historical_prices_schema prices historical_prices_path ++
                 task_bc_prologue) ++ evs_m).
       split.
       - simpl. rewrite Htr_m. unfold w2. simpl. rewrite Htr. unfold w0. simpl.
         by rewrite <- !app_assoc.
       - rewrite !fetches_app, Hevs_m. unfold fetches at 1 2 4 5.
         simpl. rewrite fetch_of_report. simpl. by rewrite app_nil_r. }
  destruct (Hfresh l2 eq_refl) as [_ [news Hnews]].
  rewrite (stage_epilogue_run E _ _ _ _ news w3 Hnews).
  rewrite epilogue_run, logged_logged.
  exists (pre ++ (task_a_prologue ++ [Stdout (FoundSymbols (length symbols))])
            ++ evs_a ++
            (stage_epilogue E "Validating historical_prices schema..."
               historical_prices_schema prices historical_prices_path ++
             task_bc_prologue) ++ evs_m ++
            (stage_epilogue E "Validating all_news schema..." all_news_schema
               news all_news_path ++ main_epilogue)).
  split.
  - simpl. rewrite Htr_m. unfold w2. simpl. rewrite Htr. unfold w0. simpl.
    by rewrite <- !app_assoc.
  - rewrite !fetches_app, Hevs_m. unfold fetches at 1 2 4 5 6 7.
    simpl. rewrite !fetch_of_report. simpl. by rewrite app_nil_r.
Qed.

Lemma main_requests_prices_for_the_stub_symbols_witness :
  let E := Scenario.env in
  let sa := [CStr "AAPL"; CStr "MSFT"; CNaN] in
  let sh := [CStr "AAPL"; CStr "TSLA"; CStr "AAPL"; CStr "NONE"; CStr "MSFT"] in
  library_contract E ∧
  fs E analyst_ratings_path = Some Scenario.analyst_ratings ∧
  fs E headlines_path = Some Scenario.headline_stubs ∧
  getitem Scenario.analyst_ratings "symbol" = Ok sa ∧
  getitem Scenario.headline_stubs "symbol" = Ok sh ∧
  ∃ evs,
    trace (main E Scenario.start).2 = trace Scenario.start ++ evs ∧
    ∀ s, s ∈ (fetches evs).*1 ↔
         s = CStr "^GSPC" ∨ (isna s = false ∧ (s ∈ sa ∨ s ∈ sh)).
Proof.
  split; [exact env_contract|].
  split; [reflexivity|]. split; [reflexivity|].
  split; [reflexivity|]. split; [reflexivity|].
  apply (main_requests_prices_for_the_stub_symbols Scenario.env Scenario.start
           Scenario.analyst_ratings Scenario.headline_stubs _ _ env_contract
           eq_refl eq_refl eq_refl eq_refl).
Defined.
